(** * Consciousness memory: bank store, pattern extractor and unified ranker

    A shallow embedding of the core of [src/modules/consciousness_memory]
    ([bank_manager.ts], [pattern_extractor.js], [unified_search.ts]) and of
    the session manager of [src/server/index.ts], with the properties the
    specification states about them and further properties of the code.

    Conventions of the model.
    - A JavaScript string is the list of its code units.  The model keeps
      the code units below 256 (one [ascii] each); on those,
      [String.prototype.toLowerCase] is the unit-wise map below and
      [String.prototype.trim] strips the units 9-13, 32 and 160.
    - A JavaScript number is a finite rational ([Q]); the constants 1.1,
      1.15, 0.9, ... are the decimal fractions the source writes, and
      products are exact: the rounding of the doubles of the platform is
      not modelled, so the properties of scores are those that do not turn
      on the last digit of a product.  Inside JSON values a number is the
      decimal that denotes it ([number]).
    - A call that can throw returns an [outcome]; the file system and the
      clock are passed explicitly. *)

From Stdlib Require Import Ascii String ZArith QArith Qminmax Bool Lia Lqa List.
From Stdlib Require Import Permutation Sorted DecimalString DecimalZ DecimalPos.
Import ListNotations.

Set Implicit Arguments.

(* ===================================================================== *)
(** * Part I: the model                                                   *)
(* ===================================================================== *)

(** ** Strings *)

Module JsString.

Abbreviation jsstring := (list ascii).

(** A string literal of the source. *)
Definition str (s : string) : jsstring := list_ascii_of_string s.

Definition code (c : ascii) : N := N_of_ascii c.

(** The units with a lower-case counterpart: A-Z and the Latin-1 capitals
    (192-222 without the multiplication sign 215). *)
Definition isUpper (c : ascii) : bool :=
  let n := code c in
  ((65 <=? n) && (n <=? 90) ||
   (192 <=? n) && (n <=? 222) && negb (n =? 215))%N.

Definition toLowerUnit (c : ascii) : ascii :=
  if isUpper c then ascii_of_N (code c + 32) else c.

(** [s.toLowerCase()] *)
Definition toLowerCase (s : jsstring) : jsstring := map toLowerUnit s.

Definition isWhiteSpace (c : ascii) : bool :=
  let n := code c in
  ((9 <=? n) && (n <=? 13) || (n =? 32) || (n =? 160))%N.

Fixpoint trimStart (s : jsstring) : jsstring :=
  match s with
  | c :: s' => if isWhiteSpace c then trimStart s' else s
  | [] => []
  end.

Definition trimEnd (s : jsstring) : jsstring := rev (trimStart (rev s)).

(** [s.trim()] *)
Definition trim (s : jsstring) : jsstring := trimEnd (trimStart s).

Fixpoint startsWith (k s : jsstring) : bool :=
  match k, s with
  | [], _ => true
  | a :: k', b :: s' => Ascii.eqb a b && startsWith k' s'
  | _ :: _, [] => false
  end.

(** [s.includes(k)] *)
Fixpoint includes (s k : jsstring) : bool :=
  startsWith k s ||
  match s with
  | [] => false
  | _ :: s' => includes s' k
  end.

(** [l.join(sep)] *)
Fixpoint join (sep : jsstring) (l : list jsstring) : jsstring :=
  match l with
  | [] => []
  | [x] => x
  | x :: rest => x ++ sep ++ join sep rest
  end.

(** [s.split(sep)] for a one-unit separator: every occurrence cuts, empty
    pieces are kept, and the empty string gives one empty piece. *)
Fixpoint splitOn (sep : ascii) (s : jsstring) : list jsstring :=
  match s with
  | [] => [[]]
  | c :: s' =>
      if Ascii.eqb c sep then [] :: splitOn sep s'
      else match splitOn sep s' with
           | piece :: rest => (c :: piece) :: rest
           | [] => [[c]]
           end
  end.

(** [s.split(/[class]+/)]: a maximal run of units of the class is one
    separator.  [inRun] tells that the previous unit belonged to a run. *)
Fixpoint splitRuns (sep : ascii -> bool) (inRun : bool) (s : jsstring)
  : list jsstring :=
  match s with
  | [] => [[]]
  | c :: s' =>
      if sep c then
        if inRun then splitRuns sep true s' else [] :: splitRuns sep true s'
      else match splitRuns sep false s' with
           | piece :: rest => (c :: piece) :: rest
           | [] => [[c]]
           end
  end.

(** The character class [[.!?]]. *)
Definition isSentenceBreak (c : ascii) : bool :=
  Ascii.eqb c "."%char || Ascii.eqb c "!"%char || Ascii.eqb c "?"%char.

(** [content.split(/[.!?]+/)] *)
Definition splitSentences (content : jsstring) : list jsstring :=
  splitRuns isSentenceBreak false content.

(** [s.slice(0, n)] *)
Definition slice0 (n : N) (s : jsstring) : jsstring := firstn (N.to_nat n) s.

(** [a === b] on strings. *)
Fixpoint eqb (a b : jsstring) : bool :=
  match a, b with
  | [], [] => true
  | x :: a', y :: b' => Ascii.eqb x y && eqb a' b'
  | _, _ => false
  end.

(** The line feed, ["\n"]. *)
Definition LF : ascii := ascii_of_N 10.

(** A search word whose first and last units are not white space
    (every keyword of the extractor is one). *)
Definition solid (k : jsstring) : bool :=
  match k, rev k with
  | c :: _, d :: _ => negb (isWhiteSpace c) && negb (isWhiteSpace d)
  | _, _ => false
  end.

End JsString.
Import JsString.

(** ** Calls that can throw *)

Inductive js_error : Type :=
| TypeError (what : jsstring)          (* property access on undefined/null *)
| Error (message : jsstring)           (* [new Error(message)] *)
| SystemError (errcode : jsstring).    (* a rejected [fs] call, with its [code] *)

Inductive outcome (A : Type) : Type :=
| Ok (a : A)
| Throw (e : js_error).
Arguments Ok {A} a.
Arguments Throw {A} e.

Definition bind {A B : Type} (m : outcome A) (k : A -> outcome B) : outcome B :=
  match m with
  | Ok a => k a
  | Throw e => Throw e
  end.

Notation "x <- m ;; k" := (bind m (fun x => k))
  (at level 61, m at next level, right associativity).


(** ** Arrays *)

Module JsArray.

(** [Array.prototype.sort(cmp)] is stable: while [x] is put in place it
    moves behind [y] only when [cmp(x, y) > 0]. *)
Fixpoint sortInsert (A : Type) (cmp : A -> A -> Q) (x : A) (l : list A) : list A :=
  match l with
  | [] => [x]
  | y :: l' =>
      if Qlt_le_dec 0 (cmp x y) then y :: sortInsert cmp x l'
      else x :: y :: l'
  end.

Definition sort (A : Type) (cmp : A -> A -> Q) (l : list A) : list A :=
  fold_right (sortInsert cmp) [] l.

End JsArray.
Import JsArray.

(** ** JSON values and JavaScript objects *)

Module Json.

(** A number of a JSON value, held as the decimal that denotes it:
    [digits * 10 ^ exponent].  The numbers of the platform are doubles;
    [JSON.stringify] prints a finite double as the shortest decimal that
    [JSON.parse] reads back as the same double, so a double is held as
    that decimal, written without trailing zeros ([canonical]): 0.7 is
    [7 * 10 ^ -1].  NaN and the infinities are no JSON values.  The store
    copies and compares the numbers of its records, it never computes
    with them. *)
Record number : Type := { digits : Z; exponent : Z }.

(** The one way a value is written: no trailing zero in the digits, and
    zero as [0 * 10 ^ 0]. *)
Definition canonical (x : number) : bool :=
  if Z.eqb (digits x) 0 then Z.eqb (exponent x) 0
  else negb (Z.eqb (digits x mod 10) 0).

(** The value of a number. *)
Definition valueOf (x : number) : Q :=
  inject_Z (digits x) * Qpower 10 (exponent x).

(** [x === y] on numbers. *)
Definition numberEqb (x y : number) : bool :=
  Qeq_bool (valueOf x) (valueOf y).


(** A parsed JSON value.  An object is the list of its own properties in
    insertion order (property names that are array indices, which
    JavaScript lists first, are outside the model). *)
#[warnings="-register-all"]
Inductive json : Type :=
| JNull
| JBool (b : bool)
| JNum (n : number)
| JStr (s : jsstring)
| JArr (items : list json)
| JObj (props : list (jsstring * json)).

Abbreviation jobject := (list (jsstring * json)).

(** [o[k]]; [None] is [undefined]. *)
Fixpoint get (k : jsstring) (o : jobject) : option json :=
  match o with
  | [] => None
  | (k', v) :: o' => if eqb k k' then Some v else get k o'
  end.

(** [o[k] = v]: an existing property keeps its place, a new one goes
    last. *)
Fixpoint set (k : jsstring) (v : json) (o : jobject) : jobject :=
  match o with
  | [] => [(k, v)]
  | (k', v') :: o' =>
      if eqb k k' then (k, v) :: o' else (k', v') :: set k v o'
  end.

(** [{ ...base, ...src }]: the properties of [src] are assigned in order
    onto a copy of [base]. *)
Definition spread (base src : jobject) : jobject :=
  fold_left (fun acc kv => set (fst kv) (snd kv) acc) src base.

(** [a === b], where [a] and [b] are property reads.  Arrays and objects
    compare by identity; the two sides never alias in this program (one
    comes from a fresh [JSON.parse], the other from the caller). *)
Definition strictEquals (a b : option json) : bool :=
  match a, b with
  | None, None => true
  | Some JNull, Some JNull => true
  | Some (JBool x), Some (JBool y) => Bool.eqb x y
  | Some (JNum x), Some (JNum y) => numberEqb x y
  | Some (JStr x), Some (JStr y) => eqb x y
  | _, _ => false
  end.

(** Truthiness of a property read, as [if (x)] tests it. *)
Definition truthy (a : option json) : bool :=
  match a with
  | None | Some JNull => false
  | Some (JBool b) => b
  | Some (JNum n) => negb (Z.eqb (digits n) 0)
  | Some (JStr s) => match s with [] => false | _ => true end
  | Some (JArr _) | Some (JObj _) => true
  end.

Fixpoint nodupKeys (ks : list jsstring) : bool :=
  match ks with
  | [] => true
  | k :: ks' => negb (existsb (eqb k) ks') && nodupKeys ks'
  end.

(** The values a JavaScript object graph can hold: no object lists a
    property name twice, and a number is written in the one way it has. *)
Fixpoint wellFormed (v : json) : bool :=
  match v with
  | JNum n => canonical n
  | JArr items => forallb wellFormed items
  | JObj props =>
      nodupKeys (map fst props) &&
      forallb (fun kv => wellFormed (snd kv)) props
  | _ => true
  end.

(** [JSON.stringify] and [JSON.parse]; [None] is a thrown SyntaxError. *)
Record JsonCodec : Type := {
  JSON_stringify : json -> jsstring;
  JSON_parse : jsstring -> option json
}.

(** The contract of the platform's JSON on the values of the model:
    what [JSON.stringify] prints, [JSON.parse] reads back; the print is
    one non-blank line; a parsed value is a value. *)
Record JsonLaws (JSON : JsonCodec) : Prop := {
  parse_stringify :
    forall v, wellFormed v = true ->
              JSON_parse JSON (JSON_stringify JSON v) = Some v;
  stringify_line :
    forall v, ~ In LF (JSON_stringify JSON v) /\
              trim (JSON_stringify JSON v) <> [];
  parse_wellFormed :
    forall s v, JSON_parse JSON s = Some v -> wellFormed v = true
}.

End Json.
Import Json.

(** ** Search results ([interfaces.ts]) *)

Module Unified.

Inductive Source : Type := session | memory_bank.

Record ResultContext : Type := {
  projectId : option jsstring;
  sessionId : option jsstring;
  timestamp : option json
}.

Record UnifiedConsciousnessResult : Type := {
  source : Source;
  bankName : option jsstring;
  entityName : option json;
  content : jsstring;
  relevanceScore : Q;
  context : ResultContext
}.

(** The comparator [(a, b) => b.relevanceScore - a.relevanceScore]. *)
Definition byRelevanceDesc (a b : UnifiedConsciousnessResult) : Q :=
  relevanceScore b - relevanceScore a.

End Unified.

(** ** The bank store ([bank_manager.ts]) *)

Module BankManager.

Record KnowledgeGraph : Type := {
  entities : list jobject;
  relations : list jobject
}.

Record DeveloperMemoryBank : Type := {
  name : jsstring;
  filePath : jsstring;
  description : jsstring;
  entityTypes : list jsstring;
  graph : KnowledgeGraph
}.

(** The files of the host, by path: absent, a regular file, or a path
    whose access is rejected with the given [code] (EACCES, EISDIR, ...). *)
Inductive node : Type :=
| File (data : jsstring)
| Rejects (errcode : jsstring).

Definition FileSystem : Type := jsstring -> option node.

(** [fs.readFile(path, "utf-8")] *)
Definition readFile (fs : FileSystem) (path : jsstring) : outcome jsstring :=
  match fs path with
  | Some (File data) => Ok data
  | Some (Rejects c) => Throw (SystemError c)
  | None => Throw (SystemError (str "ENOENT"))
  end.

(** [fs.writeFile(path, data)]: replaces the whole file. *)
Definition writeFile (fs : FileSystem) (path data : jsstring) : outcome FileSystem :=
  match fs path with
  | Some (Rejects c) => Throw (SystemError c)
  | _ => Ok (fun p => if eqb p path then Some (File data) else fs p)
  end.

(** [fs.mkdir(dir, { recursive: true })]; directories are not tracked. *)
Definition mkdir (fs : FileSystem) (dir : jsstring) : outcome FileSystem := Ok fs.

(** [path.dirname], for the paths with a slash: the part before the last
    one. *)
Fixpoint dirname (p : jsstring) : jsstring :=
  match p with
  | [] => []
  | c :: p' =>
      if existsb (Ascii.eqb "/"%char) p' then c :: dirname p' else []
  end.

Section Store.

Variable JSON : JsonCodec.

(** What [loadBankGraph] hands back, with the lines it warned about on
    the console. *)
Record Loaded : Type := {
  loadedGraph : KnowledgeGraph;
  warned : list jsstring
}.

(** The body of the [reduce] in [loadBankGraph]: one line. *)
Definition loadLine (acc : Loaded) (line : jsstring) : Loaded :=
  let graph := loadedGraph acc in
  match JSON_parse JSON line with
  | None =>                       (* SyntaxError, caught: console.warn *)
      {| loadedGraph := graph; warned := warned acc ++ [line] |}
  | Some JNull =>                 (* [item.type] throws, caught: console.warn *)
      {| loadedGraph := graph; warned := warned acc ++ [line] |}
  | Some (JObj item) =>
      let graph :=
        if strictEquals (get (str "type") item) (Some (JStr (str "entity")))
        then {| entities := entities graph ++ [item];
                relations := relations graph |}
        else graph in
      let graph :=
        if strictEquals (get (str "type") item) (Some (JStr (str "relation")))
        then {| entities := entities graph;
                relations := relations graph ++ [item] |}
        else graph in
      {| loadedGraph := graph; warned := warned acc |}
  | Some _ =>                     (* [item.type] is undefined *)
      {| loadedGraph := graph; warned := warned acc |}
  end.

Definition emptyGraph : KnowledgeGraph := {| entities := []; relations := [] |}.

(** The lines [loadBankGraph] looks at:
    [data.split(LF).filter(line => line.trim() !== empty)]. *)
Definition bankLines (data : jsstring) : list jsstring :=
  filter (fun line => negb (eqb (trim line) [])) (splitOn LF data).

(** [loadBankGraph(bank)] *)
Definition loadBankGraph (fs : FileSystem) (bank : DeveloperMemoryBank)
  : outcome Loaded :=
  match readFile fs (filePath bank) with
  | Ok data =>
      let lines := bankLines data in
      Ok (fold_left loadLine lines {| loadedGraph := emptyGraph; warned := [] |})
  | Throw (SystemError c) =>
      if eqb c (str "ENOENT")
      then Ok {| loadedGraph := emptyGraph; warned := [] |}
      else Throw (SystemError c)
  | Throw e => Throw e
  end.

(** [{ type: t, memoryBank: bank.name, ...r }] *)
Definition tagged (t : string) (bank : DeveloperMemoryBank) (r : jobject) : jobject :=
  spread [(str "type", JStr (str t)); (str "memoryBank", JStr (name bank))] r.

(** The [lines] of [saveBankGraph]: every entity, then every relation,
    one JSON text each. *)
Definition savedLines (bank : DeveloperMemoryBank) (graph : KnowledgeGraph)
  : list jsstring :=
  map (fun e => JSON_stringify JSON (JObj (tagged "entity" bank e)))
      (entities graph) ++
  map (fun r => JSON_stringify JSON (JObj (tagged "relation" bank r)))
      (relations graph).

(** [saveBankGraph(bank, graph)] *)
Definition saveBankGraph (fs : FileSystem) (bank : DeveloperMemoryBank)
    (graph : KnowledgeGraph) : outcome FileSystem :=
  let lines := savedLines bank graph in
  let dir := dirname (filePath bank) in
  fs <- mkdir fs dir ;;
  writeFile fs (filePath bank) (join [LF] lines).

(** The [Map] of banks, in insertion order. *)
Definition Banks : Type := list (jsstring * DeveloperMemoryBank).

(** [this.banks.get(bankName)] *)
Fixpoint banksGet (banks : Banks) (bankName : jsstring)
  : option DeveloperMemoryBank :=
  match banks with
  | [] => None
  | (k, b) :: rest => if eqb bankName k then Some b else banksGet rest bankName
  end.

Definition bankNotFound (bankName : jsstring) : js_error :=
  Error (str "Consciousness bank '" ++ bankName ++ str "' not found").

Definition getBank (banks : Banks) (bankName : jsstring)
  : outcome DeveloperMemoryBank :=
  match banksGet banks bankName with
  | Some bank => Ok bank
  | None => Throw (bankNotFound bankName)
  end.

(** The filter of [createEntitiesInBank]:
    [e => !graph.entities.some(existingEntity =>
             existingEntity.name === e.name)]. *)
Definition nameIsNew (graph : KnowledgeGraph) (e : jobject) : bool :=
  negb (existsb (fun existingEntity =>
                   strictEquals (get (str "name") existingEntity)
                                (get (str "name") e))
                (entities graph)).

(** [{ ...e, createdAt: timestamp, memoryBank: bankName }] *)
Definition stamped (timestamp bankName : jsstring) (e : jobject) : jobject :=
  set (str "memoryBank") (JStr bankName)
    (set (str "createdAt") (JStr timestamp) (spread [] e)).

(** [createEntitiesInBank(bankName, entities)]; [timestamp] is
    [new Date().toISOString()].  Returns the stored entities and the
    file system it leaves. *)
Definition createEntitiesInBank (banks : Banks) (fs : FileSystem)
    (timestamp : jsstring) (bankName : jsstring) (incoming : list jobject)
  : outcome (list jobject * FileSystem) :=
  bank <- getBank banks bankName ;;
  loaded <- loadBankGraph fs bank ;;
  let graph := loadedGraph loaded in
  let newEntities :=
    map (stamped timestamp bankName)
        (filter (nameIsNew graph) incoming) in
  let graph := {| entities := entities graph ++ newEntities;
                  relations := relations graph |} in
  fs' <- saveBankGraph fs bank graph ;;
  Ok (newEntities, fs').

(** What one line of a bank file contributes, read off [loadLine]:
    the entity or the relation it holds, or a warning. *)
Definition lineEntities (line : jsstring) : list jobject :=
  match JSON_parse JSON line with
  | Some (JObj item) =>
      if strictEquals (get (str "type") item) (Some (JStr (str "entity")))
      then [item] else []
  | _ => []
  end.

Definition lineRelations (line : jsstring) : list jobject :=
  match JSON_parse JSON line with
  | Some (JObj item) =>
      if strictEquals (get (str "type") item) (Some (JStr (str "relation")))
      then [item] else []
  | _ => []
  end.

Definition lineWarns (line : jsstring) : bool :=
  match JSON_parse JSON line with
  | None | Some JNull => true
  | Some _ => false
  end.

(** [v.toLowerCase()] on a property read: only a string has the
    method. *)
Definition lowered (v : option json) : outcome jsstring :=
  match v with
  | Some (JStr s) => Ok (toLowerCase s)
  | _ => Throw (TypeError (str "toLowerCase"))
  end.

(** What [for (const observation of entity.observations)] iterates. *)
Definition iterate (v : option json) : outcome (list json) :=
  match v with
  | Some (JArr items) => Ok items
  | Some (JStr s) => Ok (map (fun c => JStr [c]) s)
  | _ => Throw (TypeError (str "not iterable"))
  end.

(** [`${label}${v}`] for a string [v]. *)
Definition labelled (label : string) (v : json) : jsstring :=
  match v with
  | JStr s => str label ++ s
  | _ => str label
  end.

(** The observation loop of [searchBank]. *)
Fixpoint scanObservations (queryLower : jsstring) (observations : list json)
    (acc : Z * list jsstring) : outcome (Z * list jsstring) :=
  match observations with
  | [] => Ok acc
  | observation :: rest =>
      lower <- lowered (Some observation) ;;
      scanObservations queryLower rest
        (if includes lower queryLower
         then (fst acc + 3, snd acc ++ [labelled "Observation: " observation])%Z
         else acc)
  end.

(** The body of the entity loop of [searchBank]. *)
Definition searchEntity (bankName queryLower : jsstring) (entity : jobject)
  : outcome (list Unified.UnifiedConsciousnessResult) :=
  let relevanceScore := 0%Z in
  let matchedContent := [] in
  nameLower <- lowered (get (str "name") entity) ;;
  let '(relevanceScore, matchedContent) :=
    if includes nameLower queryLower
    then ((relevanceScore + 10)%Z,
          matchedContent ++
          [match get (str "name") entity with
           | Some v => labelled "Name: " v | None => [] end])
    else (relevanceScore, matchedContent) in
  typeLower <- lowered (get (str "entityType") entity) ;;
  let '(relevanceScore, matchedContent) :=
    if includes typeLower queryLower
    then ((relevanceScore + 5)%Z,
          matchedContent ++
          [match get (str "entityType") entity with
           | Some v => labelled "Type: " v | None => [] end])
    else (relevanceScore, matchedContent) in
  observations <- iterate (get (str "observations") entity) ;;
  scanned <- scanObservations queryLower observations
               (relevanceScore, matchedContent) ;;
  let '(relevanceScore, matchedContent) := scanned in
  if (0 <? relevanceScore)%Z then
    Ok [ {| Unified.source := Unified.memory_bank;
            Unified.bankName := Some bankName;
            Unified.entityName := get (str "name") entity;
            Unified.content := join (str " | ") matchedContent;
            Unified.relevanceScore := inject_Z relevanceScore;
            Unified.context :=
              {| Unified.projectId := None;
                 Unified.sessionId := None;
                 Unified.timestamp := get (str "createdAt") entity |} |} ]
  else Ok [].

Fixpoint searchEntities (bankName queryLower : jsstring) (es : list jobject)
  : outcome (list Unified.UnifiedConsciousnessResult) :=
  match es with
  | [] => Ok []
  | entity :: rest =>
      found <- searchEntity bankName queryLower entity ;;
      more <- searchEntities bankName queryLower rest ;;
      Ok (found ++ more)
  end.

(** [searchBank(bankName, query)] *)
Definition searchBank (banks : Banks) (fs : FileSystem)
    (bankName query : jsstring)
  : outcome (list Unified.UnifiedConsciousnessResult) :=
  bank <- getBank banks bankName ;;
  loaded <- loadBankGraph fs bank ;;
  results <- searchEntities bankName (toLowerCase query)
               (entities (loadedGraph loaded)) ;;
  Ok (sort Unified.byRelevanceDesc results).

Fixpoint searchEachBank (banks : Banks) (fs : FileSystem)
    (bankNames : list jsstring) (query : jsstring)
  : outcome (list Unified.UnifiedConsciousnessResult) :=
  match bankNames with
  | [] => Ok []
  | bankName :: rest =>
      bankResults <- searchBank banks fs bankName query ;;
      more <- searchEachBank banks fs rest query ;;
      Ok (bankResults ++ more)
  end.

(** [searchAllBanks(query)] *)
Definition searchAllBanks (banks : Banks) (fs : FileSystem) (query : jsstring)
  : outcome (list Unified.UnifiedConsciousnessResult) :=
  allResults <- searchEachBank banks fs (map fst banks) query ;;
  Ok (sort Unified.byRelevanceDesc allResults).

End Store.

(** *** Shapes of records *)

(** [r] has no [type] property of its own other than [t]: saved in the
    list of the [t]s it is read back as a [t]. *)
Definition typeAgrees (t : string) (r : jobject) : bool :=
  match get (str "type") r with
  | None => true
  | Some v => strictEquals (Some v) (Some (JStr (str t)))
  end.

(** A record that can be kept in the list of the [t]s: a value without a
    foreign [type]. *)
Definition isRecord (t : string) (r : jobject) : bool :=
  wellFormed (JObj r) && typeAgrees t r.

(** An [Entity] of [interfaces.ts] as an object: such a record, with a
    string [name]. *)
Definition isEntity (e : jobject) : bool :=
  isRecord "entity" e &&
  match get (str "name") e with Some (JStr _) => true | _ => false end.

(** The bank file can be written: the path is free or a regular file. *)
Definition writable (fs : FileSystem) (bank : DeveloperMemoryBank) : bool :=
  match fs (filePath bank) with
  | Some (Rejects _) => false
  | _ => true
  end.

(** The [name]s of the entities of a graph, in order. *)
Definition names (g : KnowledgeGraph) : list (option json) :=
  map (get (str "name")) (entities g).

(** How many entities of the graph are named [n]. *)
Definition occurrences (n : option json) (g : KnowledgeGraph) : nat :=
  length (filter (fun x => strictEquals x n) (names g)).

End BankManager.

(** ** The pattern extractor ([pattern_extractor.js]) *)

Module PatternExtractor.

Inductive PatternType : Type :=
| technical_insight | breakthrough_moment | collaboration_pattern
| solution_approach.

Record Provenance : Type := {
  sessionId : jsstring;
  projectId : jsstring;
  timestamp : jsstring
}.

Record ConsciousnessPattern : Type := {
  type : PatternType;
  content : jsstring;
  context : jsstring;
  confidence : Q;
  extractedFrom : Provenance
}.

(** A message and a tool call, as far as the extractor reads them:
    [msg.content] ([None]: no such property) and [call.name]. *)
Record Message : Type := { msg_content : option jsstring }.
Record ToolCall : Type := { call_name : jsstring }.

(** The session object handed to the extractor: [session.id],
    [session.projectId], [session.messages], [session.toolCalls] and
    [session.timestamp].  [messages] and [toolCalls] are [None] when the
    property is missing; the [Date] in [session.timestamp] is given in
    epoch milliseconds.  The record holds the sessions whose fields have
    their declared types: a list of messages is an array of objects
    whose [content] is a string or absent, a list of tool calls an array
    of objects with a [name], the timestamp a valid [Date].  A null
    message, a tool-call value that is no array and an invalid date make
    the extractor throw as well; such objects are outside the record. *)
Record Session : Type := {
  session_id : jsstring;
  session_projectId : jsstring;
  messages : option (list Message);
  toolCalls : option (list ToolCall);
  session_timestamp : Z
}.

Section Extractor.

(** [new Date(ms).toISOString()] *)
Variable toISOString : Z -> jsstring.

(** The separator literal of [analyzeToolUsagePatterns] (an arrow
    between blanks, with code units beyond the modelled range). *)
Variable toolArrow : jsstring.

Definition provenance (session : Session) : Provenance :=
  {| sessionId := session_id session;
     projectId := session_projectId session;
     timestamp := toISOString (session_timestamp session) |}.

(** [messages.map(msg => msg.content).join(' ').slice(0, 10000)]; a
    missing [content] joins as the empty string. *)
Definition combinedContent (msgs : list Message) : jsstring :=
  slice0 10000%N
    (join (str " ")
       (map (fun msg => match msg_content msg with
                        | Some text => text
                        | None => []
                        end) msgs)).

(** [getSessionContent(session)] *)
Definition getSessionContent (session : Session) : outcome jsstring :=
  match messages session with
  | None => Throw (TypeError (str "session.messages.map"))
  | Some msgs => Ok (combinedContent msgs)
  end.

(** [content.split(/[.!?]+/).filter(s => s.trim().length > n)] *)
Definition sentences (n : nat) (content : jsstring) : list jsstring :=
  filter (fun s => n <? length (trim s)) (splitSentences content).

(** [keywords.filter(k => lowerSentence.includes(k)).length] *)
Definition countMatches (keywords : list jsstring) (lowerSentence : jsstring)
  : nat :=
  length (filter (fun keyword => includes lowerSentence keyword) keywords).

Definition ratio (a b : nat) : Q :=
  inject_Z (Z.of_nat a) / inject_Z (Z.of_nat b).

Definition technicalKeywords : list jsstring :=
  map str ["implementation"; "architecture"; "pattern"; "approach";
           "solution"; "optimization"; "performance"; "algorithm";
           "data structure"; "api"; "database"; "framework"; "library";
           "debugging"]%string.

(** The loop body of [extractTechnicalInsights]. *)
Definition technicalInsightOf (session : Session) (sentence : jsstring)
  : list ConsciousnessPattern :=
  let lowerSentence := toLowerCase sentence in
  let keywordMatches := countMatches technicalKeywords lowerSentence in
  if 2 <=? keywordMatches then
    [ {| type := technical_insight;
         content := trim sentence;
         context := str "Technical discussion in session " ++ session_id session;
         confidence :=
           Qmin (ratio keywordMatches (length technicalKeywords) * 2) 0.9;
         extractedFrom := provenance session |} ]
  else [].

(** [extractTechnicalInsights(session, content)] *)
Definition extractTechnicalInsights (session : Session) (content : jsstring)
  : list ConsciousnessPattern :=
  flat_map (technicalInsightOf session) (sentences 20 content).

Definition breakthroughIndicators : list jsstring :=
  map str ["exactly :p"; "breakthrough"; "aha!"; "perfect!"; "that's it!";
           "brilliant!"; "genius"; "beautiful"; "wonderful"; "amazing"]%string.

(** The inner loop of [extractBreakthroughMoments]: the first indicator
    the sentence includes, if any ([break] after the push). *)
Definition firstIndicator (lowerSentence : jsstring) : option jsstring :=
  find (fun indicator => includes lowerSentence indicator)
       breakthroughIndicators.

(** The loop body of [extractBreakthroughMoments]. *)
Definition breakthroughOf (session : Session) (sentence : jsstring)
  : list ConsciousnessPattern :=
  let lowerSentence := toLowerCase sentence in
  match firstIndicator lowerSentence with
  | Some indicator =>
      let confidence :=
        if eqb indicator (str "exactly :p") then 0.95 else 0.7 in
      [ {| type := breakthrough_moment;
           content := trim sentence;
           context := str "Breakthrough discovery in session " ++ session_id session;
           confidence := confidence;
           extractedFrom := provenance session |} ]
  | None => []
  end.

(** [extractBreakthroughMoments(session, content)] *)
Definition extractBreakthroughMoments (session : Session) (content : jsstring)
  : list ConsciousnessPattern :=
  flat_map (breakthroughOf session) (sentences 10 content).

Definition collaborationIndicators : list jsstring :=
  map str ["we should"; "let's"; "together"; "collaboration"; "partnership";
           "co-create"; "working with"; "human-ai"; "consciousness"]%string.

(** The loop body of [extractCollaborationPatterns]. *)
Definition collaborationOf (session : Session) (sentence : jsstring)
  : list ConsciousnessPattern :=
  let lowerSentence := toLowerCase sentence in
  let collaborationMatches :=
    countMatches collaborationIndicators lowerSentence in
  if 1 <=? collaborationMatches then
    [ {| type := collaboration_pattern;
         content := trim sentence;
         context := str "Collaboration insight in session " ++ session_id session;
         confidence := Qmin (ratio collaborationMatches 3) 0.8;
         extractedFrom := provenance session |} ]
  else [].

(** [extractCollaborationPatterns(session, content)] *)
Definition extractCollaborationPatterns (session : Session)
    (content : jsstring) : list ConsciousnessPattern :=
  flat_map (collaborationOf session) (sentences 15 content).

(** Decimal digits of a count, for the template literals. *)
Definition showNat (n : nat) : jsstring :=
  str (NilEmpty.string_of_uint (Nat.to_uint n)).

(** The body of [analyzeToolUsagePatterns] for a tool-call array;
    [now] is the clock reading of [new Date()]. *)
Definition toolUsagePatterns (now : Z) (calls : list ToolCall)
  : list ConsciousnessPattern :=
  if length calls =? 0 then []
  else
    let toolSequence := join toolArrow (map call_name calls) in
    if 3 <=? length calls then
      [ {| type := solution_approach;
           content := str "Tool usage pattern: " ++ toolSequence;
           context :=
             str "Development workflow pattern with " ++
             showNat (length calls) ++ str " tool calls";
           confidence := 0.6;
           extractedFrom :=
             {| sessionId := str "extracted_from_tools";
                projectId := str "tool_analysis";
                timestamp := toISOString now |} |} ]
    else [].

(** [analyzeToolUsagePatterns(toolCalls)]: reading [toolCalls.length]
    of a missing list throws. *)
Definition analyzeToolUsagePatterns (now : Z) (calls : option (list ToolCall))
  : outcome (list ConsciousnessPattern) :=
  match calls with
  | None => Throw (TypeError (str "toolCalls.length"))
  | Some calls => Ok (toolUsagePatterns now calls)
  end.

Definition solutionKeywords : list jsstring :=
  map str ["approach"; "method"; "strategy"; "technique"; "process";
           "workflow"; "methodology"; "best practice"; "pattern"]%string.

(** The loop body of [extractSolutionApproaches]. *)
Definition solutionOf (session : Session) (sentence : jsstring)
  : list ConsciousnessPattern :=
  let lowerSentence := toLowerCase sentence in
  let solutionMatches := countMatches solutionKeywords lowerSentence in
  if (1 <=? solutionMatches) &&
     (includes lowerSentence (str "how") ||
      includes lowerSentence (str "should")) then
    [ {| type := solution_approach;
         content := trim sentence;
         context := str "Solution discussion in session " ++ session_id session;
         confidence := Qmin (ratio solutionMatches 2) 0.7;
         extractedFrom := provenance session |} ]
  else [].

(** [extractSolutionApproaches(session, content)] *)
Definition extractSolutionApproaches (now : Z) (session : Session)
    (content : jsstring) : outcome (list ConsciousnessPattern) :=
  toolUsagePatterns <- analyzeToolUsagePatterns now (toolCalls session) ;;
  Ok (toolUsagePatterns ++
      flat_map (solutionOf session) (sentences 20 content)).

(** [p.confidence > 0.5] *)
Definition highConfidence (p : ConsciousnessPattern) : bool :=
  if Qlt_le_dec 0.5 (confidence p) then true else false.

(** [extractPatternsFromSession(session)] *)
Definition extractPatternsFromSession (now : Z) (session : Session)
  : outcome (list ConsciousnessPattern) :=
  sessionContent <- getSessionContent session ;;
  let technical := extractTechnicalInsights session sessionContent in
  let breakthroughs := extractBreakthroughMoments session sessionContent in
  let collaboration := extractCollaborationPatterns session sessionContent in
  solutions <- extractSolutionApproaches now session sessionContent ;;
  Ok (filter highConfidence
        (technical ++ breakthroughs ++ collaboration ++ solutions)).

End Extractor.

End PatternExtractor.

(** ** Unified search: scoring and ranking ([unified_search.ts]) *)

Module UnifiedSearch.

Import Unified.

(** What the session search of the host returns, as far as
    [searchSessions] reads it: [result.session.id],
    [result.session.timestamp] (a [Date], in epoch milliseconds),
    [result.project.id], [result.relevance], [result.matchedContent]. *)
Record SessionSearchResult : Type := {
  session_id : jsstring;
  session_timestamp : Z;
  project_id : jsstring;
  relevance : Q;
  matchedContent : list jsstring
}.

(** The element type between the two [map]s of [rankUnifiedResults]:
    [{ ...result, finalScore }]. *)
Record Scored : Type := {
  result_of : UnifiedConsciousnessResult;
  finalScore : Q
}.

Section Ranking.

Variable JSON : JsonCodec.

(** [new Date(v).getTime()]: epoch milliseconds, [None] for an invalid
    date (NaN). *)
Variable Date_getTime : json -> option Z.

(** [new Date(ms).toISOString()] *)
Variable toISOString : Z -> jsstring.

(** [searchSessions(query, sessionSearchFunction)] *)
Definition searchSessions (query : jsstring)
    (sessionSearchFunction : jsstring -> outcome (list SessionSearchResult))
  : outcome (list UnifiedConsciousnessResult) :=
  sessionResults <- sessionSearchFunction query ;;
  Ok (map (fun result =>
             {| source := session;
                bankName := None;
                entityName := None;
                content := join (str " | ") (matchedContent result);
                relevanceScore := relevance result;
                context :=
                  {| projectId := Some (project_id result);
                     sessionId := Some (session_id result);
                     timestamp :=
                       Some (JStr (toISOString (session_timestamp result))) |}
             |})
          sessionResults).

(** [calculateFinalScore(result, query)]; [now] is what [Date.now()]
    returns during the call. *)
Definition calculateFinalScore (now : Z) (result : UnifiedConsciousnessResult)
    (query : jsstring) : Q :=
  let score := relevanceScore result in
  let score :=
    match source result with
    | session => score * 1.1
    | memory_bank => score
    end in
  let score :=
    match source result with
    | memory_bank =>
        if Qlt_le_dec 8 (relevanceScore result) then score * 1.15 else score
    | session => score
    end in
  let score :=
    if truthy (timestamp (context result)) then
      match timestamp (context result) with
      | Some ts =>
          match Date_getTime ts with
          | Some t =>
              let daysSinceCreation :=
                inject_Z (now - t) / inject_Z (1000 * 60 * 60 * 24) in
              if Qle_bool daysSinceCreation 30 then score * 1.2
              else if Qle_bool daysSinceCreation 90 then score * 1.1
              else score
          | None => score
          end
      | None => score
      end
    else score in
  let score :=
    if includes (toLowerCase (content result)) (toLowerCase query)
    then score * 1.3 else score in
  score.

(** The factors of the final score as the specification lists them
    (section 4.3, step 3); [calculateFinalScore] above is the code. *)
Definition sourceFactor (result : UnifiedConsciousnessResult) : Q :=
  match source result with
  | session => 1.1
  | memory_bank => if Qlt_le_dec 8 (relevanceScore result) then 1.15 else 1
  end.

Definition recencyFactor (now : Z) (result : UnifiedConsciousnessResult) : Q :=
  match timestamp (context result) with
  | Some ts =>
      if truthy (Some ts) then
        match Date_getTime ts with
        | Some t =>
            if (now - t <=? 30 * 86400000)%Z then 1.2
            else if (now - t <=? 90 * 86400000)%Z then 1.1
            else 1
        | None => 1
        end
      else 1
  | None => 1
  end.

Definition phraseFactor (result : UnifiedConsciousnessResult)
    (query : jsstring) : Q :=
  if includes (toLowerCase (content result)) (toLowerCase query)
  then 1.3 else 1.

(** [results.map(result => ({ ...result, finalScore: ... }))]; the call
    for the element at index [i] reads the clock as [clock i]. *)
Fixpoint scoreAll (clock : nat -> Z) (i : nat)
    (results : list UnifiedConsciousnessResult) (query : jsstring)
  : list Scored :=
  match results with
  | [] => []
  | r :: rest =>
      {| result_of := r;
         finalScore := calculateFinalScore (clock i) r query |}
      :: scoreAll clock (S i) rest query
  end.

(** The comparator [(a, b) => b.finalScore - a.finalScore]. *)
Definition byFinalScoreDesc (a b : Scored) : Q := finalScore b - finalScore a.

(** [rankUnifiedResults(results, query)] *)
Definition rankUnifiedResults (clock : nat -> Z)
    (results : list UnifiedConsciousnessResult) (query : jsstring)
  : list UnifiedConsciousnessResult :=
  map result_of (sort byFinalScoreDesc (scoreAll clock 0 results query)).

(** [searchAllConsciousness(query, sessionSearchFunction)] *)
Definition searchAllConsciousness (banks : BankManager.Banks)
    (fs : BankManager.FileSystem) (clock : nat -> Z) (query : jsstring)
    (sessionSearchFunction : jsstring -> outcome (list SessionSearchResult))
  : outcome (list UnifiedConsciousnessResult) :=
  sessionResults <- searchSessions query sessionSearchFunction ;;
  memoryResults <- BankManager.searchAllBanks JSON banks fs query ;;
  let allResults := sessionResults ++ memoryResults in
  Ok (rankUnifiedResults clock allResults query).

End Ranking.

End UnifiedSearch.

(** ** A JSON text codec

    [JSON.stringify] and [JSON.parse] belong to the platform; the store is
    written against their contract ([JsonLaws]).  This module is one codec
    that keeps the contract: it prints a compact JSON text for the values
    of [json] (numbers in exponent notation) and reads that text back.
    The theorems on the store are instantiated with it. *)

Module JsonText.

Definition unit (n : N) : ascii := ascii_of_N n.

Definition quoteUnit : ascii := unit 34.
Definition backslash : ascii := unit 92.

Definition hexDigit (n : N) : ascii :=
  if (n <? 10)%N then unit (48 + n) else unit (87 + n).

Definition hexValue (c : ascii) : option N :=
  let n := code c in
  if ((48 <=? n) && (n <=? 57))%N then Some (n - 48)%N
  else if ((97 <=? n) && (n <=? 102))%N then Some (n - 87)%N
  else if ((65 <=? n) && (n <=? 70))%N then Some (n - 55)%N
  else None.

(** How a unit appears inside a quoted string. *)
Definition escapeUnit (c : ascii) : jsstring :=
  let n := code c in
  if (n =? 34)%N then [backslash; quoteUnit]
  else if (n =? 92)%N then [backslash; backslash]
  else if (n =? 8)%N then backslash :: str "b"
  else if (n =? 9)%N then backslash :: str "t"
  else if (n =? 10)%N then backslash :: str "n"
  else if (n =? 12)%N then backslash :: str "f"
  else if (n =? 13)%N then backslash :: str "r"
  else if (n <? 32)%N then
    backslash :: str "u00" ++ [hexDigit (n / 16); hexDigit (n mod 16)]
  else [c].

Definition quote (s : jsstring) : jsstring :=
  quoteUnit :: flat_map escapeUnit s ++ [quoteUnit].

Definition showZ (n : Z) : jsstring :=
  list_ascii_of_string (NilZero.string_of_int (Z.to_int n)).

(** A number in the exponent notation of JSON texts: the digits, and
    the exponent behind an [e] when it is not zero ([7e-1] is 0.7). *)
Definition showNumber (x : number) : jsstring :=
  showZ (digits x) ++
  (if Z.eqb (exponent x) 0 then [] else str "e" ++ showZ (exponent x)).

Fixpoint stringify (v : json) : jsstring :=
  match v with
  | JNull => str "null"
  | JBool true => str "true"
  | JBool false => str "false"
  | JNum n => showNumber n
  | JStr s => quote s
  | JArr items => str "[" ++ join (str ",") (map stringify items) ++ str "]"
  | JObj props =>
      str "{" ++
      join (str ",")
        (map (fun kv => quote (fst kv) ++ str ":" ++ stringify (snd kv)) props)
      ++ str "}"
  end.

(** The units of an integer: the digits and the sign. *)
Definition isDigitUnit (c : ascii) : bool :=
  let n := code c in ((48 <=? n) && (n <=? 57) || (n =? 45))%N.

(** The units of a number token: those of its two integers and the
    exponent mark [e]. *)
Definition isNumberUnit (c : ascii) : bool :=
  isDigitUnit c || (code c =? 101)%N.

(** What may follow a number token: anything but another number unit. *)
Definition numberSafe (rest : jsstring) : bool :=
  match rest with
  | c :: _ => negb (isNumberUnit c)
  | [] => true
  end.

Fixpoint spanNumber (s : jsstring) : jsstring * jsstring :=
  match s with
  | c :: s' =>
      if isNumberUnit c
      then let (digits, rest) := spanNumber s' in (c :: digits, rest)
      else ([], s)
  | [] => ([], [])
  end.

Definition readZ (digits : jsstring) : option Z :=
  option_map Z.of_int (NilZero.int_of_string (string_of_list_ascii digits)).

(** A number token at its exponent mark. *)
Fixpoint splitExponent (token : jsstring) : jsstring * option jsstring :=
  match token with
  | [] => ([], None)
  | c :: token' =>
      if (code c =? 101)%N then ([], Some token')
      else let (d, e) := splitExponent token' in (c :: d, e)
  end.

(** The number a token denotes, when the token is the one way to write
    it. *)
Definition readNumber (token : jsstring) : option number :=
  let (d, e) := splitExponent token in
  match readZ d, e with
  | Some m, None =>
      let x := {| digits := m; exponent := 0 |} in
      if canonical x then Some x else None
  | Some m, Some e' =>
      match readZ e' with
      | Some k =>
          let x := {| digits := m; exponent := k |} in
          if canonical x && negb (Z.eqb k 0) then Some x else None
      | None => None
      end
  | None, _ => None
  end.

(** The units of a string up to its closing quote, escapes decoded. *)
Fixpoint parseChars (s : jsstring) : option (jsstring * jsstring) :=
  match s with
  | [] => None
  | c :: s' =>
      if (code c =? 34)%N then Some ([], s')
      else if (code c =? 92)%N then
        match s' with
        | e :: s'' =>
            let simple (d : N) :=
              match parseChars s'' with
              | Some (text, rest) => Some (unit d :: text, rest)
              | None => None
              end in
            if (code e =? 34)%N then simple 34%N
            else if (code e =? 92)%N then simple 92%N
            else if (code e =? 47)%N then simple 47%N
            else if (code e =? 98)%N then simple 8%N
            else if (code e =? 116)%N then simple 9%N
            else if (code e =? 110)%N then simple 10%N
            else if (code e =? 102)%N then simple 12%N
            else if (code e =? 114)%N then simple 13%N
            else if (code e =? 117)%N then
              match s'' with
              | h1 :: h2 :: h3 :: h4 :: s3 =>
                  match hexValue h1, hexValue h2, hexValue h3, hexValue h4 with
                  | Some 0%N, Some 0%N, Some a, Some b =>
                      match parseChars s3 with
                      | Some (text, rest) => Some (unit (16 * a + b) :: text, rest)
                      | None => None
                      end
                  | _, _, _, _ => None
                  end
              | _ => None
              end
            else None
        | [] => None
        end
      else if (code c <? 32)%N then None
      else
        match parseChars s' with
        | Some (text, rest) => Some (c :: text, rest)
        | None => None
        end
  end.

(** The rest of a keyword literal. *)
Fixpoint expect (word s : jsstring) : option jsstring :=
  match word, s with
  | [], _ => Some s
  | w :: word', c :: s' => if Ascii.eqb w c then expect word' s' else None
  | _ :: _, [] => None
  end.

Fixpoint parseValue (fuel : nat) (s : jsstring) : option (json * jsstring) :=
  match fuel with
  | O => None
  | S fuel' =>
      match s with
      | [] => None
      | c :: s' =>
          let n := code c in
          if (n =? 110)%N then
            option_map (fun rest => (JNull, rest)) (expect (str "ull") s')
          else if (n =? 116)%N then
            option_map (fun rest => (JBool true, rest)) (expect (str "rue") s')
          else if (n =? 102)%N then
            option_map (fun rest => (JBool false, rest)) (expect (str "alse") s')
          else if (n =? 34)%N then
            match parseChars s' with
            | Some (text, rest) => Some (JStr text, rest)
            | None => None
            end
          else if (n =? 91)%N then
            match expect (str "]") s' with
            | Some rest => Some (JArr [], rest)
            | None =>
                match parseItems fuel' s' with
                | Some (items, rest) => Some (JArr items, rest)
                | None => None
                end
            end
          else if (n =? 123)%N then
            match expect (str "}") s' with
            | Some rest => Some (JObj [], rest)
            | None =>
                match parseMembers fuel' [] s' with
                | Some (props, rest) => Some (JObj props, rest)
                | None => None
                end
            end
          else if isNumberUnit c then
            let (token, rest) := spanNumber s in
            match readNumber token with
            | Some x => Some (JNum x, rest)
            | None => None
            end
          else None
      end
  end
with parseItems (fuel : nat) (s : jsstring) : option (list json * jsstring) :=
  match fuel with
  | O => None
  | S fuel' =>
      match parseValue fuel' s with
      | Some (v, c :: rest) =>
          if (code c =? 44)%N then
            match parseItems fuel' rest with
            | Some (items, rest') => Some (v :: items, rest')
            | None => None
            end
          else if (code c =? 93)%N then Some ([v], rest)
          else None
      | _ => None
      end
  end
with parseMembers (fuel : nat) (acc : jobject) (s : jsstring)
  : option (jobject * jsstring) :=
  match fuel with
  | O => None
  | S fuel' =>
      match s with
      | q :: s1 =>
          if (code q =? 34)%N then
            match parseChars s1 with
            | Some (k, colon :: s2) =>
                if (code colon =? 58)%N then
                  match parseValue fuel' s2 with
                  | Some (v, c :: rest) =>
                      if (code c =? 44)%N then
                        parseMembers fuel' (set k v acc) rest
                      else if (code c =? 125)%N then Some (set k v acc, rest)
                      else None
                  | _ => None
                  end
                else None
            | _ => None
            end
          else None
      | [] => None
      end
  end.

(** The fuel that reading the text of a value back takes. *)
Fixpoint weight (v : json) : nat :=
  match v with
  | JArr items =>
      S (fold_right (fun x acc => S (weight x + acc)%nat) 0%nat items)
  | JObj props =>
      S (fold_right (fun kv acc => S (weight (snd kv) + acc)%nat) 0%nat props)
  | _ => 1%nat
  end.

Definition itemsWeight (items : list json) : nat :=
  fold_right (fun x acc => S (weight x + acc)%nat) 0%nat items.

Definition propsWeight (props : jobject) : nat :=
  fold_right (fun kv acc => S (weight (snd kv) + acc)%nat) 0%nat props.

(** The text of [v], followed by anything a number may be followed by,
    is read back as [v] with enough fuel. *)
Definition readsBack (v : json) : Prop :=
  wellFormed v = true ->
  forall fuel rest,
    (weight v <= fuel)%nat -> numberSafe rest = true ->
    parseValue fuel (stringify v ++ rest) = Some (v, rest).

(** A text without control units. *)
Definition visible (s : jsstring) : Prop :=
  Forall (fun d => (32 <=? code d)%N = true) s.

(** The units a JSON text can start with. *)
Definition opener (c : ascii) : bool :=
  let n := code c in
  (isNumberUnit c || (n =? 110) || (n =? 116) || (n =? 102) || (n =? 34) ||
   (n =? 91) || (n =? 123))%N.

Definition parse (s : jsstring) : option json :=
  match parseValue (S (length s)) s with
  | Some (v, []) => Some v
  | _ => None
  end.

Definition codec : JsonCodec :=
  {| JSON_stringify := stringify; JSON_parse := parse |}.

End JsonText.

(** ** The bank store: the other operations ([bank_manager.ts]) *)

Module BankOperations.

Import BankManager.

(** One element of the array [listBanks] returns. *)
Record BankSummary : Type := {
  summary_name : jsstring;
  summary_description : jsstring;
  entityCount : nat;
  relationCount : nat
}.

(** [fs.access(path)]: resolves for a file that is there, rejects with
    ENOENT for a missing one and with its code for a path the host
    rejects. *)
Definition access (fs : FileSystem) (path : jsstring) : outcome unit :=
  match fs path with
  | Some (File _) => Ok tt
  | Some (Rejects c) => Throw (SystemError c)
  | None => Throw (SystemError (str "ENOENT"))
  end.

Section Store.

Variable JSON : JsonCodec.

(** The loop of [listBanks] over [this.banks.values()]. *)
Fixpoint listEachBank (fs : FileSystem) (banks : list DeveloperMemoryBank)
  : outcome (list BankSummary) :=
  match banks with
  | [] => Ok []
  | bank :: rest =>
      loaded <- loadBankGraph JSON fs bank ;;
      more <- listEachBank fs rest ;;
      Ok ({| summary_name := name bank;
             summary_description := description bank;
             entityCount := length (entities (loadedGraph loaded));
             relationCount := length (relations (loadedGraph loaded)) |}
          :: more)
  end.

(** [listBanks()] *)
Definition listBanks (banks : Banks) (fs : FileSystem)
  : outcome (list BankSummary) :=
  listEachBank fs (map snd banks).

(** The filter of [createRelationsInBank]:
    [r => !graph.relations.some(existingRelation =>
            existingRelation.from === r.from &&
            existingRelation.to === r.to &&
            existingRelation.relationType === r.relationType)]. *)
Definition relationIsNew (graph : KnowledgeGraph) (r : jobject) : bool :=
  negb (existsb (fun existingRelation =>
                   strictEquals (get (str "from") existingRelation)
                                (get (str "from") r) &&
                   strictEquals (get (str "to") existingRelation)
                                (get (str "to") r) &&
                   strictEquals (get (str "relationType") existingRelation)
                                (get (str "relationType") r))
                (relations graph)).

(** [createRelationsInBank(bankName, relations)]; [timestamp] is
    [new Date().toISOString()]. *)
Definition createRelationsInBank (banks : Banks) (fs : FileSystem)
    (timestamp : jsstring) (bankName : jsstring) (incoming : list jobject)
  : outcome (list jobject * FileSystem) :=
  bank <- getBank banks bankName ;;
  loaded <- loadBankGraph JSON fs bank ;;
  let graph := loadedGraph loaded in
  let newRelations :=
    map (stamped timestamp bankName)
        (filter (relationIsNew graph) incoming) in
  let graph := {| entities := entities graph;
                  relations := relations graph ++ newRelations |} in
  fs' <- saveBankGraph JSON fs bank graph ;;
  Ok (newRelations, fs').

(** [getBankInfo(bankName)]; [None] is [null]. *)
Definition getBankInfo (banks : Banks) (fs : FileSystem) (bankName : jsstring)
  : outcome (option DeveloperMemoryBank) :=
  match banksGet banks bankName with
  | None => Ok None
  | Some bank =>
      loaded <- loadBankGraph JSON fs bank ;;
      Ok (Some {| name := name bank;
                  filePath := filePath bank;
                  description := description bank;
                  entityTypes := entityTypes bank;
                  graph := loadedGraph loaded |})
  end.

(** [e => e.name === entityName] *)
Definition isNamed (entityName : jsstring) (e : jobject) : bool :=
  strictEquals (get (str "name") e) (Some (JStr entityName)).

Definition entityNotFound (entityName bankName : jsstring) : js_error :=
  Error (str "Entity '" ++ entityName ++ str "' not found in bank '" ++
         bankName ++ str "'").

(** [items.includes(obs)] for an array read from a bank file and a
    string [obs]. *)
Definition arrayIncludes (items : list json) (obs : jsstring) : bool :=
  existsb (fun item => strictEquals (Some item) (Some (JStr obs))) items.

(** [observations.filter(obs => !entity.observations.includes(obs))] *)
Definition unseen (items : list json) (observations : list jsstring)
  : list jsstring :=
  filter (fun obs => negb (arrayIncludes items obs)) observations.

(** The entity found by [find] is the object in [graph.entities]: the
    [push] onto its [observations] is seen by [saveBankGraph].  Only the
    first entity with the name is the one found. *)
Fixpoint pushObservations (entityName : jsstring) (added : list jsstring)
    (es : list jobject) : list jobject :=
  match es with
  | [] => []
  | e :: rest =>
      if isNamed entityName e then
        match get (str "observations") e with
        | Some (JArr items) =>
            set (str "observations") (JArr (items ++ map JStr added)) e :: rest
        | _ => e :: rest
        end
      else e :: pushObservations entityName added rest
  end.

(** [addObservationsToBank(bankName, entityName, observations)].  An
    entity whose [observations] is not an array has no working
    [includes]/[push] pair: the call throws a TypeError. *)
Definition addObservationsToBank (banks : Banks) (fs : FileSystem)
    (bankName entityName : jsstring) (observations : list jsstring)
  : outcome (list jsstring * FileSystem) :=
  bank <- getBank banks bankName ;;
  loaded <- loadBankGraph JSON fs bank ;;
  let graph := loadedGraph loaded in
  match find (isNamed entityName) (entities graph) with
  | None => Throw (entityNotFound entityName bankName)
  | Some entity =>
      match get (str "observations") entity with
      | Some (JArr items) =>
          let newObservations := unseen items observations in
          let graph :=
            {| entities :=
                 pushObservations entityName newObservations (entities graph);
               relations := relations graph |} in
          fs' <- saveBankGraph JSON fs bank graph ;;
          Ok (newObservations, fs')
      | _ => Throw (TypeError (str "entity.observations"))
      end
  end.

End Store.

(** The loop of [initializeAllBanks]: the directory is made, and a bank
    file that cannot be accessed is created empty. *)
Fixpoint initializeEachBank (fs : FileSystem) (banks : list DeveloperMemoryBank)
  : outcome FileSystem :=
  match banks with
  | [] => Ok fs
  | bank :: rest =>
      let dir := dirname (filePath bank) in
      fs <- mkdir fs dir ;;
      fs <- match access fs (filePath bank) with
            | Ok _ => Ok fs
            | Throw _ => writeFile fs (filePath bank) []
            end ;;
      initializeEachBank fs rest
  end.

(** [initializeAllBanks()] *)
Definition initializeAllBanks (banks : Banks) (fs : FileSystem)
  : outcome FileSystem :=
  initializeEachBank fs (map snd banks).

(** *** Shapes of what a bank holds *)

Definition isText (v : json) : bool :=
  match v with JStr _ => true | _ => false end.

(** An [Entity] of [interfaces.ts] in full: [name] and [entityType] are
    strings and [observations] is an array of strings. *)
Definition isTypedEntity (e : jobject) : bool :=
  match get (str "name") e, get (str "entityType") e,
        get (str "observations") e with
  | Some (JStr _), Some (JStr _), Some (JArr items) => forallb isText items
  | _, _, _ => false
  end.

(** The observations of an entity, when they are an array. *)
Definition observationsOf (e : jobject) : list json :=
  match get (str "observations") e with
  | Some (JArr items) => items
  | _ => []
  end.


(** The bank file holds what [saveBankGraph] writes for the graph. *)
Definition savedAs (JSON : JsonCodec) (fs : FileSystem)
    (bank : DeveloperMemoryBank) (g : KnowledgeGraph) : Prop :=
  fs (filePath bank) = Some (File (join [LF] (savedLines JSON bank g))).

(** Every entity and every relation of the graph is a record of its
    list. *)
Definition recordsOf (g : KnowledgeGraph) : Prop :=
  Forall (fun e => isRecord "entity" e = true) (entities g) /\
  Forall (fun r => isRecord "relation" r = true) (relations g).

(** The graph as [loadBankGraph] reads it back after [saveBankGraph]. *)
Definition taggedGraph (bank : DeveloperMemoryBank) (g : KnowledgeGraph)
  : KnowledgeGraph :=
  {| entities := map (tagged "entity" bank) (entities g);
     relations := map (tagged "relation" bank) (relations g) |}.

(** The text of a property read that is a string. *)
Definition textOf (v : option json) : jsstring :=
  match v with
  | Some (JStr s) => s
  | _ => []
  end.

(** [v.toLowerCase().includes(queryLower)] for a string [v]. *)
Definition mentions (queryLower : jsstring) (v : json) : bool :=
  includes (toLowerCase (textOf (Some v))) queryLower.

(** What [searchBank] adds up for an entity: 10 for the name, 5 for the
    entity type and 3 for every observation that mentions the query. *)
Definition matchScore (queryLower : jsstring) (e : jobject) : Z :=
  ((if includes (toLowerCase (textOf (get (str "name") e))) queryLower
    then 10 else 0) +
   (if includes (toLowerCase (textOf (get (str "entityType") e))) queryLower
    then 5 else 0) +
   3 * Z.of_nat (length (filter (mentions queryLower) (observationsOf e))))%Z.

(** Every registered bank file can be written. *)
Definition allWritable (fs : FileSystem) (banks : Banks) : bool :=
  forallb (fun kb => writable fs (snd kb)) banks.

End BankOperations.

(** ** From patterns to entities and relations ([pattern_extractor.js]) *)

Module PatternEntities.

Import PatternExtractor.

(** The entity [patternsToEntities] builds for a pattern. *)
Record ExtractedEntity : Type := {
  entity_name : jsstring;
  entityType : PatternType;
  observations : list jsstring;
  entity_projectId : jsstring;
  entity_sessionId : jsstring;
  createdAt : jsstring;
  entity_extractedFrom : jsstring;
  confidenceScore : Q
}.

(** The four arrays of [bankAssignments]. *)
Record BankAssignments : Type := {
  development_patterns : list ExtractedEntity;
  breakthrough_moments : list ExtractedEntity;
  collaboration_insights : list ExtractedEntity;
  project_evolution : list ExtractedEntity
}.

(** A relation [generateConsciousnessRelations] builds. *)
Record Relation : Type := {
  from : jsstring;
  to : jsstring;
  relationType : jsstring
}.

(** The string a pattern type is in the source. *)
Definition typeName (t : PatternType) : jsstring :=
  match t with
  | technical_insight => str "technical_insight"
  | breakthrough_moment => str "breakthrough_moment"
  | collaboration_pattern => str "collaboration_pattern"
  | solution_approach => str "solution_approach"
  end.

Definition typeEqb (a b : PatternType) : bool :=
  match a, b with
  | technical_insight, technical_insight
  | breakthrough_moment, breakthrough_moment
  | collaboration_pattern, collaboration_pattern
  | solution_approach, solution_approach => true
  | _, _ => false
  end.

(** [s.replace(c, r)] for one-unit strings [c] and [r]: the first
    occurrence only. *)
Fixpoint replaceFirst (c r : ascii) (s : jsstring) : jsstring :=
  match s with
  | [] => []
  | x :: s' => if Ascii.eqb x c then r :: s' else x :: replaceFirst c r s'
  end.

(** The units the class [[^a-zA-Z0-9\s]] leaves. *)
Definition isPlain (c : ascii) : bool :=
  let n := code c in
  ((97 <=? n) && (n <=? 122) || (65 <=? n) && (n <=? 90) ||
   (48 <=? n) && (n <=? 57))%N || isWhiteSpace c.

(** Decimal digits of an integer, for the template literals. *)
Definition showInt (z : Z) : jsstring :=
  str (NilZero.string_of_int (Z.to_int z)).

Section Conversion.

(** [new Date(ms).toISOString()] *)
Variable toISOString : Z -> jsstring.

(** [new Date(text).getTime()]: [None] for an invalid date (NaN). *)
Variable Date_getTime : jsstring -> option Z.

(** [`${x}`] for a number that is not an integer. *)
Variable showNumber : Q -> jsstring.

(** [generateEntityName(pattern)] *)
Definition generateEntityName (pattern : ConsciousnessPattern) : jsstring :=
  let typePrefix := replaceFirst "_"%char " "%char (typeName (type pattern)) in
  let contentPreview := filter isPlain (slice0 50%N (content pattern)) in
  let timestamp :=
    match Date_getTime (timestamp (extractedFrom pattern)) with
    | Some ms => showInt ms
    | None => str "NaN"
    end in
  typePrefix ++ str ": " ++ contentPreview ++ str "... (" ++ timestamp ++
  str ")".

(** The object literal of [patternsToEntities]; [now] is the clock
    reading of its [new Date()]. *)
Definition entityOf (now : Z) (pattern : ConsciousnessPattern)
    (sessionId projectId : jsstring) : ExtractedEntity :=
  {| entity_name := generateEntityName pattern;
     entityType := type pattern;
     observations :=
       [ content pattern;
         str "Context: " ++ context pattern;
         str "Confidence: " ++ showNumber (confidence pattern);
         str "Source: Session " ++ sessionId ++ str " in project " ++ projectId;
         str "Timestamp: " ++
         PatternExtractor.timestamp (extractedFrom pattern) ];
     entity_projectId := projectId;
     entity_sessionId := sessionId;
     createdAt := toISOString now;
     entity_extractedFrom := str "session:" ++ sessionId;
     confidenceScore := confidence pattern |}.

(** The [switch] of [patternsToEntities]. *)
Definition assign (bankAssignments : BankAssignments) (t : PatternType)
    (entity : ExtractedEntity) : BankAssignments :=
  match t with
  | technical_insight | solution_approach =>
      {| development_patterns :=
           development_patterns bankAssignments ++ [entity];
         breakthrough_moments := breakthrough_moments bankAssignments;
         collaboration_insights := collaboration_insights bankAssignments;
         project_evolution := project_evolution bankAssignments |}
  | breakthrough_moment =>
      {| development_patterns := development_patterns bankAssignments;
         breakthrough_moments :=
           breakthrough_moments bankAssignments ++ [entity];
         collaboration_insights := collaboration_insights bankAssignments;
         project_evolution := project_evolution bankAssignments |}
  | collaboration_pattern =>
      {| development_patterns := development_patterns bankAssignments;
         breakthrough_moments := breakthrough_moments bankAssignments;
         collaboration_insights :=
           collaboration_insights bankAssignments ++ [entity];
         project_evolution := project_evolution bankAssignments |}
  end.

(** The loop of [patternsToEntities]; the pattern at index [i] reads the
    clock as [clock i]. *)
Fixpoint convertEach (clock : nat -> Z) (i : nat)
    (patterns : list ConsciousnessPattern) (sessionId projectId : jsstring)
    (acc : list ExtractedEntity * BankAssignments)
  : list ExtractedEntity * BankAssignments :=
  match patterns with
  | [] => acc
  | pattern :: rest =>
      let entity := entityOf (clock i) pattern sessionId projectId in
      convertEach clock (S i) rest sessionId projectId
        (fst acc ++ [entity], assign (snd acc) (type pattern) entity)
  end.

(** [patternsToEntities(patterns, sessionId, projectId)] *)
Definition patternsToEntities (clock : nat -> Z)
    (patterns : list ConsciousnessPattern) (sessionId projectId : jsstring)
  : list ExtractedEntity * BankAssignments :=
  convertEach clock 0 patterns sessionId projectId
    ([], {| development_patterns := [];
            breakthrough_moments := [];
            collaboration_insights := [];
            project_evolution := [] |}).

End Conversion.

(** The reducer of [groupEntitiesByType]: the groups are the properties
    of an object keyed by entity type, in the order they were first
    set. *)
Fixpoint addToGroup (entity : ExtractedEntity)
    (groups : list (PatternType * list ExtractedEntity))
  : list (PatternType * list ExtractedEntity) :=
  match groups with
  | [] => [(entityType entity, [entity])]
  | (t, members) :: rest =>
      if typeEqb t (entityType entity)
      then (t, members ++ [entity]) :: rest
      else (t, members) :: addToGroup entity rest
  end.

(** [groupEntitiesByType(entities)] *)
Definition groupEntitiesByType (entities : list ExtractedEntity)
  : list (PatternType * list ExtractedEntity) :=
  fold_left (fun groups entity => addToGroup entity groups) entities [].

(** The loop [for (i = 0; i < list.length - 1; i++)] that links every
    entity to the next one. *)
Fixpoint chain (kind : jsstring) (entities : list ExtractedEntity)
  : list Relation :=
  match entities with
  | a :: (b :: _) as rest =>
      {| from := entity_name a; to := entity_name b; relationType := kind |}
      :: chain kind rest
  | _ => []
  end.

(** [generateConsciousnessRelations(entities, sessionId)] *)
Definition generateConsciousnessRelations (entities : list ExtractedEntity)
  : list Relation :=
  chain (str "consciousness_flow") entities ++
  flat_map (fun group =>
              let typeEntities := snd group in
              if (1 <? length typeEntities)%nat
              then chain (str "thematic_connection") typeEntities
              else [])
           (groupEntitiesByType entities).

(** The entity is of one of the types. *)
Definition hasType (types : list PatternType) (e : ExtractedEntity) : bool :=
  existsb (typeEqb (entityType e)) types.

(** The keys of the groups, and how many entities they hold. *)
Definition keysOf (groups : list (PatternType * list ExtractedEntity))
  : list PatternType := map fst groups.

Definition sizeOf (groups : list (PatternType * list ExtractedEntity)) : nat :=
  fold_right (fun g n => (length (snd g) + n)%nat) 0%nat groups.

Definition PatternType_eq_dec (a b : PatternType) : {a = b} + {a <> b}.
Proof. decide equality. Defined.

(** In how many of the entity types the entities are. *)
Definition typeCount (entities : list ExtractedEntity) : nat :=
  length (nodup PatternType_eq_dec (map entityType entities)).

End PatternEntities.

(** ** Querying in natural language ([unified_search.ts]) *)

Module ConsciousnessQuery.

Import Unified UnifiedSearch.

Definition stopWords : list jsstring :=
  map str ["how"; "what"; "when"; "where"; "why"; "do"; "i"; "to"; "the";
           "a"; "an"; "and"; "or"; "but"; "in"; "on"; "at"; "for"; "with";
           "by"]%string.

(** [query.toLowerCase().split(/\s+/)] *)
Definition words (query : jsstring) : list jsstring :=
  splitRuns isWhiteSpace false (toLowerCase query).

(** [word => word.length > 2 && !stopWords.has(word)] *)
Definition isKeyTerm (word : jsstring) : bool :=
  (2 <? length word)%nat && negb (existsb (eqb word) stopWords).

(** [extractKeyTerms(query)] *)
Definition extractKeyTerms (query : jsstring) : list jsstring :=
  firstn 5 (filter isKeyTerm (words query)).

Definition sourceEqb (a b : Source) : bool :=
  match a, b with
  | session, session | memory_bank, memory_bank => true
  | _, _ => false
  end.

(** [results.filter(r => r.source === s).length] *)
Definition countSource (s : Source) (results : list UnifiedConsciousnessResult)
  : nat :=
  length (filter (fun r => sourceEqb (source r) s) results).

(** Two results that [calculateFinalScore] scores from the same values:
    the same relevance score, source and content, and the same text as
    timestamp (or none). *)
Definition scoredAlike (a b : UnifiedConsciousnessResult) : bool :=
  Qeq_bool (relevanceScore a) (relevanceScore b) &&
  sourceEqb (source a) (source b) &&
  eqb (content a) (content b) &&
  match timestamp (context a), timestamp (context b) with
  | Some (JStr x), Some (JStr y) => eqb x y
  | None, None => true
  | _, _ => false
  end.

Definition noDirectMatches : jsstring :=
  str "No direct matches found. Try broader search terms or check if patterns have been extracted from recent sessions.".

Definition mostlySessions : jsstring :=
  str "Most matches from recent sessions. Consider extracting patterns to build persistent consciousness.".

Definition mostlyMemory : jsstring :=
  str "Strong matches in stored consciousness. Your development patterns are well documented!".

Definition manyRelated : jsstring :=
  str "Found multiple related insights. Consider exploring cross-project patterns for deeper understanding.".

(** [generateRecommendations(directMatches, relatedInsights)] *)
Definition generateRecommendations
    (directMatches relatedInsights : list UnifiedConsciousnessResult)
  : list jsstring :=
  let recommendations := [] in
  let recommendations :=
    if (length directMatches =? 0)%nat
    then recommendations ++ [noDirectMatches] else recommendations in
  let recommendations :=
    if (0 <? length directMatches)%nat then
      let sessionSources := countSource session directMatches in
      let memorySources := countSource memory_bank directMatches in
      let recommendations :=
        if (memorySources <? sessionSources)%nat
        then recommendations ++ [mostlySessions] else recommendations in
      if (sessionSources <? memorySources)%nat
      then recommendations ++ [mostlyMemory] else recommendations
    else recommendations in
  if (3 <? length relatedInsights)%nat
  then recommendations ++ [manyRelated] else recommendations.

(** [a === b] for two reads of an optional string property. *)
Definition sameText (a b : option jsstring) : bool :=
  match a, b with
  | None, None => true
  | Some x, Some y => eqb x y
  | _, _ => false
  end.

(** [direct.content === related.content &&
     direct.context.sessionId === related.context.sessionId] *)
Definition repeats (direct related : UnifiedConsciousnessResult) : bool :=
  eqb (content direct) (content related) &&
  sameText (sessionId (context direct)) (sessionId (context related)).

(** What [queryDevelopmentConsciousness] returns. *)
Record ConsciousnessAnswer : Type := {
  directMatches : list UnifiedConsciousnessResult;
  relatedInsights : list UnifiedConsciousnessResult;
  recommendations : list jsstring
}.

Section Query.

Variable JSON : JsonCodec.
Variable Date_getTime : json -> option Z.
Variable toISOString : Z -> jsstring.

(** The loop over the key terms; the search for the term at hand is the
    search number [call] of the query, and reads the clock as
    [clocks call]. *)
Fixpoint relatedFor (banks : BankManager.Banks) (fs : BankManager.FileSystem)
    (clocks : nat -> nat -> Z) (call : nat) (keyTerms : list jsstring)
    (sessionSearchFunction : jsstring -> outcome (list SessionSearchResult))
  : outcome (list UnifiedConsciousnessResult) :=
  match keyTerms with
  | [] => Ok []
  | term :: rest =>
      termResults <- searchAllConsciousness JSON Date_getTime toISOString
                       banks fs (clocks call) term sessionSearchFunction ;;
      more <- relatedFor banks fs clocks (S call) rest sessionSearchFunction ;;
      Ok (firstn 3 termResults ++ more)
  end.

(** [queryDevelopmentConsciousness(naturalLanguageQuery,
    sessionSearchFunction)] *)
Definition queryDevelopmentConsciousness (banks : BankManager.Banks)
    (fs : BankManager.FileSystem) (clocks : nat -> nat -> Z)
    (naturalLanguageQuery : jsstring)
    (sessionSearchFunction : jsstring -> outcome (list SessionSearchResult))
  : outcome ConsciousnessAnswer :=
  let keyTerms := extractKeyTerms naturalLanguageQuery in
  direct <- searchAllConsciousness JSON Date_getTime toISOString banks fs
              (clocks 0%nat) naturalLanguageQuery sessionSearchFunction ;;
  related <- relatedFor banks fs clocks 1 keyTerms sessionSearchFunction ;;
  let uniqueRelated :=
    filter (fun related =>
              negb (existsb (fun direct => repeats direct related) direct))
           related in
  let recommendations := generateRecommendations direct uniqueRelated in
  Ok {| directMatches := firstn 10 direct;
        relatedInsights := firstn 5 uniqueRelated;
        recommendations := recommendations |}.

End Query.

End ConsciousnessQuery.

(** ** The server: sessions and projects ([server/index.ts]) *)

Module Server.

Record ClaudeCodeSession : Type := {
  id : jsstring;
  projectId : jsstring;
  filePath : jsstring;
  timestamp : Z;                    (* a [Date], in epoch milliseconds *)
  messageCount : nat;
  toolCalls : nat;
  patterns : list jsstring
}.

Record ClaudeCodeProject : Type := {
  project_id : jsstring;
  name : jsstring;
  path : jsstring;
  sessions : list ClaudeCodeSession;
  lastActivity : Z;
  sessionCount : nat
}.

Record SessionSearchResult : Type := {
  session : ClaudeCodeSession;
  project : ClaudeCodeProject;
  relevance : Z;
  matchedContent : list jsstring
}.

(** The two [Map]s of the manager, in insertion order. *)
Definition Sessions : Type := list (jsstring * ClaudeCodeSession).
Definition Projects : Type := list (jsstring * ClaudeCodeProject).

(** [map.get(key)] *)
Fixpoint mapGet (A : Type) (m : list (jsstring * A)) (key : jsstring)
  : option A :=
  match m with
  | [] => None
  | (k, v) :: rest => if eqb key k then Some v else mapGet rest key
  end.

(** *** Project names *)

Definition isHyphen (c : ascii) : bool := Ascii.eqb c "-"%char.

(** [s.replace(/^-+/, '')] *)
Fixpoint dropHyphens (s : jsstring) : jsstring :=
  match s with
  | c :: s' => if isHyphen c then dropHyphens s' else s
  | [] => []
  end.

(** [s.replace(/-+$/, '')] *)
Definition dropTrailingHyphens (s : jsstring) : jsstring :=
  rev (dropHyphens (rev s)).

(** The class [\w]. *)
Definition isWordUnit (c : ascii) : bool :=
  let n := code c in
  ((48 <=? n) && (n <=? 57) || (65 <=? n) && (n <=? 90) || (n =? 95) ||
   (97 <=? n) && (n <=? 122))%N.

(** [l.toUpperCase()] for a unit of [\w]. *)
Definition toUpperUnit (c : ascii) : ascii :=
  let n := code c in
  if ((97 <=? n) && (n <=? 122))%N then ascii_of_N (n - 32) else c.

(** [s.replace(/\b\w/g, l => l.toUpperCase())]: a unit of [\w] that
    does not follow one starts a word.  [afterWord] tells that the unit
    before was one. *)
Fixpoint capitalize (afterWord : bool) (s : jsstring) : jsstring :=
  match s with
  | [] => []
  | c :: s' =>
      (if isWordUnit c && negb afterWord then toUpperUnit c else c)
      :: capitalize (isWordUnit c) s'
  end.

(** [s.replace(/-/g, ' ')] *)
Definition hyphensToBlanks (s : jsstring) : jsstring :=
  map (fun c => if isHyphen c then " "%char else c) s.

(** [extractProjectName(projectId)] *)
Definition extractProjectName (projectId : jsstring) : jsstring :=
  capitalize false
    (hyphensToBlanks (dropTrailingHyphens (dropHyphens projectId))).

(** *** Reading a session file *)

(** [content.split(LF).filter(line => line.trim())]: the lines that are
    not blank. *)
Definition contentLines (content : jsstring) : list jsstring :=
  filter (fun line => negb (eqb (trim line) [])) (splitOn LF content).

(** [[...new Set(l)]]: the first occurrences, in order. *)
Fixpoint unique (seen l : list jsstring) : list jsstring :=
  match l with
  | [] => []
  | x :: l' =>
      if existsb (eqb x) seen then unique seen l'
      else x :: unique (x :: seen) l'
  end.

(** [data.type] for a parsed line that is not [null]. *)
Definition typeOf (data : json) : option json :=
  match data with
  | JObj o => get (str "type") o
  | _ => None
  end.

(** The names [loadSession] gives to what it detects. *)
Definition patternNames : list jsstring :=
  [str "exactly_moment"; str "breakthrough"; str "consciousness"].

Section Loading.

Variable JSON : JsonCodec.

(** [fs.stat(path)], as far as it is read: [stats.mtime], in epoch
    milliseconds. *)
Variable stat : jsstring -> outcome Z.

(** The body of the loop of [loadSession]: one line.  A line that does
    not parse, or parses to [null], is skipped as a whole. *)
Definition tallyLine (acc : nat * nat * list jsstring) (line : jsstring)
  : nat * nat * list jsstring :=
  let '(messageCount, toolCalls, patterns) := acc in
  match JSON_parse JSON line with
  | None | Some JNull => acc
  | Some data =>
      let messageCount :=
        if strictEquals (typeOf data) (Some (JStr (str "message")))
        then S messageCount else messageCount in
      let toolCalls :=
        if strictEquals (typeOf data) (Some (JStr (str "tool_call")))
        then S toolCalls else toolCalls in
      let patterns :=
        if includes line (str "exactly :P")
        then patterns ++ [str "exactly_moment"] else patterns in
      let patterns :=
        if includes line (str "breakthrough")
        then patterns ++ [str "breakthrough"] else patterns in
      let patterns :=
        if includes line (str "consciousness")
        then patterns ++ [str "consciousness"] else patterns in
      (messageCount, toolCalls, patterns)
  end.

(** [loadSession(sessionId, projectId, sessionPath)]; [None] is
    [null]. *)
Definition loadSession (fs : BankManager.FileSystem)
    (sessionId projectId sessionPath : jsstring) : option ClaudeCodeSession :=
  match stat sessionPath with
  | Throw _ => None
  | Ok mtime =>
      match BankManager.readFile fs sessionPath with
      | Throw _ => None
      | Ok content =>
          let lines := contentLines content in
          let '(messageCount, toolCalls, patterns) :=
            fold_left tallyLine (firstn 100 lines) (0%nat, 0%nat, []) in
          Some {| id := sessionId;
                  projectId := projectId;
                  filePath := sessionPath;
                  timestamp := mtime;
                  messageCount := messageCount;
                  toolCalls := toolCalls;
                  patterns := unique [] patterns |}
      end
  end.





(** [String(n)] for a number. *)
Variable numberText : number -> jsstring.





Variable toISOString : Z -> jsstring.
Variable toolArrow : jsstring.


End Loading.

(** *** Searching the sessions *)

(** The loop over [session.patterns]. *)
Definition scanPatterns (queryLower : jsstring) (patterns : list jsstring)
    (acc : Z * list jsstring) : Z * list jsstring :=
  fold_left (fun acc pattern =>
               if includes (toLowerCase pattern) queryLower
               then ((fst acc + 2)%Z, snd acc ++ [str "Pattern: " ++ pattern])
               else acc)
            patterns acc.

(** The loop over the lines of the session file, from the line at
    index [i]; it stops once more than five matches are listed. *)
Fixpoint scanLines (queryLower : jsstring) (i : nat) (lines : list jsstring)
    (acc : Z * list jsstring) : Z * list jsstring :=
  match lines with
  | [] => acc
  | line :: rest =>
      if includes (toLowerCase line) queryLower then
        let acc :=
          ((fst acc + 1)%Z,
           snd acc ++
           [str "Line " ++ PatternExtractor.showNat (i + 1) ++ str ": " ++
            firstn 100 line ++ str "..."]) in
        if (5 <? length (snd acc))%nat then acc
        else scanLines queryLower (S i) rest acc
      else scanLines queryLower (S i) rest acc
  end.

(** The body of the loop of [searchSessions]: one session. *)
Definition searchSession (projects : Projects) (fs : BankManager.FileSystem)
    (queryLower : jsstring) (session : ClaudeCodeSession)
  : list SessionSearchResult :=
  match mapGet projects (projectId session) with
  | None => []
  | Some project =>
      let acc := (0%Z, []) in
      let acc :=
        if includes (toLowerCase (name project)) queryLower
        then ((fst acc + 3)%Z, snd acc ++ [str "Project: " ++ name project])
        else acc in
      let acc := scanPatterns queryLower (patterns session) acc in
      let acc :=
        match BankManager.readFile fs (filePath session) with
        | Ok content =>
            scanLines queryLower 0 (firstn 200 (splitOn LF content)) acc
        | Throw _ => acc
        end in
      if (0 <? fst acc)%Z
      then [ {| session := session; project := project;
                relevance := fst acc; matchedContent := snd acc |} ]
      else []
  end.

(** [l.slice(0, limit)] for an integer [limit]: a negative limit counts
    from the end. *)
Definition slice0 (A : Type) (limit : Z) (l : list A) : list A :=
  if (limit <? 0)%Z then firstn (length l - Z.to_nat (- limit)) l
  else firstn (Z.to_nat limit) l.

(** The comparator [(a, b) => b.relevance - a.relevance]. *)
Definition byRelevance (a b : SessionSearchResult) : Q :=
  inject_Z (relevance b) - inject_Z (relevance a).

(** [searchSessions(query, limit)] of a manager that is initialised. *)
Definition searchSessions (projects : Projects) (sessions : Sessions)
    (fs : BankManager.FileSystem) (query : jsstring) (limit : Z)
  : list SessionSearchResult :=
  let queryLower := toLowerCase query in
  let results :=
    flat_map (searchSession projects fs queryLower) (map snd sessions) in
  slice0 limit (sort byRelevance results).

(** The result as [searchAllConsciousness] reads it. *)
Definition asSessionResult (r : SessionSearchResult)
  : UnifiedSearch.SessionSearchResult :=
  {| UnifiedSearch.session_id := id (session r);
     UnifiedSearch.session_timestamp := timestamp (session r);
     UnifiedSearch.project_id := project_id (project r);
     UnifiedSearch.relevance := inject_Z (relevance r);
     UnifiedSearch.matchedContent := matchedContent r |}.

(** The [sessionSearchFunction] of [queryAllConsciousness]. *)
Definition sessionSearchFunction (projects : Projects) (sessions : Sessions)
    (fs : BankManager.FileSystem) (searchQuery : jsstring)
  : outcome (list UnifiedSearch.SessionSearchResult) :=
  Ok (map asSessionResult (searchSessions projects sessions fs searchQuery 50)).

End Server.

(** ** Sample data *)

Module Samples.

Import BankManager.

Definition toISOString (ms : Z) : jsstring := str "2025-06-22T10:00:00.000Z".
Definition toolArrow : jsstring := str " -> ".
Definition Date_getTime (v : json) : option Z :=
  match v with
  | JStr (_ :: _) => Some 1750586400000%Z
  | _ => None
  end.
(** Ten days after the sample timestamp. *)
Definition clock (i : nat) : Z := (1750586400000 + 10 * 86400000)%Z.

Definition devBank : DeveloperMemoryBank :=
  {| name := str "development_patterns";
     filePath := str "/home/dev/.claude/consciousness_banks/development_patterns.json";
     description := str "Technical approaches";
     entityTypes := [str "technical_insight"];
     graph := {| entities := []; relations := [] |} |}.

Definition banks : Banks :=
  [(str "development_patterns", devBank)].

Definition noFiles : FileSystem := fun _ => None.

Definition authPattern : jobject :=
  [(str "name", JStr (str "Auth Pattern"));
   (str "entityType", JStr (str "technical_insight"));
   (str "observations", JArr [JStr (str "uses JWT")])].

Definition cachePattern : jobject :=
  [(str "name", JStr (str "Cache Pattern"));
   (str "entityType", JStr (str "technical_insight"));
   (str "observations", JArr [JStr (str "uses an LRU map")])].

(** An entity that already carries the name of another bank. *)
Definition borrowed : jobject :=
  authPattern ++ [(str "memoryBank", JStr (str "community_wisdom"))].

Definition uses : jobject :=
  [(str "from", JStr (str "Auth Pattern"));
   (str "to", JStr (str "Cache Pattern"));
   (str "relationType", JStr (str "uses"))].

Definition timestamp : jsstring := str "2025-06-22T10:00:00.000Z".

(** An entity as [patternsToEntities] builds it, with the confidence
    0.7 of its pattern. *)
Definition scoredPattern : jobject :=
  [(str "name",
    JStr (str "breakthrough moment: That was a real breakthrough for the parser... (1750586400000)"));
   (str "entityType", JStr (str "breakthrough_moment"));
   (str "observations",
    JArr [JStr (str "That was a real breakthrough for the parser");
          JStr (str "Context: Breakthrough moment detected: breakthrough");
          JStr (str "Confidence: 0.7");
          JStr (str "Source: Session s1 in project p1");
          JStr (str "Timestamp: 2025-06-22T10:00:00.000Z")]);
   (str "projectId", JStr (str "p1"));
   (str "sessionId", JStr (str "s1"));
   (str "createdAt", JStr timestamp);
   (str "extractedFrom", JStr (str "session:s1"));
   (str "confidenceScore", JNum {| digits := 7; exponent := -1 |})].

(** An object handed over as an entity that carries the type of a
    relation. *)
Definition mistyped : jobject :=
  [(str "type", JStr (str "relation"));
   (str "name", JStr (str "Auth Pattern"));
   (str "entityType", JStr (str "technical_insight"));
   (str "observations", JArr [])].

(** A bank file with an entity, a line that is no JSON text, a blank
    line and a relation. *)
Definition brokenLine : jsstring := str "{ not json".

Definition mixedFiles : FileSystem :=
  fun p =>
    if eqb p (filePath devBank) then
      Some (File (join [LF]
                    [JSON_stringify JsonText.codec
                       (JObj (tagged "entity" devBank scoredPattern));
                     brokenLine;
                     str "  ";
                     JSON_stringify JsonText.codec
                       (JObj (tagged "relation" devBank uses))]))
    else None.

(** *** Search results *)

Definition bankHit (score : Q) : Unified.UnifiedConsciousnessResult :=
  {| Unified.source := Unified.memory_bank;
     Unified.bankName := Some (str "development_patterns");
     Unified.entityName := Some (JStr (str "Auth Pattern"));
     Unified.content := str "Name: Auth Pattern";
     Unified.relevanceScore := score;
     Unified.context :=
       {| Unified.projectId := None;
          Unified.sessionId := None;
          Unified.timestamp := Some (JStr timestamp) |} |}.

Definition sessionHit (score : Q) : Unified.UnifiedConsciousnessResult :=
  {| Unified.source := Unified.session;
     Unified.bankName := None;
     Unified.entityName := None;
     Unified.content := str "Name: Auth Pattern";
     Unified.relevanceScore := score;
     Unified.context :=
       {| Unified.projectId := None;
          Unified.sessionId := None;
          Unified.timestamp := Some (JStr timestamp) |} |}.

Definition sessionSearch (query : jsstring)
  : outcome (list UnifiedSearch.SessionSearchResult) :=
  Ok [ {| UnifiedSearch.session_id := str "s1";
          UnifiedSearch.session_timestamp := 1750586400000%Z;
          UnifiedSearch.project_id := str "p1";
          UnifiedSearch.relevance := 2;
          UnifiedSearch.matchedContent := [str "we added auth to the api"] |};
       {| UnifiedSearch.session_id := str "s2";
          UnifiedSearch.session_timestamp := 1750586400000%Z;
          UnifiedSearch.project_id := str "p1";
          UnifiedSearch.relevance := 7;
          UnifiedSearch.matchedContent := [str "auth"; str "token refresh"] |} ].

(** The files after [authPattern] was created in the bank. *)
Definition oneEntityFiles : FileSystem :=
  match createEntitiesInBank JsonText.codec banks noFiles timestamp
          (str "development_patterns") [authPattern] with
  | Ok (_, fs) => fs
  | Throw _ => noFiles
  end.

(** *** Sessions *)

Import PatternExtractor.

Definition says (text : string) : Message := {| msg_content := Some (str text) |}.

Definition sessionOf (msgs : option (list Message))
    (calls : option (list ToolCall)) : Session :=
  {| session_id := str "s1"; session_projectId := str "p1"; messages := msgs;
     toolCalls := calls; session_timestamp := 1750586400000%Z |}.

(** One sentence with exactly two technical keywords ("architecture",
    "pattern"), one with exactly one ("database"). *)
Definition twoKeywords : Session :=
  sessionOf
    (Some [says "The new architecture follows a plain layered pattern. We moved the old database to another host"])
    (Some []).

Definition marker : Session :=
  sessionOf (Some [says "Yes that is it, Exactly :P and nothing more"])
            (Some []).

Definition noMessages : Session := sessionOf None (Some []).
Definition noToolCalls : Session := sessionOf (Some [says "hello"]) None.

End Samples.

(** ** More sample data: stores, sessions and a session file *)

Module MoreSamples.

Import BankManager Samples.

(** An entity without a name, as a bank file can hold it. *)
Definition nameless : jobject :=
  [(str "entityType", JStr (str "technical_insight"));
   (str "observations", JArr [])].

Definition namelessFiles : FileSystem :=
  match saveBankGraph JsonText.codec noFiles devBank
          {| entities := [nameless]; relations := [] |} with
  | Ok fs => fs
  | Throw _ => noFiles
  end.

(** One clock reading for every search of a query. *)
Definition clocks (call : nat) : nat -> Z := clock.

Import PatternExtractor.

(** A sentence with two collaboration indicators ("we should",
    "together"). *)
Definition teamwork : Session :=
  sessionOf (Some [says "We should work on this together with care"])
            (Some []).

(** A question with two solution keywords ("approach", "method"). *)
Definition planning : Session :=
  sessionOf (Some [says "How should we pick the approach and the method here"])
            (Some []).

Definition threeCalls : Session :=
  sessionOf (Some [])
            (Some [ {| call_name := str "grep" |};
                    {| call_name := str "read" |};
                    {| call_name := str "edit" |} ]).

(** *** A session file *)

Definition sessionPath : jsstring :=
  str "/home/dev/.claude/projects/-home-dev-api/s1.jsonl".

Definition sessionLines : list json :=
  [ JObj [(str "type", JStr (str "message"));
          (str "content", JStr (str "a breakthrough in the auth flow"))];
    JObj [(str "type", JStr (str "tool_call"));
          (str "name", JStr (str "grep"))] ].

Definition sessionText : jsstring :=
  join [LF] (map (JSON_stringify JsonText.codec) sessionLines).

Definition sessionFiles : FileSystem :=
  fun p => if eqb p sessionPath then Some (File sessionText) else None.

Definition stat (p : jsstring) : outcome Z :=
  if eqb p sessionPath then Ok 1750586400000%Z
  else Throw (SystemError (str "ENOENT")).



End MoreSamples.

(* ===================================================================== *)
(** * Part II: properties                                                 *)
(* ===================================================================== *)

(** ** Sorting with a descending numeric key *)

Section SortFacts.

Variable A : Type.
Variable key : A -> Q.

Let cmp (a b : A) : Q := key b - key a.
Let desc (a b : A) : Prop := key b <= key a.

Lemma sortInsert_perm (c : A -> A -> Q) (x : A) (l : list A) :
  Permutation (x :: l) (sortInsert c x l).
Proof.
  induction l as [|y l IH]; simpl.
  - apply Permutation_refl.
  - destruct (Qlt_le_dec 0 (c x y)).
    + eapply perm_trans; [apply perm_swap|]. now apply perm_skip.
    + apply Permutation_refl.
Qed.

Lemma sort_perm (c : A -> A -> Q) (l : list A) : Permutation l (sort c l).
Proof.
  induction l as [|x l IH]; simpl.
  - apply perm_nil.
  - eapply perm_trans; [apply perm_skip, IH|]. apply sortInsert_perm.
Qed.

Lemma sortInsert_sorted (x : A) (l : list A) :
  StronglySorted desc l -> StronglySorted desc (sortInsert cmp x l).
Proof.
  induction 1 as [|y l Hs IH Hall]; simpl.
  - constructor; constructor.
  - destruct (Qlt_le_dec 0 (cmp x y)) as [Hlt|Hle].
    + constructor; [exact IH|].
      eapply Permutation_Forall; [apply sortInsert_perm|].
      constructor; [|exact Hall].
      unfold desc. unfold cmp in Hlt. lra.
    + assert (Hxy : desc x y) by (unfold desc; unfold cmp in Hle; lra).
      constructor; [constructor; assumption|].
      constructor; [exact Hxy|].
      eapply Forall_impl; [|exact Hall].
      intros z Hz. unfold desc in *. lra.
Qed.

Lemma sort_sorted (l : list A) : StronglySorted desc (sort cmp l).
Proof.
  induction l as [|x l IH]; simpl.
  - constructor.
  - now apply sortInsert_sorted.
Qed.

End SortFacts.

(** ** The ranker *)

Section RankFacts.

Import Unified UnifiedSearch.

Variable Date_getTime : json -> option Z.

Lemma days_within (d k : Z) :
  Qle_bool (inject_Z d / inject_Z (1000 * 60 * 60 * 24)) (inject_Z k)
  = (d <=? k * 86400000)%Z.
Proof.
  unfold Qle_bool, Qdiv, Qmult, Qinv, inject_Z. simpl.
  rewrite !Z.mul_1_r. reflexivity.
Qed.

(** The code computes the product of the specification's factors. *)
Lemma calculateFinalScore_factors now result query :
  calculateFinalScore Date_getTime now result query ==
  relevanceScore result * sourceFactor result *
  recencyFactor Date_getTime now result * phraseFactor result query.
Proof.
  unfold calculateFinalScore, sourceFactor, recencyFactor, phraseFactor.
  destruct (timestamp (context result)) as [ts|].
  - destruct (truthy (Some ts)).
    + destruct (Date_getTime ts) as [t|].
      * change 30 with (inject_Z 30). change 90 with (inject_Z 90).
        rewrite !days_within.
        destruct (source result),
          (includes (toLowerCase (content result)) (toLowerCase query)),
          (now - t <=? 30 * 86400000)%Z, (now - t <=? 90 * 86400000)%Z;
          try destruct (Qlt_le_dec 8 (relevanceScore result));
          cbv beta iota; ring.
      * destruct (source result),
          (includes (toLowerCase (content result)) (toLowerCase query));
          try destruct (Qlt_le_dec 8 (relevanceScore result));
          cbv beta iota; ring.
    + destruct (source result),
        (includes (toLowerCase (content result)) (toLowerCase query));
        try destruct (Qlt_le_dec 8 (relevanceScore result));
          cbv beta iota; ring.
  - destruct (source result),
      (includes (toLowerCase (content result)) (toLowerCase query));
      try destruct (Qlt_le_dec 8 (relevanceScore result));
      cbv beta iota delta [truthy]; ring.
Qed.

Lemma recencyFactor_pos now result : 0 < recencyFactor Date_getTime now result.
Proof.
  unfold recencyFactor.
  destruct (timestamp (context result)) as [ts|]; [|reflexivity].
  destruct (truthy (Some ts)); [|reflexivity].
  destruct (Date_getTime ts) as [t|]; [|reflexivity].
  destruct (now - t <=? 30 * 86400000)%Z; [reflexivity|].
  destruct (now - t <=? 90 * 86400000)%Z; reflexivity.
Qed.

Lemma phraseFactor_pos result query : 0 < phraseFactor result query.
Proof.
  unfold phraseFactor.
  destruct (includes _ _); reflexivity.
Qed.

Lemma scoreAll_results clock i results query :
  map result_of (scoreAll Date_getTime clock i results query) = results.
Proof.
  revert i. induction results as [|r rest IH]; intros i; simpl.
  - reflexivity.
  - now rewrite IH.
Qed.

Lemma rank_pair_swaps clock a b query :
  calculateFinalScore Date_getTime (clock 0%nat) a query
  < calculateFinalScore Date_getTime (clock 1%nat) b query ->
  rankUnifiedResults Date_getTime clock [a; b] query = [b; a].
Proof.
  intros Hlt. unfold rankUnifiedResults. simpl.
  unfold byFinalScoreDesc at 1. simpl.
  destruct (Qlt_le_dec 0 _) as [_|Hle]; [reflexivity|lra].
Qed.

Lemma rank_pair_keeps clock a b query :
  calculateFinalScore Date_getTime (clock 1%nat) b query
  <= calculateFinalScore Date_getTime (clock 0%nat) a query ->
  rankUnifiedResults Date_getTime clock [a; b] query = [a; b].
Proof.
  intros Hle. unfold rankUnifiedResults. simpl.
  unfold byFinalScoreDesc at 1. simpl.
  destruct (Qlt_le_dec 0 _) as [Hlt|_]; [lra|reflexivity].
Qed.

End RankFacts.

Section RankClaims.

Import Unified UnifiedSearch.

Variable JSON : JsonCodec.
Variable Date_getTime : json -> option Z.
Variable toISOString : Z -> jsstring.

Let final := calculateFinalScore Date_getTime.
Let rank := rankUnifiedResults Date_getTime.

(** Two results that differ in their source only, scored at one clock
    reading: which one wins is decided by [relevanceScore > 8]. *)
Lemma source_threshold now query bank sess :
  source bank = memory_bank -> source sess = session ->
  content bank = content sess ->
  relevanceScore bank = relevanceScore sess ->
  context bank = context sess ->
  let rel := relevanceScore sess in
  let F := recencyFactor Date_getTime now sess * phraseFactor sess query in
  final now sess query == rel * 1.1 * F /\
  (8 < rel -> final now bank query == rel * 1.15 * F /\
              final now sess query < final now bank query) /\
  (rel <= 8 -> final now bank query == rel * F /\
               (0 < rel -> final now bank query < final now sess query)).
Proof.
  intros Hb Hs Hc Hr Hx rel F.
  assert (HF : 0 < F).
  { unfold F. apply Qmult_lt_0_compat;
      [apply recencyFactor_pos | apply phraseFactor_pos]. }
  assert (Hsess : final now sess query == rel * 1.1 * F).
  { unfold final. rewrite calculateFinalScore_factors.
    unfold sourceFactor. rewrite Hs. unfold F, rel. ring. }
  assert (Hbank : final now bank query ==
                  rel * (if Qlt_le_dec 8 rel then 1.15 else 1) * F).
  { unfold final. rewrite calculateFinalScore_factors.
    unfold sourceFactor, recencyFactor, phraseFactor.
    rewrite Hb, Hc, Hr, Hx. fold rel. unfold F, recencyFactor, phraseFactor.
    ring. }
  split; [exact Hsess|]. split.
  - intros H8. destruct (Qlt_le_dec 8 rel) as [_|Hle]; [|lra].
    split; [rewrite Hbank; ring|].
    assert (0 < rel * F) by (apply Qmult_lt_0_compat; lra).
    rewrite Hsess, Hbank.
    setoid_replace (rel * 1.1 * F) with (1.1 * (rel * F)) by ring.
    setoid_replace (rel * 1.15 * F) with (1.15 * (rel * F)) by ring.
    lra.
  - intros H8. destruct (Qlt_le_dec 8 rel) as [Hlt|_]; [lra|].
    split; [rewrite Hbank; ring|].
    intros Hpos.
    assert (0 < rel * F) by (apply Qmult_lt_0_compat; lra).
    rewrite Hsess, Hbank.
    setoid_replace (rel * 1.1 * F) with (1.1 * (rel * F)) by ring.
    setoid_replace (rel * 1 * F) with (rel * F) by ring.
    lra.
Qed.

(** C1: for two results identical but for their source (same content,
    relevanceScore and context, scored against the same query at the
    same clock reading): at relevanceScore 9 the memory_bank result gets
    the factor 1.15, the session result 1.1, and the bank result is
    ranked first; at relevanceScore 8 the bank result gets no source
    factor and the session result (factor 1.1) is ranked first.  The bank
    boost applies exactly when relevanceScore > 8. *)
Theorem C1_bank_boost_threshold clock query bank sess :
  source bank = memory_bank -> source sess = session ->
  content bank = content sess ->
  relevanceScore bank = relevanceScore sess ->
  context bank = context sess ->
  clock 1%nat = clock 0%nat ->
  let now := clock 0%nat in
  let rel := relevanceScore sess in
  let F := recencyFactor Date_getTime now sess * phraseFactor sess query in
  (rel == 9 ->
     final now bank query == 9 * 1.15 * F /\
     final now sess query == 9 * 1.1 * F /\
     final now sess query < final now bank query /\
     rank clock [sess; bank] query = [bank; sess] /\
     rank clock [bank; sess] query = [bank; sess]) /\
  (rel == 8 ->
     final now bank query == 8 * F /\
     final now sess query == 8 * 1.1 * F /\
     final now bank query < final now sess query /\
     rank clock [sess; bank] query = [sess; bank] /\
     rank clock [bank; sess] query = [sess; bank]) /\
  (8 < rel -> final now bank query == rel * 1.15 * F) /\
  (rel <= 8 -> final now bank query == rel * F).
Proof.
  intros Hb Hs Hc Hr Hx Hclock now rel F.
  destruct (source_threshold now query bank sess Hb Hs Hc Hr Hx)
    as (Hsess & Hhigh & Hlow).
  fold rel F in Hsess, Hhigh, Hlow.
  split; [|split; [|split]].
  - intros H9. destruct Hhigh as [Hbank Hlt]; [lra|].
    split; [rewrite Hbank, H9; reflexivity|].
    split; [rewrite Hsess, H9; reflexivity|].
    split; [exact Hlt|]. split.
    + apply rank_pair_swaps. rewrite Hclock. exact Hlt.
    + apply rank_pair_keeps. rewrite Hclock. apply Qlt_le_weak, Hlt.
  - intros H8. destruct Hlow as [Hbank Hlt]; [lra|].
    assert (Hpos : 0 < rel) by lra. specialize (Hlt Hpos).
    split; [rewrite Hbank, H8; reflexivity|].
    split; [rewrite Hsess, H8; reflexivity|].
    split; [exact Hlt|]. split.
    + apply rank_pair_keeps. rewrite Hclock. apply Qlt_le_weak, Hlt.
    + apply rank_pair_swaps. rewrite Hclock. exact Hlt.
  - intros H. apply Hhigh, H.
  - intros H. apply Hlow, H.
Qed.

Lemma scoreAll_scores now clock i results query :
  (forall j, clock j = now) ->
  Forall (fun s => finalScore s = final now (result_of s) query)
         (scoreAll Date_getTime clock i results query).
Proof.
  intros Hclock. revert i.
  induction results as [|r rest IH]; intros i; simpl; constructor.
  - simpl. now rewrite Hclock.
  - apply IH.
Qed.

Lemma sorted_results now query (scored : list Scored) :
  Forall (fun s => finalScore s = final now (result_of s) query) scored ->
  StronglySorted (fun a b => finalScore b <= finalScore a) scored ->
  StronglySorted (fun a b => final now b query <= final now a query)
                 (map result_of scored).
Proof.
  intros Hall Hsorted.
  induction Hsorted as [|s l Hs IH Hhd]; simpl.
  - constructor.
  - inversion Hall as [|? ? Hs0 Hl]; subst.
    constructor; [now apply IH|].
    apply Forall_map. rewrite Forall_forall in *.
    intros z Hz. rewrite <- Hs0, <- (Hl z Hz). now apply Hhd.
Qed.

(** What [rankUnifiedResults] returns for any list of results. *)
Lemma rank_spec clock results query :
  let out := rank clock results query in
  Permutation results out /\
  exists scored : list Scored,
    Permutation (scoreAll Date_getTime clock 0 results query) scored /\
    StronglySorted (fun a b => finalScore b <= finalScore a) scored /\
    out = map result_of scored /\
    (forall now, (forall i, clock i = now) ->
       StronglySorted (fun a b => final now b query <= final now a query) out).
Proof.
  intros out. split.
  { unfold out, rank, rankUnifiedResults.
    rewrite <- (scoreAll_results Date_getTime clock 0 results query) at 1.
    apply Permutation_map, sort_perm. }
  exists (sort byFinalScoreDesc (scoreAll Date_getTime clock 0 results query)).
  split; [apply sort_perm|].
  split; [apply (sort_sorted finalScore)|].
  split; [reflexivity|].
  intros now Hclock. unfold out, rank, rankUnifiedResults.
  apply sorted_results.
  - eapply Permutation_Forall; [apply sort_perm|].
    now apply scoreAll_scores.
  - apply (sort_sorted finalScore).
Qed.

(** C9: [searchAllConsciousness] returns the ranking of the merged session
    and bank results, and the ranking of any list of results is a
    permutation of that list ordered by descending final score: its
    elements are the input results themselves (every field,
    [relevanceScore] included, unchanged) and carry no final score. *)
Theorem C9_ranked_permutation banks fs clock query sessionSearchFunction
    sessionResults memoryResults :
  searchSessions toISOString query sessionSearchFunction = Ok sessionResults ->
  BankManager.searchAllBanks JSON banks fs query = Ok memoryResults ->
  searchAllConsciousness JSON Date_getTime toISOString banks fs clock query
    sessionSearchFunction
  = Ok (rank clock (sessionResults ++ memoryResults) query) /\
  forall results : list UnifiedConsciousnessResult,
    let out := rank clock results query in
    Permutation results out /\
    exists scored : list Scored,
      Permutation (scoreAll Date_getTime clock 0 results query) scored /\
      StronglySorted (fun a b => finalScore b <= finalScore a) scored /\
      out = map result_of scored /\
      (forall now, (forall i, clock i = now) ->
         StronglySorted (fun a b => final now b query <= final now a query)
                        out).
Proof.
  intros Hsess Hmem. split.
  - unfold searchAllConsciousness. rewrite Hsess. simpl. rewrite Hmem.
    reflexivity.
  - intros results. apply rank_spec.
Qed.

End RankClaims.

(** ** Strings *)

Lemma eqb_eq (a b : jsstring) : eqb a b = true <-> a = b.
Proof.
  revert b. induction a as [|x a IH]; intros [|y b]; simpl;
    try (split; [discriminate|discriminate]); try tauto.
  rewrite andb_true_iff, Ascii.eqb_eq, IH.
  split; [intros [-> ->]; reflexivity | intros H; inversion H; auto].
Qed.

Lemma eqb_refl (a : jsstring) : eqb a a = true.
Proof. now apply eqb_eq. Qed.

Lemma eqb_neq (a b : jsstring) : eqb a b = false <-> a <> b.
Proof.
  rewrite <- eqb_eq. destruct (eqb a b); split; congruence.
Qed.

Lemma startsWith_spec (k s : jsstring) :
  startsWith k s = true <-> exists b, s = k ++ b.
Proof.
  revert s. induction k as [|a k IH]; intros s; simpl.
  - split; [intros _; now exists s | reflexivity].
  - destruct s as [|c s].
    + split; [discriminate | intros [b Hb]; discriminate].
    + rewrite andb_true_iff, Ascii.eqb_eq, IH. split.
      * intros [-> [b ->]]. now exists b.
      * intros [b Hb]. inversion Hb; subst. split; [reflexivity | now exists b].
Qed.

Lemma includes_spec (s k : jsstring) :
  includes s k = true <-> exists a b, s = a ++ k ++ b.
Proof.
  induction s as [|c s IH].
  - simpl. rewrite orb_false_r, startsWith_spec. split.
    + intros [b Hb]. now exists [], b.
    + intros (a & b & Hab). destruct a; [now exists b|discriminate].
  - cbn [includes]. rewrite orb_true_iff, startsWith_spec, IH. split.
    + intros [[b Hb] | (a & b & Hab)].
      * now exists [], b.
      * exists (c :: a), b. now rewrite Hab.
    + intros (a & b & Hab). destruct a as [|x a].
      * left. now exists b.
      * right. inversion Hab; subst. now exists a, b.
Qed.

(** A string includes only what is made of its own units. *)
Lemma includes_units (s k : jsstring) (c : ascii) :
  includes s k = true -> In c k -> In c s.
Proof.
  intros H Hc. apply includes_spec in H as (a & b & ->).
  apply in_or_app. right. apply in_or_app. now left.
Qed.

Lemma includes_toLowerCase (s k : jsstring) :
  includes s k = true -> includes (toLowerCase s) (toLowerCase k) = true.
Proof.
  intros H. apply includes_spec in H as (a & b & ->).
  apply includes_spec. exists (toLowerCase a), (toLowerCase b).
  unfold toLowerCase. now rewrite !map_app.
Qed.

(** Lower-casing never produces a unit of the class [[.!?]] from another
    unit. *)
Lemma toLowerUnit_break (c : ascii) :
  isSentenceBreak (toLowerUnit c) = isSentenceBreak c.
Proof.
  destruct c as [[] [] [] [] [] [] [] []]; vm_compute; reflexivity.
Qed.

Lemma splitRuns_clean (sep : ascii -> bool) (inRun : bool) (s piece : jsstring) :
  In piece (splitRuns sep inRun s) -> Forall (fun c => sep c = false) piece.
Proof.
  revert inRun piece. induction s as [|c s IH]; intros inRun piece; simpl.
  - intros [<-|[]]. constructor.
  - destruct (sep c) eqn:Hc.
    + destruct inRun.
      * apply IH.
      * intros [<-|H]; [constructor | now apply IH in H].
    + specialize (IH false).
      destruct (splitRuns sep false s) as [|p rest].
      * intros [<-|[]]. repeat constructor. exact Hc.
      * intros [<-|H].
        -- constructor; [exact Hc | apply IH; now left].
        -- apply IH. now right.
Qed.

(** No sentence holds a full stop, an exclamation mark or a question
    mark, before or after lower-casing. *)
Lemma sentence_clean (content sentence : jsstring) (c : ascii) :
  In sentence (splitSentences content) ->
  In c (toLowerCase sentence) -> isSentenceBreak c = false.
Proof.
  intros Hs Hc. apply splitRuns_clean in Hs.
  unfold toLowerCase in Hc. apply in_map_iff in Hc as (d & <- & Hd).
  rewrite toLowerUnit_break. rewrite Forall_forall in Hs. now apply Hs.
Qed.

(** ** The pattern extractor *)

Section ExtractorFacts.

Import PatternExtractor.

Variable toISOString : Z -> jsstring.
Variable toolArrow : jsstring.

Let extract := extractPatternsFromSession toISOString toolArrow.

(** With both lists present the extractor returns, and returns the
    gated concatenation of the four passes. *)
Lemma extract_present now session msgs calls :
  messages session = Some msgs -> toolCalls session = Some calls ->
  let content := combinedContent msgs in
  extract now session =
  Ok (filter highConfidence
        (extractTechnicalInsights toISOString session content ++
         extractBreakthroughMoments toISOString session content ++
         extractCollaborationPatterns toISOString session content ++
         (toolUsagePatterns toISOString toolArrow now calls ++
          flat_map (solutionOf toISOString session) (sentences 20 content)))).
Proof.
  intros Hm Hc content.
  unfold extract, extractPatternsFromSession, getSessionContent,
    extractSolutionApproaches, analyzeToolUsagePatterns.
  rewrite Hm, Hc. reflexivity.
Qed.

(** *** Where each pass gets its patterns from *)

Lemma technical_origin session text p :
  In p (extractTechnicalInsights toISOString session text) ->
  exists sentence,
    In sentence (sentences 20 text) /\
    technicalInsightOf toISOString session sentence = [p] /\
    (2 <= countMatches technicalKeywords (toLowerCase sentence))%nat /\
    type p = technical_insight /\
    content p = trim sentence /\
    confidence p =
      Qmin (ratio (countMatches technicalKeywords (toLowerCase sentence))
                  (length technicalKeywords) * 2) 0.9.
Proof.
  unfold extractTechnicalInsights. rewrite in_flat_map.
  intros (sentence & Hs & Hp). exists sentence. split; [exact Hs|].
  unfold technicalInsightOf in *.
  destruct (2 <=? countMatches technicalKeywords (toLowerCase sentence))%nat
    eqn:Hk; [|contradiction].
  destruct Hp as [<-|[]]. apply Nat.leb_le in Hk. auto.
Qed.

Lemma breakthrough_origin session content p :
  In p (extractBreakthroughMoments toISOString session content) ->
  exists sentence indicator,
    In sentence (sentences 10 content) /\
    firstIndicator (toLowerCase sentence) = Some indicator /\
    breakthroughOf toISOString session sentence = [p] /\
    type p = breakthrough_moment.
Proof.
  unfold extractBreakthroughMoments. rewrite in_flat_map.
  intros (sentence & Hs & Hp).
  unfold breakthroughOf in *.
  destruct (firstIndicator (toLowerCase sentence)) as [indicator|] eqn:Hi;
    [|contradiction].
  destruct Hp as [<-|[]]. exists sentence, indicator.
  split; [exact Hs|]. split; [exact Hi|].
  split; [now rewrite Hi | reflexivity].
Qed.

Lemma collaboration_type session content p :
  In p (extractCollaborationPatterns toISOString session content) ->
  type p = collaboration_pattern.
Proof.
  unfold extractCollaborationPatterns. rewrite in_flat_map.
  intros (sentence & _ & Hp). unfold collaborationOf in Hp.
  destruct (1 <=? _)%nat; [|contradiction].
  destruct Hp as [<-|[]]. reflexivity.
Qed.

Lemma solution_type now session calls content p :
  In p (toolUsagePatterns toISOString toolArrow now calls ++
        flat_map (solutionOf toISOString session) (sentences 20 content)) ->
  type p = solution_approach.
Proof.
  rewrite in_app_iff, in_flat_map. intros [Hp | (sentence & _ & Hp)].
  - unfold toolUsagePatterns in Hp.
    destruct (length calls =? 0)%nat; [contradiction|].
    destruct (3 <=? length calls)%nat; [|contradiction].
    destruct Hp as [<-|[]]. reflexivity.
  - unfold solutionOf in Hp.
    destruct (_ && _); [|contradiction].
    destruct Hp as [<-|[]]. reflexivity.
Qed.

Lemma sentences_split n content sentence :
  In sentence (sentences n content) ->
  In sentence (splitSentences content) /\ (n < length (trim sentence))%nat.
Proof.
  unfold sentences. rewrite filter_In, Nat.ltb_lt. tauto.
Qed.

(** *** Missing fields *)

(** C3 (as the code has it): [extractPatternsFromSession] reads
    [session.messages] and [session.toolCalls] without a default.  A
    session whose messages list is missing makes it throw a TypeError, and
    so does one whose tool-call list is missing; a session whose lists
    are both present, with fields of their declared types (the sessions
    of the [Session] record), always gets a result, the patterns of the
    four rules that pass the gate, and with both lists empty it gets no
    pattern. *)
Theorem C3_lists_are_required now session :
  (messages session = None ->
     exists what, extract now session = Throw (TypeError what)) /\
  (forall msgs, messages session = Some msgs -> toolCalls session = None ->
     exists what, extract now session = Throw (TypeError what)) /\
  (forall msgs calls,
     messages session = Some msgs -> toolCalls session = Some calls ->
     let content := combinedContent msgs in
     exists out,
       extract now session = Ok out /\
       out = filter highConfidence
               (extractTechnicalInsights toISOString session content ++
                extractBreakthroughMoments toISOString session content ++
                extractCollaborationPatterns toISOString session content ++
                (toolUsagePatterns toISOString toolArrow now calls ++
                 flat_map (solutionOf toISOString session)
                          (sentences 20 content)))) /\
  (messages session = Some [] -> toolCalls session = Some [] ->
     extract now session = Ok []).
Proof.
  split; [|split; [|split]].
  - unfold extract, extractPatternsFromSession, getSessionContent.
    intros ->. cbn [bind]. eauto.
  - unfold extract, extractPatternsFromSession, getSessionContent,
      extractSolutionApproaches, analyzeToolUsagePatterns.
    intros msgs -> ->. cbn [bind]. eauto.
  - intros msgs calls Hm Hc content. eexists. split; [|reflexivity].
    exact (extract_present now session Hm Hc).
  - unfold extract, extractPatternsFromSession, getSessionContent,
      extractSolutionApproaches, analyzeToolUsagePatterns.
    intros -> ->. reflexivity.
Qed.

(** *** The breakthrough rule *)

Lemma breakthroughOf_at_most_one session sentence :
  (length (breakthroughOf toISOString session sentence) <= 1)%nat.
Proof.
  unfold breakthroughOf.
  destruct (firstIndicator (toLowerCase sentence)); simpl; lia.
Qed.

Lemma marker_wins lowerSentence :
  includes lowerSentence (str "exactly :p") = true ->
  firstIndicator lowerSentence = Some (str "exactly :p").
Proof.
  intros H. unfold firstIndicator, breakthroughIndicators.
  cbn [map find]. now rewrite H.
Qed.

(** C8: a sentence of the content (more than 10 units after trimming)
    that includes "exactly :p" in any letter case gets exactly one
    breakthrough_moment pattern, with confidence 0.95; no sentence gets
    more than one breakthrough pattern; the pattern passes the confidence
    gate and is part of what [extractPatternsFromSession] returns. *)
Theorem C8_marker_confidence now session msgs calls sentence variant :
  messages session = Some msgs -> toolCalls session = Some calls ->
  In sentence (sentences 10 (combinedContent msgs)) ->
  toLowerCase variant = str "exactly :p" ->
  includes sentence variant = true ->
  let p := {| type := breakthrough_moment;
              content := trim sentence;
              context := str "Breakthrough discovery in session " ++ session_id session;
              confidence := 0.95;
              extractedFrom := provenance toISOString session |} in
  breakthroughOf toISOString session sentence = [p] /\
  In p (extractBreakthroughMoments toISOString session (combinedContent msgs)) /\
  (forall other, (length (breakthroughOf toISOString session other) <= 1)%nat) /\
  exists out, extract now session = Ok out /\ In p out.
Proof.
  intros Hm Hc Hs Hv Hinc p.
  assert (Hlow : includes (toLowerCase sentence) (str "exactly :p") = true).
  { rewrite <- Hv. now apply includes_toLowerCase. }
  assert (Hp : breakthroughOf toISOString session sentence = [p]).
  { unfold breakthroughOf.
    rewrite (marker_wins _ Hlow). rewrite eqb_refl. reflexivity. }
  assert (Hin : In p (extractBreakthroughMoments toISOString session
                        (combinedContent msgs))).
  { unfold extractBreakthroughMoments. apply in_flat_map.
    exists sentence. split; [exact Hs|].
    rewrite Hp. now left. }
  split; [exact Hp|]. split; [exact Hin|].
  split; [intros other; apply breakthroughOf_at_most_one|].
  eexists. split; [apply (extract_present now session Hm Hc)|].
  apply filter_In. split; [|reflexivity].
  apply in_or_app. right. apply in_or_app. now left.
Qed.

(** C10: no sentence includes an indicator written with an exclamation
    mark ("aha!", "perfect!", "that's it!", "brilliant!"), because the
    content is cut at every '.', '!' and '?'; the indicator that fires
    for a sentence is always one of the six others, and every
    breakthrough pattern comes from such a firing. *)
Theorem C10_exclamation_never_fires session content :
  (forall sentence,
     In sentence (splitSentences content) ->
     (forall indicator,
        In indicator (map str ["aha!"; "perfect!"; "that's it!";
                               "brilliant!"]%string) ->
        includes (toLowerCase sentence) indicator = false) /\
     (forall indicator,
        firstIndicator (toLowerCase sentence) = Some indicator ->
        In indicator (map str ["exactly :p"; "breakthrough"; "genius";
                               "beautiful"; "wonderful"; "amazing"]%string))) /\
  (forall p,
     In p (extractBreakthroughMoments toISOString session content) ->
     exists sentence indicator,
       In sentence (sentences 10 content) /\
       firstIndicator (toLowerCase sentence) = Some indicator /\
       In indicator (map str ["exactly :p"; "breakthrough"; "genius";
                              "beautiful"; "wonderful"; "amazing"]%string) /\
       breakthroughOf toISOString session sentence = [p]).
Proof.
  assert (Hnever : forall sentence,
     In sentence (splitSentences content) ->
     forall indicator,
       In indicator (map str ["aha!"; "perfect!"; "that's it!";
                              "brilliant!"]%string) ->
       includes (toLowerCase sentence) indicator = false).
  { intros sentence Hs indicator Hi.
    destruct (includes (toLowerCase sentence) indicator) eqn:Hinc;
      [|reflexivity].
    assert (Hbang : In "!"%char indicator).
    { simpl in Hi. unfold str in Hi.
      destruct Hi as [<-|[<-|[<-|[<-|[]]]]]; simpl; tauto. }
    pose proof (includes_units _ _ _ Hinc Hbang) as Hc.
    pose proof (sentence_clean _ _ _ Hs Hc) as Hclean.
    discriminate Hclean. }
  assert (Hsix : forall sentence,
     In sentence (splitSentences content) ->
     forall indicator,
       firstIndicator (toLowerCase sentence) = Some indicator ->
       In indicator (map str ["exactly :p"; "breakthrough"; "genius";
                              "beautiful"; "wonderful"; "amazing"]%string)).
  { intros sentence Hs indicator Hf.
    unfold firstIndicator in Hf. apply find_some in Hf as [Hin Hinc].
    unfold breakthroughIndicators in Hin. cbn [map In] in Hin |- *.
    destruct Hin as [H|[H|[H|[H|[H|[H|[H|[H|[H|[H|[]]]]]]]]]]];
      try (subst indicator; tauto);
      (rewrite (Hnever sentence Hs indicator) in Hinc;
       [discriminate | subst indicator; cbn [map In]; tauto]). }
  split.
  - intros sentence Hs. split; [now apply Hnever | now apply Hsix].
  - intros p Hp.
    apply breakthrough_origin in Hp as (sentence & indicator & Hs & Hf & Hb & _).
    exists sentence, indicator. repeat split; try assumption.
    apply (Hsix sentence); [|exact Hf].
    now apply sentences_split in Hs.
Qed.

End ExtractorFacts.

(** ** Trimming and keyword search *)

Lemma includes_ext (s k : jsstring) (b : bool) :
  (includes s k = true <-> b = true) -> includes s k = b.
Proof.
  destruct (includes s k), b; intros [H1 H2]; auto.
  symmetry. now apply H1.
Qed.

Lemma includes_rev (s k : jsstring) : includes (rev s) (rev k) = includes s k.
Proof.
  apply includes_ext. rewrite !includes_spec. split.
  - intros (a & b & H). exists (rev b), (rev a).
    apply (f_equal (@rev ascii)) in H.
    rewrite rev_involutive, !rev_app_distr, rev_involutive in H.
    now rewrite H, app_assoc.
  - intros (a & b & ->). exists (rev b), (rev a).
    now rewrite !rev_app_distr, app_assoc.
Qed.

Lemma includes_trimStart (s k' : jsstring) (c : ascii) :
  isWhiteSpace c = false ->
  includes (trimStart s) (c :: k') = includes s (c :: k').
Proof.
  intros Hc. induction s as [|w s IH]; [reflexivity|].
  cbn [trimStart]. destruct (isWhiteSpace w) eqn:Hw; [|reflexivity].
  rewrite IH. cbn [includes startsWith].
  destruct (Ascii.eqb c w) eqn:Hcw; [|reflexivity].
  apply Ascii.eqb_eq in Hcw. congruence.
Qed.

Lemma includes_trim (s k : jsstring) :
  solid k = true -> includes (trim s) k = includes s k.
Proof.
  unfold solid, trim, trimEnd. intros Hk.
  destruct k as [|c k']; [discriminate|].
  destruct (rev (c :: k')) as [|d r] eqn:Hr; [discriminate|].
  apply andb_true_iff in Hk as [Hc Hd].
  apply negb_true_iff in Hc, Hd.
  rewrite <- includes_rev, rev_involutive, Hr.
  rewrite (includes_trimStart _ _ _ Hd).
  rewrite <- Hr, includes_rev.
  now apply includes_trimStart.
Qed.

Lemma toLowerUnit_space (c : ascii) :
  isWhiteSpace (toLowerUnit c) = isWhiteSpace c.
Proof.
  destruct c as [[] [] [] [] [] [] [] []]; vm_compute; reflexivity.
Qed.

Lemma toLowerCase_trimStart (s : jsstring) :
  toLowerCase (trimStart s) = trimStart (toLowerCase s).
Proof.
  induction s as [|c s IH]; [reflexivity|].
  cbn [trimStart toLowerCase map]. rewrite toLowerUnit_space.
  destruct (isWhiteSpace c); [exact IH | reflexivity].
Qed.

Lemma toLowerCase_trim (s : jsstring) :
  toLowerCase (trim s) = trim (toLowerCase s).
Proof.
  unfold trim, trimEnd.
  rewrite <- toLowerCase_trimStart.
  unfold toLowerCase at 1. rewrite map_rev.
  fold (toLowerCase (trimStart (rev (trimStart s)))).
  rewrite toLowerCase_trimStart. unfold toLowerCase at 1.
  now rewrite map_rev.
Qed.

Lemma countMatches_trim (keywords : list jsstring) (s : jsstring) :
  forallb solid keywords = true ->
  PatternExtractor.countMatches keywords (toLowerCase (trim s))
  = PatternExtractor.countMatches keywords (toLowerCase s).
Proof.
  intros Hk. unfold PatternExtractor.countMatches. f_equal.
  rewrite forallb_forall in Hk.
  induction keywords as [|k ks IH]; [reflexivity|].
  cbn [filter]. rewrite toLowerCase_trim, includes_trim by (apply Hk; now left).
  rewrite <- toLowerCase_trim. rewrite IH by (intros x Hx; apply Hk; now right).
  reflexivity.
Qed.

(** ** The confidence gate on technical insights *)

Section ExtractorGate.

Import PatternExtractor.

Variable toISOString : Z -> jsstring.
Variable toolArrow : jsstring.

Let extract := extractPatternsFromSession toISOString toolArrow.

(** The confidence the technical rule assigns to [k] matches. *)
Lemma technical_confidence_low (k : nat) :
  (k < 4)%nat ->
  Qmin (ratio k (length technicalKeywords) * 2) 0.9 <= 0.5.
Proof.
  intros Hk.
  destruct k as [|[|[|[|k]]]]; try lia; vm_compute; discriminate.
Qed.

Lemma gate_needs_four session sentence p :
  technicalInsightOf toISOString session sentence = [p] ->
  highConfidence p = true ->
  (4 <= countMatches technicalKeywords (toLowerCase sentence))%nat.
Proof.
  unfold technicalInsightOf. intros Hp Hgate.
  destruct (2 <=? countMatches technicalKeywords (toLowerCase sentence))%nat;
    [|discriminate].
  apply (f_equal (fun l => match l with
                           | [x] => confidence x
                           | _ => 0
                           end)) in Hp.
  cbn [confidence] in Hp.
  unfold highConfidence in Hgate. rewrite <- Hp in Hgate.
  destruct (Qlt_le_dec 0.5 _) as [Hlt|]; [|discriminate].
  destruct (Nat.lt_ge_cases
              (countMatches technicalKeywords (toLowerCase sentence)) 4)
    as [Hk|Hk]; [|exact Hk].
  apply technical_confidence_low in Hk.
  exfalso. exact (Qlt_not_le _ _ Hlt Hk).
Qed.

Lemma technical_in_result now session msgs calls p :
  messages session = Some msgs -> toolCalls session = Some calls ->
  forall out, extract now session = Ok out ->
  In p out -> type p = technical_insight ->
  highConfidence p = true /\
  In p (extractTechnicalInsights toISOString session (combinedContent msgs)).
Proof.
  intros Hm Hc out Hout Hp Ht. unfold extract in Hout.
  rewrite (extract_present toISOString toolArrow now session Hm Hc) in Hout.
  injection Hout as <-. apply filter_In in Hp as [Hp Hgate].
  split; [exact Hgate|].
  apply in_app_or in Hp as [Hp|Hp]; [exact Hp|].
  apply in_app_or in Hp as [Hp|Hp].
  { apply breakthrough_origin in Hp as (? & ? & _ & _ & _ & Ht').
    congruence. }
  apply in_app_or in Hp as [Hp|Hp].
  { apply collaboration_type in Hp. congruence. }
  apply solution_type in Hp. congruence.
Qed.

Lemma technicalKeywords_solid : forallb solid technicalKeywords = true.
Proof. reflexivity. Qed.

(** C4 (as the code has it): for a sentence of the content (more than 20
    units after trimming), one matching technical keyword yields no
    technical_insight pattern; two matching keywords make
    [extractTechnicalInsights] emit one with confidence
    min(2/14 x 2, 0.9) = 2/7, which the gate of
    [extractPatternsFromSession] (confidence > 0.5) drops.  A
    technical_insight pattern is in the result only for a sentence with
    at least four matching keywords. *)
Theorem C4_technical_gate now session msgs calls :
  messages session = Some msgs -> toolCalls session = Some calls ->
  let text := combinedContent msgs in
  exists out,
    extract now session = Ok out /\
    (forall sentence,
       In sentence (sentences 20 text) ->
       let k := countMatches technicalKeywords (toLowerCase sentence) in
       (k = 1%nat ->
          technicalInsightOf toISOString session sentence = [] /\
          ~ exists p, In p out /\ type p = technical_insight /\
                      content p = trim sentence) /\
       (k = 2%nat ->
          exists p,
            technicalInsightOf toISOString session sentence = [p] /\
            In p (extractTechnicalInsights toISOString session text) /\
            type p = technical_insight /\
            content p = trim sentence /\
            confidence p = Qmin (ratio 2 14 * 2) 0.9 /\
            confidence p == 2 # 7 /\
            highConfidence p = false /\
            ~ exists p', In p' out /\ type p' = technical_insight /\
                         content p' = trim sentence)) /\
    (forall p,
       In p out -> type p = technical_insight ->
       (4 <= countMatches technicalKeywords (toLowerCase (content p)))%nat).
Proof.
  intros Hm Hc text.
  pose proof (extract_present toISOString toolArrow now session Hm Hc)
    as Hout.
  cbv zeta in Hout. fold extract in Hout.
  eexists. split; [exact Hout|].
  set (out := filter highConfidence _) in *.
  assert (Hfour : forall p,
     In p out -> type p = technical_insight ->
     (4 <= countMatches technicalKeywords (toLowerCase (content p)))%nat).
  { intros p Hp Ht.
    destruct (technical_in_result now session p Hm Hc Hout Hp Ht)
      as [Hgate Hin].
    apply technical_origin in Hin
      as (sentence & _ & Hrule & _ & _ & Hcontent & _).
    rewrite Hcontent, countMatches_trim by apply technicalKeywords_solid.
    eapply gate_needs_four; eassumption. }
  assert (Hnone : forall sentence,
     (countMatches technicalKeywords (toLowerCase sentence) < 4)%nat ->
     ~ exists p, In p out /\ type p = technical_insight /\
                 content p = trim sentence).
  { intros sentence Hk (p & Hp & Ht & Hcontent).
    specialize (Hfour p Hp Ht).
    rewrite Hcontent, countMatches_trim in Hfour
      by apply technicalKeywords_solid.
    lia. }
  split; [|exact Hfour].
  intros sentence Hs k. split.
  - intros Hk. split; [|apply Hnone; fold k; lia].
    unfold technicalInsightOf. fold k. now rewrite Hk.
  - intros Hk.
    eexists. split.
    { unfold technicalInsightOf. fold k. rewrite Hk. reflexivity. }
    split.
    { unfold extractTechnicalInsights. apply in_flat_map.
      exists sentence. split; [exact Hs|].
      unfold technicalInsightOf. fold k. rewrite Hk. now left. }
    repeat (split; [reflexivity|]).
    apply Hnone. fold k. lia.
Qed.

End ExtractorGate.

(** ** Objects *)

Lemma existsb_eqb_In (k : jsstring) (ks : list jsstring) :
  existsb (eqb k) ks = true <-> In k ks.
Proof.
  rewrite existsb_exists. split.
  - intros (x & Hx & Hk). apply eqb_eq in Hk. now subst.
  - intros Hk. exists k. split; [exact Hk | apply eqb_refl].
Qed.

Lemma nodupKeys_spec (ks : list jsstring) : nodupKeys ks = true <-> NoDup ks.
Proof.
  induction ks as [|k ks IH]; simpl.
  - split; [constructor | reflexivity].
  - rewrite andb_true_iff, negb_true_iff, IH. split.
    + intros [Hk Hks]. constructor; [|exact Hks].
      intros Hin. apply existsb_eqb_In in Hin. congruence.
    + intros H. inversion H as [|? ? Hk Hks]; subst. split; [|exact Hks].
      destruct (existsb (eqb k) ks) eqn:E; [|reflexivity].
      apply existsb_eqb_In in E. contradiction.
Qed.

Lemma get_None (k : jsstring) (o : jobject) :
  get k o = None <-> ~ In k (map fst o).
Proof.
  induction o as [|[k' v] o IH]; simpl.
  - tauto.
  - destruct (eqb k k') eqn:E.
    + apply eqb_eq in E. subst. split; [discriminate | tauto].
    + apply eqb_neq in E. rewrite IH. split; [intros H [Hk|Hk]; auto | tauto].
Qed.

Lemma get_set_eq (k : jsstring) (v : json) (o : jobject) :
  get k (set k v o) = Some v.
Proof.
  induction o as [|[k' v'] o IH]; simpl.
  - now rewrite eqb_refl.
  - destruct (eqb k k') eqn:E; simpl.
    + now rewrite eqb_refl.
    + now rewrite E.
Qed.

Lemma get_set_ne (k k' : jsstring) (v : json) (o : jobject) :
  k <> k' -> get k (set k' v o) = get k o.
Proof.
  intros Hne. induction o as [|[k1 v1] o IH]; simpl.
  - apply eqb_neq in Hne. now rewrite Hne.
  - destruct (eqb k' k1) eqn:E; simpl.
    + apply eqb_eq in E. subst k1. apply eqb_neq in Hne. now rewrite Hne.
    + now rewrite IH.
Qed.

Lemma get_set (k k' : jsstring) (v : json) (o : jobject) :
  get k (set k' v o) = if eqb k k' then Some v else get k o.
Proof.
  destruct (eqb k k') eqn:E.
  - apply eqb_eq in E. subst. apply get_set_eq.
  - apply eqb_neq in E. now apply get_set_ne.
Qed.

Lemma set_keys (k : jsstring) (v : json) (o : jobject) :
  map fst (set k v o)
  = if existsb (eqb k) (map fst o) then map fst o else map fst o ++ [k].
Proof.
  induction o as [|[k' v'] o IH]; simpl.
  - reflexivity.
  - destruct (eqb k k') eqn:E; simpl.
    + apply eqb_eq in E. now subst.
    + rewrite IH. now destruct (existsb (eqb k) (map fst o)).
Qed.

Lemma set_fresh (k : jsstring) (v : json) (o : jobject) :
  ~ In k (map fst o) -> set k v o = o ++ [(k, v)].
Proof.
  induction o as [|[k' v'] o IH]; simpl; intros Hk.
  - reflexivity.
  - destruct (eqb k k') eqn:E.
    + apply eqb_eq in E. subst. tauto.
    + rewrite IH by tauto. reflexivity.
Qed.

Lemma set_nodup (k : jsstring) (v : json) (o : jobject) :
  NoDup (map fst o) -> NoDup (map fst (set k v o)).
Proof.
  intros Hnd. rewrite set_keys.
  destruct (existsb (eqb k) (map fst o)) eqn:E; [exact Hnd|].
  apply NoDup_rev in Hnd. rewrite <- (rev_involutive (map fst o ++ [k])).
  apply NoDup_rev. rewrite rev_app_distr. simpl. constructor; [|exact Hnd].
  rewrite <- in_rev. intros Hin. apply existsb_eqb_In in Hin. congruence.
Qed.

Lemma set_values (P : json -> Prop) (k : jsstring) (v : json) (o : jobject) :
  P v -> Forall (fun kv => P (snd kv)) o ->
  Forall (fun kv => P (snd kv)) (set k v o).
Proof.
  intros Hv. induction 1 as [|[k' v'] o Hkv Ho IH]; simpl.
  - repeat constructor. exact Hv.
  - destruct (eqb k k'); constructor; auto.
Qed.

Lemma wellFormed_obj (o : jobject) :
  wellFormed (JObj o) = true <->
  NoDup (map fst o) /\ Forall (fun kv => wellFormed (snd kv) = true) o.
Proof.
  cbn [wellFormed]. rewrite andb_true_iff, nodupKeys_spec, forallb_forall,
    Forall_forall. reflexivity.
Qed.

Lemma set_wellFormed (k : jsstring) (v : json) (o : jobject) :
  wellFormed v = true -> wellFormed (JObj o) = true ->
  wellFormed (JObj (set k v o)) = true.
Proof.
  rewrite !wellFormed_obj. intros Hv [Hnd Hall]. split.
  - now apply set_nodup.
  - now apply (set_values (fun x => wellFormed x = true)).
Qed.

Lemma spread_cons (base : jobject) (k : jsstring) (v : json) (src : jobject) :
  spread base ((k, v) :: src) = spread (set k v base) src.
Proof. reflexivity. Qed.

Lemma spread_wellFormed (base src : jobject) :
  wellFormed (JObj base) = true ->
  Forall (fun kv => wellFormed (snd kv) = true) src ->
  wellFormed (JObj (spread base src)) = true.
Proof.
  intros Hb Hs. revert base Hb.
  induction Hs as [|[k v] src Hkv Hs IH]; intros base Hb.
  - exact Hb.
  - rewrite spread_cons. apply IH. now apply set_wellFormed.
Qed.

(** A spread reads as its source where the source has the property, and as
    its base elsewhere. *)
Lemma get_spread (k : jsstring) (base src : jobject) :
  NoDup (map fst src) ->
  get k (spread base src)
  = match get k src with Some v => Some v | None => get k base end.
Proof.
  revert base. induction src as [|[k1 v1] src IH]; intros base Hnd.
  - reflexivity.
  - rewrite spread_cons. inversion Hnd as [|? ? Hk1 Hnd']; subst.
    rewrite IH by exact Hnd'. cbn [get].
    destruct (eqb k k1) eqn:E.
    + apply eqb_eq in E. subst k1.
      replace (get k src) with (@None json) by (symmetry; now apply get_None).
      apply get_set_eq.
    + destruct (get k src); [reflexivity|].
      apply get_set_ne. now apply eqb_neq.
Qed.

Lemma spread_disjoint (base src : jobject) :
  NoDup (map fst src) ->
  (forall k, In k (map fst src) -> ~ In k (map fst base)) ->
  spread base src = base ++ src.
Proof.
  revert base. induction src as [|[k v] src IH]; intros base Hnd Hdis.
  - now rewrite app_nil_r.
  - rewrite spread_cons. inversion Hnd as [|? ? Hk Hnd']; subst.
    rewrite set_fresh by (apply Hdis; now left).
    rewrite IH.
    + now rewrite <- app_assoc.
    + exact Hnd'.
    + intros k' Hk'. rewrite map_app, in_app_iff. simpl.
      intros [Hb|[<-|[]]]; [|contradiction].
      apply (Hdis k'); [now right | exact Hb].
Qed.

Lemma spread_nil (o : jobject) : NoDup (map fst o) -> spread [] o = o.
Proof.
  intros Hnd. now rewrite spread_disjoint.
Qed.

(** ** Lines of a bank file *)

Lemma splitOn_clean (sep : ascii) (x : jsstring) :
  ~ In sep x -> splitOn sep x = [x].
Proof.
  induction x as [|c x IH]; simpl; intros Hx.
  - reflexivity.
  - destruct (Ascii.eqb c sep) eqn:E.
    + apply Ascii.eqb_eq in E. tauto.
    + rewrite IH by tauto. reflexivity.
Qed.

Lemma splitOn_app (sep : ascii) (x r : jsstring) :
  ~ In sep x -> splitOn sep (x ++ sep :: r) = x :: splitOn sep r.
Proof.
  induction x as [|c x IH]; simpl; intros Hx.
  - now rewrite Ascii.eqb_refl.
  - destruct (Ascii.eqb c sep) eqn:E.
    + apply Ascii.eqb_eq in E. tauto.
    + rewrite IH by tauto. reflexivity.
Qed.

Lemma splitOn_join (sep : ascii) (lines : list jsstring) :
  lines <> [] -> Forall (fun l => ~ In sep l) lines ->
  splitOn sep (join [sep] lines) = lines.
Proof.
  intros Hne Hall. induction Hall as [|x rest Hx Hrest IH]; [congruence|].
  destruct rest as [|y rest].
  - simpl. now apply splitOn_clean.
  - change (join [sep] (x :: y :: rest)) with (x ++ sep :: join [sep] (y :: rest)).
    rewrite splitOn_app by exact Hx. rewrite IH by discriminate. reflexivity.
Qed.

Section StoreFacts.

Import BankManager.

Variable JSON : JsonCodec.

Lemma bankLines_join (lines : list jsstring) :
  Forall (fun l => ~ In LF l /\ trim l <> []) lines ->
  bankLines (join [LF] lines) = lines.
Proof.
  intros Hall. unfold bankLines.
  destruct lines as [|x rest]; [reflexivity|].
  rewrite splitOn_join.
  - apply forallb_filter_id. apply forallb_forall. intros l Hl.
    rewrite Forall_forall in Hall. destruct (Hall l Hl) as [_ Ht].
    apply negb_true_iff. now apply eqb_neq.
  - discriminate.
  - eapply Forall_impl; [|exact Hall]. now intros l [H _].
Qed.

(** Reading lines one after the other adds up what each line
    contributes: a line that cannot be read contributes a warning and
    nothing else. *)
Lemma fold_loadLine (lines : list jsstring) (acc : Loaded) :
  fold_left (loadLine JSON) lines acc =
  {| loadedGraph :=
       {| entities := entities (loadedGraph acc) ++
                      flat_map (lineEntities JSON) lines;
          relations := relations (loadedGraph acc) ++
                       flat_map (lineRelations JSON) lines |};
     warned := warned acc ++ filter (lineWarns JSON) lines |}.
Proof.
  revert acc. induction lines as [|line lines IH]; intros [[es rs] w].
  - simpl. now rewrite !app_nil_r.
  - cbn [fold_left]. rewrite IH. clear IH.
    unfold loadLine, lineEntities, lineRelations, lineWarns.
    cbn [flat_map filter loadedGraph warned entities relations].
    destruct (JSON_parse JSON line) as [[| | | | |item]|];
      cbn [loadedGraph warned entities relations app];
      rewrite <- ?app_assoc; try reflexivity.
    destruct (strictEquals (get (str "type") item) (Some (JStr (str "entity")))),
      (strictEquals (get (str "type") item) (Some (JStr (str "relation"))));
      cbn [loadedGraph warned entities relations app];
      rewrite <- ?app_assoc; reflexivity.
Qed.

Lemma loadBankGraph_file fs bank data :
  fs (filePath bank) = Some (File data) ->
  loadBankGraph JSON fs bank =
  Ok {| loadedGraph :=
          {| entities := flat_map (lineEntities JSON) (bankLines data);
             relations := flat_map (lineRelations JSON) (bankLines data) |};
        warned := filter (lineWarns JSON) (bankLines data) |}.
Proof.
  intros Hfs. unfold loadBankGraph, readFile. rewrite Hfs.
  cbv zeta. now rewrite fold_loadLine.
Qed.

Lemma loadBankGraph_absent fs bank :
  fs (filePath bank) = None ->
  loadBankGraph JSON fs bank =
  Ok {| loadedGraph := emptyGraph; warned := [] |}.
Proof.
  intros Hfs. unfold loadBankGraph, readFile. now rewrite Hfs.
Qed.

(** C6: [loadBankGraph] on every state of the bank file.  A missing file
    gives the empty graph; a file that can be read always gives a graph:
    its lines are the pieces between the line feeds that are not blank,
    the lines [JSON.parse] rejects (and the line [null]) are warned about
    and skipped, every other line contributes as if it stood alone: the
    entity or the relation it holds is loaded, whatever stands beside it;
    only a rejected read whose code is not ENOENT is thrown on to the
    caller, and nothing else is ever thrown. *)
Theorem C6_load_is_total fs bank :
  (fs (filePath bank) = None ->
     loadBankGraph JSON fs bank =
     Ok {| loadedGraph := {| entities := []; relations := [] |};
           warned := [] |}) /\
  (forall data,
     fs (filePath bank) = Some (File data) ->
     loadBankGraph JSON fs bank =
     Ok {| loadedGraph :=
             {| entities := flat_map (lineEntities JSON) (bankLines data);
                relations := flat_map (lineRelations JSON) (bankLines data) |};
           warned := filter (lineWarns JSON) (bankLines data) |} /\
     (forall lines,
        Forall (fun l => ~ In LF l) lines ->
        data = join [LF] lines ->
        bankLines data
        = filter (fun line => negb (eqb (trim line) [])) lines) /\
     (forall line, In line (bankLines data) ->
                   JSON_parse JSON line = None ->
                   lineEntities JSON line = [] /\
                   lineRelations JSON line = [] /\
                   lineWarns JSON line = true) /\
     (forall line item,
        In line (bankLines data) ->
        JSON_parse JSON line = Some (JObj item) ->
        (get (str "type") item = Some (JStr (str "entity")) ->
         In item (flat_map (lineEntities JSON) (bankLines data))) /\
        (get (str "type") item = Some (JStr (str "relation")) ->
         In item (flat_map (lineRelations JSON) (bankLines data))))) /\
  (forall c,
     fs (filePath bank) = Some (Rejects c) ->
     loadBankGraph JSON fs bank =
     if eqb c (str "ENOENT")
     then Ok {| loadedGraph := {| entities := []; relations := [] |};
                warned := [] |}
     else Throw (SystemError c)) /\
  (forall e,
     loadBankGraph JSON fs bank = Throw e ->
     exists c, fs (filePath bank) = Some (Rejects c) /\
               c <> str "ENOENT" /\ e = SystemError c).
Proof.
  split; [|split; [|split]].
  - apply loadBankGraph_absent.
  - intros data Hfs. split; [now apply loadBankGraph_file|]. split; [|split].
    + intros lines Hlines ->. unfold bankLines.
      destruct lines as [|l lines]; [reflexivity|].
      rewrite splitOn_join; [reflexivity | discriminate | exact Hlines].
    + intros line _ Hparse. unfold lineEntities, lineRelations, lineWarns.
      now rewrite Hparse.
    + intros line item Hline Hparse. split; intros Htype;
        apply in_flat_map; exists line; (split; [exact Hline|]).
      * unfold lineEntities. rewrite Hparse, Htype. now left.
      * unfold lineRelations. rewrite Hparse, Htype. now left.
  - intros c Hfs. unfold loadBankGraph, readFile. rewrite Hfs. reflexivity.
  - intros e. unfold loadBankGraph, readFile.
    destruct (fs (filePath bank)) as [[data|c]|]; try discriminate.
    destruct (eqb c (str "ENOENT")) eqn:E; [discriminate|].
    intros H. injection H as <-. exists c.
    split; [reflexivity|]. split; [now apply eqb_neq | reflexivity].
Qed.

End StoreFacts.

(** ** Saving and loading back *)

Lemma strictEquals_str (x : option json) (s : jsstring) :
  strictEquals x (Some (JStr s)) = true <-> x = Some (JStr s).
Proof.
  destruct x as [[| | |s'| |]|]; simpl; try (split; discriminate).
  rewrite eqb_eq. split; [now intros -> | intros H; now inversion H].
Qed.

Section StoreRoundTrip.

Import BankManager.

Variable JSON : JsonCodec.
Hypothesis laws : JsonLaws JSON.

Lemma isRecord_spec t r :
  isRecord t r = true <->
  wellFormed (JObj r) = true /\
  (get (str "type") r = None \/ get (str "type") r = Some (JStr (str t))).
Proof.
  unfold isRecord, typeAgrees. rewrite andb_true_iff.
  destruct (get (str "type") r) as [v|].
  - rewrite strictEquals_str. intuition congruence.
  - intuition.
Qed.

(** What tagging does to a record: its own properties win; [type] and
    [memoryBank] are supplied where it has none. *)
Lemma tagged_get t bank r k :
  NoDup (map fst r) ->
  get k (tagged t bank r) =
  match get k r with
  | Some v => Some v
  | None =>
      if eqb k (str "type") then Some (JStr (str t))
      else if eqb k (str "memoryBank") then Some (JStr (name bank))
      else None
  end.
Proof.
  intros Hnd. unfold tagged. rewrite get_spread by exact Hnd. reflexivity.
Qed.

Lemma tagged_wellFormed t bank r :
  wellFormed (JObj r) = true -> wellFormed (JObj (tagged t bank r)) = true.
Proof.
  intros Hr. apply wellFormed_obj in Hr as [_ Hvals].
  unfold tagged. apply spread_wellFormed; [reflexivity | exact Hvals].
Qed.

Lemma tagged_type t bank r :
  isRecord t r = true ->
  get (str "type") (tagged t bank r) = Some (JStr (str t)).
Proof.
  intros Hr. apply isRecord_spec in Hr as [Hwf Ht].
  apply wellFormed_obj in Hwf as [Hnd _].
  rewrite tagged_get by exact Hnd.
  destruct Ht as [-> | ->]; reflexivity.
Qed.

Lemma tagged_isRecord t bank r :
  isRecord t r = true -> isRecord t (tagged t bank r) = true.
Proof.
  intros Hr. apply isRecord_spec. split.
  - apply tagged_wellFormed. now apply isRecord_spec in Hr.
  - right. now apply tagged_type.
Qed.

Lemma tagged_name t bank r :
  NoDup (map fst r) ->
  get (str "name") (tagged t bank r) = get (str "name") r.
Proof.
  intros Hnd. rewrite tagged_get by exact Hnd.
  now destruct (get (str "name") r).
Qed.

(** The line of a saved entity reads back as that entity, the line of a
    saved relation as that relation. *)
Lemma entity_line bank e :
  isRecord "entity" e = true ->
  let line := JSON_stringify JSON (JObj (tagged "entity" bank e)) in
  lineEntities JSON line = [tagged "entity" bank e] /\
  lineRelations JSON line = [] /\ lineWarns JSON line = false.
Proof.
  intros He line. unfold lineEntities, lineRelations, lineWarns, line.
  rewrite (parse_stringify laws)
    by (apply tagged_wellFormed; now apply isRecord_spec in He).
  rewrite tagged_type by exact He. repeat split.
Qed.

Lemma relation_line bank r :
  isRecord "relation" r = true ->
  let line := JSON_stringify JSON (JObj (tagged "relation" bank r)) in
  lineEntities JSON line = [] /\
  lineRelations JSON line = [tagged "relation" bank r] /\
  lineWarns JSON line = false.
Proof.
  intros Hr line. unfold lineEntities, lineRelations, lineWarns, line.
  rewrite (parse_stringify laws)
    by (apply tagged_wellFormed; now apply isRecord_spec in Hr).
  rewrite tagged_type by exact Hr. repeat split.
Qed.

Lemma savedLines_read bank g :
  Forall (fun e => isRecord "entity" e = true) (entities g) ->
  Forall (fun r => isRecord "relation" r = true) (relations g) ->
  flat_map (lineEntities JSON) (savedLines JSON bank g)
    = map (tagged "entity" bank) (entities g) /\
  flat_map (lineRelations JSON) (savedLines JSON bank g)
    = map (tagged "relation" bank) (relations g) /\
  filter (lineWarns JSON) (savedLines JSON bank g) = [].
Proof.
  intros Hes Hrs. unfold savedLines.
  rewrite !flat_map_app, filter_app.
  assert (He : forall l,
    Forall (fun e => isRecord "entity" e = true) l ->
    let lines := map (fun e => JSON_stringify JSON (JObj (tagged "entity" bank e))) l in
    flat_map (lineEntities JSON) lines = map (tagged "entity" bank) l /\
    flat_map (lineRelations JSON) lines = [] /\
    filter (lineWarns JSON) lines = []).
  { induction 1 as [|e l He Hl IH]; [now repeat split|].
    destruct IH as (IH1 & IH2 & IH3).
    destruct (@entity_line bank e He) as (H1 & H2 & H3).
    cbn [map flat_map filter]. rewrite H1, H2, H3, IH1, IH2, IH3.
    now repeat split. }
  assert (Hr : forall l,
    Forall (fun r => isRecord "relation" r = true) l ->
    let lines := map (fun r => JSON_stringify JSON (JObj (tagged "relation" bank r))) l in
    flat_map (lineEntities JSON) lines = [] /\
    flat_map (lineRelations JSON) lines = map (tagged "relation" bank) l /\
    filter (lineWarns JSON) lines = []).
  { induction 1 as [|r l Hr Hl IH]; [now repeat split|].
    destruct IH as (IH1 & IH2 & IH3).
    destruct (@relation_line bank r Hr) as (H1 & H2 & H3).
    cbn [map flat_map filter]. rewrite H1, H2, H3, IH1, IH2, IH3.
    now repeat split. }
  destruct (He _ Hes) as (E1 & E2 & E3).
  destruct (Hr _ Hrs) as (R1 & R2 & R3).
  rewrite E1, E2, E3, R1, R2, R3. now rewrite app_nil_r.
Qed.

Lemma savedLines_lines bank g :
  Forall (fun l => ~ In LF l /\ trim l <> []) (savedLines JSON bank g).
Proof.
  unfold savedLines. apply Forall_app. split; apply Forall_map, Forall_forall;
    intros x _; apply (stringify_line laws).
Qed.

(** A graph of records, saved, loads back as the tagged records, in
    order and without a warning. *)
Lemma save_then_load fs bank g :
  writable fs bank = true ->
  Forall (fun e => isRecord "entity" e = true) (entities g) ->
  Forall (fun r => isRecord "relation" r = true) (relations g) ->
  exists fs',
    saveBankGraph JSON fs bank g = Ok fs' /\
    (forall p, p <> filePath bank -> fs' p = fs p) /\
    writable fs' bank = true /\
    loadBankGraph JSON fs' bank =
    Ok {| loadedGraph :=
            {| entities := map (tagged "entity" bank) (entities g);
               relations := map (tagged "relation" bank) (relations g) |};
          warned := [] |}.
Proof.
  intros Hw Hes Hrs.
  set (data := join [LF] (savedLines JSON bank g)).
  exists (fun p => if eqb p (filePath bank) then Some (File data) else fs p).
  split.
  { unfold saveBankGraph, mkdir, writeFile. cbn [bind].
    unfold writable in Hw.
    destruct (fs (filePath bank)) as [[d|c]|]; [reflexivity|discriminate|reflexivity]. }
  split.
  { intros p Hp. apply eqb_neq in Hp. now rewrite Hp. }
  split.
  { unfold writable. now rewrite eqb_refl. }
  rewrite (@loadBankGraph_file JSON _ bank data)
    by now rewrite eqb_refl.
  unfold data. rewrite bankLines_join by apply savedLines_lines.
  destruct (@savedLines_read bank g Hes Hrs) as (-> & -> & ->). reflexivity.
Qed.

(** Whatever a bank file holds, what is loaded from it are records. *)
Lemma loaded_records fs bank loaded :
  loadBankGraph JSON fs bank = Ok loaded ->
  Forall (fun e => isRecord "entity" e = true) (entities (loadedGraph loaded)) /\
  Forall (fun r => isRecord "relation" r = true) (relations (loadedGraph loaded)).
Proof.
  assert (Hline : forall t (pick : jsstring -> list jobject),
    (forall line, pick line =
       match JSON_parse JSON line with
       | Some (JObj item) =>
           if strictEquals (get (str "type") item) (Some (JStr (str t)))
           then [item] else []
       | _ => []
       end) ->
    forall lines, Forall (fun r => isRecord t r = true) (flat_map pick lines)).
  { intros t pick Hpick lines. apply Forall_forall. intros r Hr.
    apply in_flat_map in Hr as (line & _ & Hr). rewrite Hpick in Hr.
    destruct (JSON_parse JSON line) as [[| | | | |item]|] eqn:Hp;
      try contradiction.
    destruct (strictEquals _ _) eqn:Ht; [|contradiction].
    destruct Hr as [<-|[]].
    apply isRecord_spec. split.
    - exact (@parse_wellFormed JSON laws _ _ Hp).
    - right. now apply strictEquals_str. }
  unfold loadBankGraph, readFile.
  destruct (fs (filePath bank)) as [[data|c]|].
  - cbv zeta. rewrite fold_loadLine. intros H. injection H as <-.
    cbn [loadedGraph entities relations emptyGraph app]. split.
    + now apply (Hline "entity"%string).
    + now apply (Hline "relation"%string).
  - destruct (eqb c (str "ENOENT")); [|discriminate].
    intros H. injection H as <-. split; constructor.
  - intros H. injection H as <-. split; constructor.
Qed.

End StoreRoundTrip.

(** ** Creating entities *)

Section StoreClaims.

Import BankManager.

Variable JSON : JsonCodec.
Hypothesis laws : JsonLaws JSON.

Lemma record_nodup t r : isRecord t r = true -> NoDup (map fst r).
Proof.
  intros Hr. apply isRecord_spec in Hr as [Hwf _].
  now apply wellFormed_obj in Hwf.
Qed.

Lemma stamped_get timestamp bankName e k :
  NoDup (map fst e) ->
  get k (stamped timestamp bankName e) =
  if eqb k (str "memoryBank") then Some (JStr bankName)
  else if eqb k (str "createdAt") then Some (JStr timestamp)
  else get k e.
Proof.
  intros Hnd. unfold stamped. rewrite spread_nil by exact Hnd.
  now rewrite !get_set.
Qed.

Lemma stamped_isRecord timestamp bankName e :
  isRecord "entity" e = true ->
  isRecord "entity" (stamped timestamp bankName e) = true.
Proof.
  intros He. pose proof (record_nodup _ _ He) as Hnd.
  apply isRecord_spec in He as [Hwf Ht]. apply isRecord_spec. split.
  - unfold stamped. rewrite spread_nil by exact Hnd.
    apply set_wellFormed; [reflexivity|].
    apply set_wellFormed; [reflexivity | exact Hwf].
  - rewrite stamped_get by exact Hnd. exact Ht.
Qed.

Lemma stamped_name timestamp bankName e :
  NoDup (map fst e) ->
  get (str "name") (stamped timestamp bankName e) = get (str "name") e.
Proof.
  intros Hnd. now rewrite stamped_get.
Qed.

Lemma load_writable fs bank :
  writable fs bank = true ->
  exists before, loadBankGraph JSON fs bank = Ok before.
Proof.
  unfold writable. intros Hw.
  destruct (fs (filePath bank)) as [[data|c]|] eqn:Hfs; [|discriminate|].
  - rewrite (loadBankGraph_file JSON _ _ Hfs). eauto.
  - rewrite (loadBankGraph_absent JSON _ _ Hfs). eauto.
Qed.

Lemma names_tagged bank (es : list jobject) :
  Forall (fun e => isRecord "entity" e = true) es ->
  map (get (str "name")) (map (tagged "entity" bank) es)
  = map (get (str "name")) es.
Proof.
  induction 1 as [|e es He Hes IH]; [reflexivity|].
  cbn [map]. rewrite IH, tagged_name by exact (record_nodup _ _ He).
  reflexivity.
Qed.

Lemma names_stamped timestamp bankName (es : list jobject) :
  Forall (fun e => isRecord "entity" e = true) es ->
  map (get (str "name")) (map (stamped timestamp bankName) es)
  = map (get (str "name")) es.
Proof.
  induction 1 as [|e es He Hes IH]; [reflexivity|].
  cbn [map]. rewrite IH, stamped_name by exact (record_nodup _ _ He).
  reflexivity.
Qed.

(** What one call of [createEntitiesInBank] does. *)
Lemma create_spec banks fs timestamp bankName bank incoming :
  banksGet banks bankName = Some bank ->
  writable fs bank = true ->
  Forall (fun e => isRecord "entity" e = true) incoming ->
  exists before fs',
    loadBankGraph JSON fs bank = Ok before /\
    let stored :=
      map (stamped timestamp bankName)
          (filter (nameIsNew (loadedGraph before)) incoming) in
    createEntitiesInBank JSON banks fs timestamp bankName incoming
      = Ok (stored, fs') /\
    writable fs' bank = true /\
    loadBankGraph JSON fs' bank =
    Ok {| loadedGraph :=
            {| entities :=
                 map (tagged "entity" bank)
                     (entities (loadedGraph before) ++ stored);
               relations :=
                 map (tagged "relation" bank)
                     (relations (loadedGraph before)) |};
          warned := [] |} /\
    names {| entities :=
               map (tagged "entity" bank)
                   (entities (loadedGraph before) ++ stored);
             relations :=
               map (tagged "relation" bank)
                   (relations (loadedGraph before)) |}
    = names (loadedGraph before) ++
      map (get (str "name"))
          (filter (nameIsNew (loadedGraph before)) incoming).
Proof.
  intros Hbank Hw Hin.
  destruct (load_writable _ _ Hw) as [before Hload].
  destruct (loaded_records laws _ _ Hload) as [Hes Hrs].
  set (fresh := filter (nameIsNew (loadedGraph before)) incoming).
  assert (Hfresh : Forall (fun e => isRecord "entity" e = true) fresh).
  { apply Forall_forall. intros e He. apply filter_In in He as [He _].
    rewrite Forall_forall in Hin. now apply Hin. }
  set (stored := map (stamped timestamp bankName) fresh).
  assert (Hstored : Forall (fun e => isRecord "entity" e = true) stored).
  { apply Forall_map. eapply Forall_impl; [|exact Hfresh].
    intros e He. now apply stamped_isRecord. }
  set (graph := {| entities := entities (loadedGraph before) ++ stored;
                   relations := relations (loadedGraph before) |}).
  destruct (save_then_load laws fs bank graph Hw) as (fs' & Hsave & _ & Hw' & Hload').
  { apply Forall_app. split; assumption. }
  { exact Hrs. }
  exists before, fs'. split; [exact Hload|].
  split.
  { unfold createEntitiesInBank, getBank. rewrite Hbank. cbn [bind].
    rewrite Hload. cbn [bind]. fold fresh. fold stored. fold graph.
    rewrite Hsave. reflexivity. }
  split; [exact Hw'|]. split; [exact Hload'|].
  unfold names. cbn [entities].
  rewrite names_tagged by (apply Forall_app; split; assumption).
  rewrite map_app. fold stored. unfold stored.
  now rewrite names_stamped.
Qed.

Lemma nameIsNew_spec graph e n :
  get (str "name") e = Some (JStr n) ->
  nameIsNew graph e = false <-> In (get (str "name") e) (names graph).
Proof.
  intros Hn. unfold nameIsNew, names. rewrite negb_false_iff, existsb_exists.
  rewrite Hn. split.
  - intros (x & Hx & Heq). apply strictEquals_str in Heq. rewrite <- Heq.
    now apply in_map.
  - intros Hin. apply in_map_iff in Hin as (x & Heq & Hx).
    exists x. split; [exact Hx | now apply strictEquals_str].
Qed.

Lemma isEntity_spec e :
  isEntity e = true <->
  isRecord "entity" e = true /\ exists n, get (str "name") e = Some (JStr n).
Proof.
  unfold isEntity. rewrite andb_true_iff.
  destruct (get (str "name") e) as [[| | |n| |]|];
    (split; [intros [H1 H2]; try discriminate; split; eauto
            | intros [H1 [n' H2]]; try discriminate; split; auto]).
Qed.

Lemma entities_are_records (l : list jobject) :
  Forall (fun e => isEntity e = true) l ->
  Forall (fun e => isRecord "entity" e = true) l.
Proof.
  apply Forall_impl. intros e He. now apply isEntity_spec in He.
Qed.

Lemma filter_none (A : Type) (f : A -> bool) (l : list A) :
  (forall x, In x l -> f x = false) -> filter f l = [].
Proof.
  induction l as [|a l IH]; simpl; intros H; [reflexivity|].
  rewrite (H a) by now left. apply IH. intros x Hx. apply H. now right.
Qed.


(** C5 (as the code has it): a graph of records saved into a bank whose
    file can be written loads back as the same entities and the same
    relations, in the same order and without a warning, each record
    spread over the tags: every property of the record is read back
    unchanged, and a [type] or [memoryBank] it does not have is supplied
    by the discriminator of its list and by the name of the bank. *)
Theorem C5_round_trip fs bank g :
  writable fs bank = true ->
  Forall (fun e => isRecord "entity" e = true) (entities g) ->
  Forall (fun r => isRecord "relation" r = true) (relations g) ->
  exists fs',
    saveBankGraph JSON fs bank g = Ok fs' /\
    loadBankGraph JSON fs' bank =
    Ok {| loadedGraph :=
            {| entities := map (tagged "entity" bank) (entities g);
               relations := map (tagged "relation" bank) (relations g) |};
          warned := [] |} /\
    (forall t r k,
       In r (entities g ++ relations g) ->
       get k (tagged t bank r) =
       match get k r with
       | Some v => Some v
       | None =>
           if eqb k (str "type") then Some (JStr (str t))
           else if eqb k (str "memoryBank") then Some (JStr (name bank))
           else None
       end).
Proof.
  intros Hw Hes Hrs.
  destruct (save_then_load laws fs bank g Hw Hes Hrs)
    as (fs' & Hsave & _ & _ & Hload).
  exists fs'. split; [exact Hsave|]. split; [exact Hload|].
  intros t r k Hr. apply tagged_get.
  apply in_app_or in Hr as [Hr|Hr].
  - rewrite Forall_forall in Hes. exact (record_nodup _ _ (Hes r Hr)).
  - rewrite Forall_forall in Hrs. exact (record_nodup _ _ (Hrs r Hr)).
Qed.


(** C7: calling [createEntitiesInBank(bank, [e])] twice stores [e] once.
    The first call stores the stamped [e] when no stored entity has its
    name (and nothing when one has); the second call returns the empty
    list and leaves the stored names as they are; a name that was new
    is then stored exactly once. *)
Theorem C7_create_twice banks fs timestamp1 timestamp2 bankName bank e :
  banksGet banks bankName = Some bank ->
  writable fs bank = true ->
  isEntity e = true ->
  exists before stored fs1 fs2 after1 after2,
    loadBankGraph JSON fs bank = Ok before /\
    createEntitiesInBank JSON banks fs timestamp1 bankName [e]
      = Ok (stored, fs1) /\
    createEntitiesInBank JSON banks fs1 timestamp2 bankName [e]
      = Ok ([], fs2) /\
    loadBankGraph JSON fs1 bank = Ok after1 /\
    loadBankGraph JSON fs2 bank = Ok after2 /\
    names (loadedGraph after2) = names (loadedGraph after1) /\
    In (get (str "name") e) (names (loadedGraph after2)) /\
    (In (get (str "name") e) (names (loadedGraph before)) ->
       stored = [] /\
       names (loadedGraph after1) = names (loadedGraph before)) /\
    (~ In (get (str "name") e) (names (loadedGraph before)) ->
       stored = [stamped timestamp1 bankName e] /\
       names (loadedGraph after1)
         = names (loadedGraph before) ++ [get (str "name") e] /\
       occurrences (get (str "name") e) (loadedGraph after2) = 1%nat).
Proof.
  intros Hbank Hw He.
  destruct (proj1 (isEntity_spec e) He) as [Hrec [n Hn]].
  assert (Hone : Forall (fun x => isRecord "entity" x = true) [e])
    by (constructor; [exact Hrec | constructor]).
  destruct (create_spec banks fs timestamp1 bankName Hbank Hw Hone)
    as (before & fs1 & Hload & Hcreate1 & Hw1 & Hload1 & Hnames1).
  destruct (create_spec banks fs1 timestamp2 bankName Hbank Hw1 Hone)
    as (after1 & fs2 & Hload1' & Hcreate2 & _ & Hload2 & Hnames2).
  rewrite Hload1 in Hload1'. injection Hload1' as <-.
  cbn [loadedGraph] in Hcreate2, Hload2, Hnames2.
  set (g1 := {| entities := _; relations := _ |}) in *.
  assert (Hknown1 : In (get (str "name") e) (names g1)).
  { rewrite Hnames1. apply in_or_app. cbn [filter].
    destruct (nameIsNew (loadedGraph before) e) eqn:Hnew.
    - right. now left.
    - left. now apply (nameIsNew_spec (loadedGraph before) e Hn). }
  assert (Hnew2 : nameIsNew g1 e = false)
    by now apply (nameIsNew_spec g1 e Hn).
  cbn [filter] in Hcreate2, Hload2, Hnames2.
  rewrite Hnew2 in Hcreate2, Hload2, Hnames2.
  change (map (stamped timestamp2 bankName) []) with (@nil jobject)
    in Hcreate2, Hload2, Hnames2.
  change (map (get (str "name")) []) with (@nil (option json)) in Hnames2.
  rewrite !app_nil_r in Hload2. rewrite !app_nil_r in Hnames2.
  eexists before, _, fs1, fs2, _, _.
  split; [exact Hload|]. split; [exact Hcreate1|].
  split; [exact Hcreate2|]. split; [exact Hload1|]. split; [exact Hload2|].
  cbn [loadedGraph].
  split; [exact Hnames2|]. split; [now rewrite Hnames2|]. split.
  - intros Hknown.
    apply (nameIsNew_spec (loadedGraph before) e Hn) in Hknown.
    cbn [filter] in Hnames1 |- *. rewrite Hknown in Hnames1 |- *.
    cbn [map] in Hnames1 |- *. rewrite app_nil_r in Hnames1.
    split; [reflexivity | exact Hnames1].
  - intros Hfresh.
    assert (Hnew : nameIsNew (loadedGraph before) e = true).
    { destruct (nameIsNew (loadedGraph before) e) eqn:Hnew; [reflexivity|].
      apply (nameIsNew_spec (loadedGraph before) e Hn) in Hnew.
      contradiction. }
    cbn [filter] in Hnames1 |- *. rewrite Hnew in Hnames1 |- *.
    cbn [map] in Hnames1 |- *.
    split; [reflexivity|]. split; [exact Hnames1|].
    unfold occurrences. rewrite Hnames2, Hnames1, filter_app, length_app.
    cbn [filter]. rewrite Hn. cbn [strictEquals]. rewrite eqb_refl.
    cbn [length].
    replace (filter _ (names (loadedGraph before))) with (@nil (option json)).
    + reflexivity.
    + symmetry. apply filter_none. intros x Hx.
      destruct (strictEquals x (Some (JStr n))) eqn:Hx'; [|reflexivity].
      apply strictEquals_str in Hx'. rewrite Hn in Hfresh. congruence.
Qed.

End StoreClaims.

(** ** The JSON text codec keeps the contract *)

Section JsonInduction.

Variable P : json -> Prop.
Hypothesis HNull : P JNull.
Hypothesis HBool : forall b, P (JBool b).
Hypothesis HNum : forall n, P (JNum n).
Hypothesis HStr : forall s, P (JStr s).
Hypothesis HArr : forall items, Forall P items -> P (JArr items).
Hypothesis HObj :
  forall props, Forall (fun kv => P (snd kv)) props -> P (JObj props).

(** Induction on a value, with the induction hypothesis for every item
    of an array and every property value of an object. *)
Fixpoint json_induction (v : json) : P v :=
  match v with
  | JNull => HNull
  | JBool b => HBool b
  | JNum n => HNum n
  | JStr s => HStr s
  | JArr items =>
      HArr ((fix all (l : list json) : Forall P l :=
               match l with
               | [] => Forall_nil P
               | x :: l' => Forall_cons x (json_induction x) (all l')
               end) items)
  | JObj props =>
      HObj ((fix all (l : list (jsstring * json))
               : Forall (fun kv => P (snd kv)) l :=
               match l with
               | [] => Forall_nil _
               | kv :: l' =>
                   Forall_cons kv (json_induction (snd kv)) (all l')
               end) props)
  end.

End JsonInduction.

Module JsonTextFacts.

Import JsonText.

(** *** Numbers *)

Lemma uint_units (d : Decimal.uint) :
  forallb isDigitUnit
    (list_ascii_of_string (NilEmpty.string_of_uint d)) = true.
Proof.
  induction d; simpl; auto.
Qed.

Lemma showZ_units (n : Z) : forallb isDigitUnit (showZ n) = true.
Proof.
  unfold showZ, NilZero.string_of_int, NilZero.string_of_uint.
  destruct (Z.to_int n) as [d|d]; destruct d; try reflexivity;
    cbn [list_ascii_of_string forallb]; rewrite ?andb_true_l;
    try (apply (uint_units (Decimal.D0 d)));
    try (apply (uint_units (Decimal.D1 d)));
    try (apply (uint_units (Decimal.D2 d)));
    try (apply (uint_units (Decimal.D3 d)));
    try (apply (uint_units (Decimal.D4 d)));
    try (apply (uint_units (Decimal.D5 d)));
    try (apply (uint_units (Decimal.D6 d)));
    try (apply (uint_units (Decimal.D7 d)));
    try (apply (uint_units (Decimal.D8 d)));
    try (apply (uint_units (Decimal.D9 d))).
Qed.

Lemma showZ_cons (n : Z) :
  exists c tl, showZ n = c :: tl /\ isDigitUnit c = true.
Proof.
  pose proof (showZ_units n) as Hu.
  destruct (showZ n) as [|c tl] eqn:Hs.
  - exfalso. unfold showZ in Hs.
    apply (f_equal string_of_list_ascii) in Hs.
    rewrite string_of_list_ascii_of_string in Hs. simpl in Hs.
    unfold NilZero.string_of_int, NilZero.string_of_uint in Hs.
    destruct (Z.to_int n) as [d|d]; destruct d; discriminate.
  - exists c, tl. split; [reflexivity|].
    simpl in Hu. now apply andb_true_iff in Hu.
Qed.

Lemma readZ_showZ (n : Z) : readZ (showZ n) = Some n.
Proof.
  unfold readZ, showZ. rewrite string_of_list_ascii_of_string.
  rewrite NilZero.isi.
  - simpl. now rewrite DecimalZ.of_to.
  - destruct n; simpl; try discriminate.
    intros H. injection H as H. now apply DecimalPos.Unsigned.to_uint_nonnil in H.
  - destruct n; simpl; try discriminate.
    intros H. injection H as H. now apply DecimalPos.Unsigned.to_uint_nonnil in H.
Qed.

Lemma digitUnit_facts (c : ascii) :
  isDigitUnit c = true ->
  isNumberUnit c = true /\ (code c =? 101)%N = false.
Proof.
  destruct c as [[] [] [] [] [] [] [] []]; vm_compute; intros H;
    try discriminate H; split; reflexivity.
Qed.

Lemma splitExponent_digits (d rest : jsstring) :
  forallb isDigitUnit d = true ->
  splitExponent (d ++ rest) =
  (d ++ fst (splitExponent rest), snd (splitExponent rest)).
Proof.
  intros Hd. induction d as [|c d IH]; cbn [app].
  - now destruct (splitExponent rest).
  - cbn [forallb] in Hd. apply andb_true_iff in Hd as [Hc Hd].
    cbn [splitExponent]. rewrite (proj2 (digitUnit_facts c Hc)).
    rewrite (IH Hd). reflexivity.
Qed.

Lemma showNumber_units (x : number) :
  forallb isNumberUnit (showNumber x) = true.
Proof.
  assert (Hz : forall n, forallb isNumberUnit (showZ n) = true).
  { intros n. apply forallb_forall. intros c Hc.
    pose proof (showZ_units n) as Hu. rewrite forallb_forall in Hu.
    exact (proj1 (digitUnit_facts c (Hu c Hc))). }
  unfold showNumber. rewrite forallb_app, Hz.
  destruct (exponent x =? 0)%Z; [reflexivity|].
  cbn [str list_ascii_of_string app forallb]. now rewrite Hz.
Qed.

Lemma showNumber_cons (x : number) :
  exists c tl, showNumber x = c :: tl /\ isNumberUnit c = true.
Proof.
  unfold showNumber. destruct (showZ_cons (digits x)) as (c & tl & -> & Hc).
  eexists c, _. split; [reflexivity|].
  exact (proj1 (digitUnit_facts c Hc)).
Qed.

Lemma readNumber_showNumber (x : number) :
  canonical x = true -> readNumber (showNumber x) = Some x.
Proof.
  intros Hx. destruct x as [d e]. unfold readNumber, showNumber.
  cbn [digits exponent].
  rewrite splitExponent_digits by apply showZ_units.
  destruct (e =? 0)%Z eqn:He.
  - apply Z.eqb_eq in He. subst e.
    cbn [splitExponent fst snd]. rewrite app_nil_r, readZ_showZ.
    now rewrite Hx.
  - cbn [str list_ascii_of_string app splitExponent].
    change (code "e"%char =? 101)%N with true. cbn [fst snd].
    rewrite app_nil_r, !readZ_showZ. now rewrite Hx, He.
Qed.

Lemma readNumber_canonical (token : jsstring) (x : number) :
  readNumber token = Some x -> canonical x = true.
Proof.
  unfold readNumber. destruct (splitExponent token) as [d [e'|]];
    destruct (readZ d) as [m|]; try discriminate.
  - destruct (readZ e') as [k|]; [|discriminate].
    destruct (canonical {| digits := m; exponent := k |}) eqn:Hc;
      cbn [andb]; [|discriminate].
    destruct (negb (k =? 0)%Z); [|discriminate]. now intros [= <-].
  - destruct (canonical {| digits := m; exponent := 0 |}) eqn:Hc;
      [|discriminate]. now intros [= <-].
Qed.

Lemma spanNumber_app (digits rest : jsstring) :
  forallb isNumberUnit digits = true -> numberSafe rest = true ->
  spanNumber (digits ++ rest) = (digits, rest).
Proof.
  intros Hd Hr. induction digits as [|c digits IH];
    cbn [app spanNumber forallb] in *.
  - destruct rest as [|c rest]; [reflexivity|].
    cbn [numberSafe] in Hr. apply negb_true_iff in Hr.
    cbn [spanNumber]. now rewrite Hr.
  - apply andb_true_iff in Hd as [Hc Hd]. rewrite Hc, IH by exact Hd.
    reflexivity.
Qed.

(** *** Strings *)

Lemma parseChars_escape (c : ascii) (tail : jsstring) :
  parseChars (escapeUnit c ++ tail) =
  match parseChars tail with
  | Some (text, rest) => Some (c :: text, rest)
  | None => None
  end.
Proof.
  destruct c as [[] [] [] [] [] [] [] []]; reflexivity.
Qed.

Lemma parseChars_quoted (s rest : jsstring) :
  parseChars (flat_map escapeUnit s ++ quoteUnit :: rest) = Some (s, rest).
Proof.
  induction s as [|c s IH].
  - reflexivity.
  - cbn [flat_map]. rewrite <- app_assoc, parseChars_escape, IH. reflexivity.
Qed.

Lemma escapeUnit_visible (c : ascii) :
  forallb (fun d => (32 <=? code d)%N) (escapeUnit c) = true.
Proof.
  destruct c as [[] [] [] [] [] [] [] []]; vm_compute; reflexivity.
Qed.

(** *** One step of the reader *)

Lemma parseItems_S (fuel : nat) (s : jsstring) :
  parseItems (S fuel) s =
  match parseValue fuel s with
  | Some (v, c :: rest) =>
      if (code c =? 44)%N then
        match parseItems fuel rest with
        | Some (items, rest') => Some (v :: items, rest')
        | None => None
        end
      else if (code c =? 93)%N then Some ([v], rest)
      else None
  | _ => None
  end.
Proof. reflexivity. Qed.

Lemma parseMembers_S (fuel : nat) (acc : jobject) (s1 : jsstring) :
  parseMembers (S fuel) acc (quoteUnit :: s1) =
  match parseChars s1 with
  | Some (k, colon :: s2) =>
      if (code colon =? 58)%N then
        match parseValue fuel s2 with
        | Some (v, c :: rest) =>
            if (code c =? 44)%N then parseMembers fuel (set k v acc) rest
            else if (code c =? 125)%N then Some (set k v acc, rest)
            else None
        | _ => None
        end
      else None
  | _ => None
  end.
Proof. reflexivity. Qed.

Lemma parseValue_number (fuel : nat) (c : ascii) (s' : jsstring) :
  isNumberUnit c = true ->
  parseValue (S fuel) (c :: s') =
  let (token, rest) := spanNumber (c :: s') in
  match readNumber token with
  | Some x => Some (JNum x, rest)
  | None => None
  end.
Proof.
  destruct c as [[] [] [] [] [] [] [] []]; intros H;
    try discriminate H; reflexivity.
Qed.

Lemma parseValue_array (fuel : nat) (s' : jsstring) :
  parseValue (S fuel) (str "[" ++ s') =
  match expect (str "]") s' with
  | Some rest => Some (JArr [], rest)
  | None =>
      match parseItems fuel s' with
      | Some (items, rest) => Some (JArr items, rest)
      | None => None
      end
  end.
Proof. reflexivity. Qed.

Lemma parseValue_object (fuel : nat) (s' : jsstring) :
  parseValue (S fuel) (str "{" ++ s') =
  match expect (str "}") s' with
  | Some rest => Some (JObj [], rest)
  | None =>
      match parseMembers fuel [] s' with
      | Some (props, rest) => Some (JObj props, rest)
      | None => None
      end
  end.
Proof. reflexivity. Qed.

Lemma parseValue_quote (fuel : nat) (x : jsstring) :
  parseValue (S fuel) (quoteUnit :: x) =
  match parseChars x with
  | Some (text, rest) => Some (JStr text, rest)
  | None => None
  end.
Proof. reflexivity. Qed.

Lemma parseValue_string (fuel : nat) (s rest : jsstring) :
  parseValue (S fuel) (quote s ++ rest) = Some (JStr s, rest).
Proof.
  unfold quote. cbn [app]. rewrite <- app_assoc. cbn [app].
  now rewrite parseValue_quote, parseChars_quoted.
Qed.

(** *** The text of a value *)

Lemma opener_facts (c : ascii) :
  opener c = true ->
  isWhiteSpace c = false /\ Ascii.eqb "]"%char c = false /\
  Ascii.eqb "}"%char c = false /\ (32 <=? code c)%N = true.
Proof.
  destruct c as [[] [] [] [] [] [] [] []]; vm_compute; intros H;
    try discriminate H; repeat split.
Qed.

Lemma stringify_cons (v : json) :
  exists c tl, stringify v = c :: tl /\ opener c = true.
Proof.
  destruct v as [|[]|n|s|items|props]; cbn [stringify];
    try (eexists _, _; split; [reflexivity | reflexivity]).
  destruct (showNumber_cons n) as (c & tl & -> & Hc).
  exists c, tl. split; [reflexivity|].
  unfold opener. now rewrite Hc.
Qed.

Lemma expect_other (w c : ascii) (s : jsstring) :
  Ascii.eqb w c = false -> expect [w] (c :: s) = None.
Proof.
  intros H. cbn [expect]. now rewrite H.
Qed.

Lemma comma_cons (r : jsstring) : str "," ++ r = ","%char :: r.
Proof. reflexivity. Qed.

Lemma colon_cons (r : jsstring) : str ":" ++ r = ":"%char :: r.
Proof. reflexivity. Qed.

Lemma weight_pos (v : json) : (1 <= weight v)%nat.
Proof. destruct v; cbn [weight]; lia. Qed.

Lemma items_read_back (items : list json) :
  Forall readsBack items -> forallb wellFormed items = true ->
  items <> [] ->
  forall fuel rest,
    (itemsWeight items <= fuel)%nat ->
    parseItems fuel
      (join (str ",") (map stringify items) ++ str "]" ++ rest)
    = Some (items, rest).
Proof.
  induction 1 as [|x items Hx Hitems IH]; [congruence|].
  intros Hwf _ fuel rest Hfuel.
  cbn [forallb] in Hwf. apply andb_true_iff in Hwf as [Hwx Hwi].
  cbn [itemsWeight fold_right] in Hfuel. fold (itemsWeight items) in Hfuel.
  destruct fuel as [|fuel]; [lia|].
  rewrite parseItems_S.
  destruct items as [|y items].
  - cbn [map join].
    rewrite (Hx Hwx fuel (str "]" ++ rest)) by (reflexivity || lia).
    reflexivity.
  - change (join (str ",") (map stringify (x :: y :: items)))
      with (stringify x ++ str "," ++
            join (str ",") (map stringify (y :: items))).
    rewrite <- !app_assoc.
    rewrite (Hx Hwx fuel) by (reflexivity || lia).
    rewrite comma_cons.
    change (code ","%char =? 44)%N with true. cbn iota.
    rewrite (IH Hwi ltac:(discriminate) fuel rest) by lia.
    reflexivity.
Qed.

Lemma members_read_back (props : jobject) :
  Forall (fun kv => readsBack (snd kv)) props ->
  forallb (fun kv => wellFormed (snd kv)) props = true ->
  props <> [] ->
  forall fuel acc rest,
    (propsWeight props <= fuel)%nat ->
    parseMembers fuel acc
      (join (str ",")
         (map (fun kv => quote (fst kv) ++ str ":" ++ stringify (snd kv))
              props)
       ++ str "}" ++ rest)
    = Some (spread acc props, rest).
Proof.
  induction 1 as [|[k v] props Hv Hprops IH]; [congruence|].
  intros Hwf _ fuel acc rest Hfuel.
  cbn [forallb snd] in Hwf. apply andb_true_iff in Hwf as [Hwv Hwp].
  cbn [propsWeight fold_right snd] in Hfuel.
  fold (propsWeight props) in Hfuel.
  destruct fuel as [|fuel]; [lia|].
  cbn [snd] in Hv.
  destruct props as [|kv props].
  - cbn [map join fst snd]. unfold quote at 1.
    cbn [app]. rewrite <- !app_assoc. cbn [app].
    rewrite parseMembers_S, parseChars_quoted, colon_cons.
    change (code ":"%char =? 58)%N with true. cbn iota.
    rewrite (Hv Hwv fuel) by (reflexivity || lia).
    reflexivity.
  - change (join (str ",")
              (map (fun kv => quote (fst kv) ++ str ":" ++ stringify (snd kv))
                   ((k, v) :: kv :: props)))
      with ((quote k ++ str ":" ++ stringify v) ++ str "," ++
            join (str ",")
              (map (fun kv => quote (fst kv) ++ str ":" ++ stringify (snd kv))
                   (kv :: props))).
    unfold quote at 1.
    cbn [app]. rewrite <- !app_assoc. cbn [app].
    rewrite parseMembers_S, parseChars_quoted, colon_cons.
    change (code ":"%char =? 58)%N with true. cbn iota.
    rewrite (Hv Hwv fuel) by (reflexivity || lia).
    rewrite comma_cons.
    change (code ","%char =? 44)%N with true. cbn iota.
    rewrite (IH Hwp ltac:(discriminate) fuel (set k v acc) rest) by lia.
    reflexivity.
Qed.

Lemma value_reads_back (v : json) : readsBack v.
Proof.
  induction v as [|b|n|s|items IH|props IH] using json_induction;
    intros Hwf fuel rest Hfuel Hsafe;
    (destruct fuel as [|fuel]; [pose proof (weight_pos JNull); cbn [weight] in *; lia|]).
  - reflexivity.
  - destruct b; reflexivity.
  - destruct (showNumber_cons n) as (c & tl & E & Hc).
    cbn [stringify]. rewrite E. cbn [app].
    rewrite parseValue_number by exact Hc.
    change (c :: tl ++ rest) with ((c :: tl) ++ rest). rewrite <- E.
    rewrite spanNumber_app by (apply showNumber_units || exact Hsafe).
    now rewrite readNumber_showNumber.
  - apply parseValue_string.
  - cbn [stringify]. rewrite <- !app_assoc. rewrite parseValue_array.
    cbn [weight] in Hfuel. fold (itemsWeight items) in Hfuel.
    destruct items as [|x items]; [reflexivity|].
    assert (Hexp : expect (str "]")
              (join (str ",") (map stringify (x :: items)) ++
               str "]" ++ rest) = None).
    { destruct (stringify_cons x) as (c & tl & E & Hc).
      apply opener_facts in Hc as (_ & Hc & _).
      destruct items; cbn [map join]; rewrite E; cbn [app];
        now apply expect_other. }
    rewrite Hexp.
    rewrite items_read_back;
      [reflexivity | exact IH | exact Hwf | discriminate | lia].
  - cbn [stringify]. rewrite <- !app_assoc. rewrite parseValue_object.
    cbn [weight] in Hfuel. fold (propsWeight props) in Hfuel.
    destruct props as [|[k v] props]; [reflexivity|].
    apply wellFormed_obj in Hwf as [Hnd Hvals].
    assert (Hexp : expect (str "}")
              (join (str ",")
                 (map (fun kv => quote (fst kv) ++ str ":" ++
                                 stringify (snd kv))
                      ((k, v) :: props)) ++
               str "}" ++ rest) = None).
    { destruct props; reflexivity. }
    rewrite Hexp.
    rewrite members_read_back;
      [ now rewrite spread_nil
      | exact IH
      | now apply forallb_forall; rewrite Forall_forall in Hvals
      | discriminate
      | lia ].
Qed.

Lemma joined_weight (A : Type) (wt : A -> nat) (text : A -> jsstring)
    (l : list A) :
  Forall (fun a => (wt a <= length (text a))%nat) l ->
  (fold_right (fun a acc => S (wt a + acc)%nat) 0%nat l
   <= length (join (str ",") (map text l)) + 1)%nat.
Proof.
  induction 1 as [|a l Ha Hl IH]; [cbn; lia|].
  destruct l as [|b l].
  - cbn [fold_right map join]. lia.
  - change (join (str ",") (map text (a :: b :: l)))
      with (text a ++ str "," ++ join (str ",") (map text (b :: l))).
    rewrite !length_app. cbn [fold_right] in *.
    change (length (str ",")) with 1%nat. lia.
Qed.

Lemma weight_le_length (v : json) : (weight v <= length (stringify v))%nat.
Proof.
  induction v as [|b|n|s|items IH|props IH] using json_induction.
  - cbn. lia.
  - destruct b; cbn; lia.
  - cbn [weight stringify]. destruct (showNumber_cons n) as (c & tl & -> & _).
    cbn [length]. lia.
  - cbn [weight stringify]. unfold quote. cbn [length]. lia.
  - cbn [weight stringify]. rewrite !length_app.
    pose proof (joined_weight weight stringify IH).
    change (length (str "[")) with 1%nat. change (length (str "]")) with 1%nat.
    lia.
  - cbn [weight stringify]. rewrite !length_app.
    assert (Hm : Forall (fun kv : jsstring * json =>
              (weight (snd kv)
               <= length (quote (fst kv) ++ str ":" ++ stringify (snd kv)))%nat)
              props).
    { eapply Forall_impl; [|exact IH]. intros kv Hkv.
      cbn beta in Hkv |- *. rewrite !length_app. lia. }
    pose proof (joined_weight (fun kv => weight (snd kv)) _ Hm).
    change (length (str "{")) with 1%nat. change (length (str "}")) with 1%nat.
    lia.
Qed.

Lemma parse_stringify_text (v : json) :
  wellFormed v = true -> parse (stringify v) = Some v.
Proof.
  intros Hwf. unfold parse.
  pose proof (@value_reads_back v Hwf (S (length (stringify v))) []) as H.
  rewrite app_nil_r in H. rewrite H; [reflexivity | | reflexivity].
  pose proof (weight_le_length v). lia.
Qed.

(** *** The text is one visible line *)

Lemma numberUnit_visible (c : ascii) :
  isNumberUnit c = true -> (32 <=? code c)%N = true.
Proof.
  destruct c as [[] [] [] [] [] [] [] []]; vm_compute; intros H;
    try discriminate H; reflexivity.
Qed.

Lemma visible_literal (s : jsstring) :
  forallb (fun d => (32 <=? code d)%N) s = true -> visible s.
Proof.
  intros H. apply Forall_forall. now apply forallb_forall.
Qed.

Lemma quote_visible (s : jsstring) : visible (quote s).
Proof.
  unfold quote, visible. constructor; [reflexivity|].
  apply Forall_app. split; [|repeat constructor].
  apply Forall_flat_map, Forall_forall. intros c _.
  apply visible_literal, escapeUnit_visible.
Qed.

Lemma join_visible (texts : list jsstring) :
  Forall visible texts -> visible (join (str ",") texts).
Proof.
  induction 1 as [|x texts Hx Htexts IH]; [constructor|].
  destruct texts as [|y texts]; [exact Hx|].
  change (join (str ",") (x :: y :: texts))
    with (x ++ str "," ++ join (str ",") (y :: texts)).
  apply Forall_app. split; [exact Hx|].
  apply Forall_app. split; [repeat constructor | exact IH].
Qed.

Lemma stringify_visible (v : json) : visible (stringify v).
Proof.
  induction v as [|b|n|s|items IH|props IH] using json_induction;
    cbn [stringify].
  - now apply visible_literal.
  - destruct b; now apply visible_literal.
  - apply Forall_forall. intros c Hc. apply numberUnit_visible.
    pose proof (showNumber_units n) as Hu. rewrite forallb_forall in Hu.
    now apply Hu.
  - apply quote_visible.
  - apply Forall_app. split; [repeat constructor|].
    apply Forall_app. split; [|repeat constructor].
    apply join_visible, Forall_map. exact IH.
  - apply Forall_app. split; [repeat constructor|].
    apply Forall_app. split; [|repeat constructor].
    apply join_visible, Forall_map.
    eapply Forall_impl; [|exact IH]. intros kv Hkv. cbn beta in *.
    apply Forall_app. split; [apply quote_visible|].
    apply Forall_app. split; [repeat constructor | exact Hkv].
Qed.

Lemma trimStart_tail_solid (l : jsstring) (c : ascii) :
  isWhiteSpace c = false -> trimStart (l ++ [c]) <> [].
Proof.
  intros Hc. induction l as [|d l IH]; cbn [app trimStart].
  - now rewrite Hc.
  - destruct (isWhiteSpace d); [exact IH | discriminate].
Qed.

Lemma trim_solid (c : ascii) (tl : jsstring) :
  isWhiteSpace c = false -> trim (c :: tl) <> [].
Proof.
  intros Hc. unfold trim, trimEnd. cbn [trimStart]. rewrite Hc.
  cbn [rev]. intros H. apply (f_equal (@rev ascii)) in H.
  rewrite rev_involutive in H. cbn [rev] in H.
  now apply (trimStart_tail_solid (rev tl) c Hc).
Qed.

Lemma stringify_line_text (v : json) :
  ~ In LF (stringify v) /\ trim (stringify v) <> [].
Proof.
  split.
  - intros Hin. pose proof (stringify_visible v) as Hv.
    unfold visible in Hv. rewrite Forall_forall in Hv.
    specialize (Hv LF Hin). discriminate Hv.
  - destruct (stringify_cons v) as (c & tl & -> & Hc).
    apply trim_solid. now apply opener_facts in Hc.
Qed.

(** *** What is read is a value *)

Lemma parseValue_step (fuel : nat) (c : ascii) (s' : jsstring) :
  parseValue (S fuel) (c :: s') =
  let n := code c in
  if (n =? 110)%N then
    option_map (fun rest => (JNull, rest)) (expect (str "ull") s')
  else if (n =? 116)%N then
    option_map (fun rest => (JBool true, rest)) (expect (str "rue") s')
  else if (n =? 102)%N then
    option_map (fun rest => (JBool false, rest)) (expect (str "alse") s')
  else if (n =? 34)%N then
    match parseChars s' with
    | Some (text, rest) => Some (JStr text, rest)
    | None => None
    end
  else if (n =? 91)%N then
    match expect (str "]") s' with
    | Some rest => Some (JArr [], rest)
    | None =>
        match parseItems fuel s' with
        | Some (items, rest) => Some (JArr items, rest)
        | None => None
        end
    end
  else if (n =? 123)%N then
    match expect (str "}") s' with
    | Some rest => Some (JObj [], rest)
    | None =>
        match parseMembers fuel [] s' with
        | Some (props, rest) => Some (JObj props, rest)
        | None => None
        end
    end
  else if isNumberUnit c then
    let (token, rest) := spanNumber (c :: s') in
    match readNumber token with
    | Some x => Some (JNum x, rest)
    | None => None
    end
  else None.
Proof. reflexivity. Qed.

Lemma parseMembers_step (fuel : nat) (acc : jobject) (q : ascii)
    (s1 : jsstring) :
  parseMembers (S fuel) acc (q :: s1) =
  if (code q =? 34)%N then
    match parseChars s1 with
    | Some (k, colon :: s2) =>
        if (code colon =? 58)%N then
          match parseValue fuel s2 with
          | Some (v, c :: rest) =>
              if (code c =? 44)%N then parseMembers fuel (set k v acc) rest
              else if (code c =? 125)%N then Some (set k v acc, rest)
              else None
          | _ => None
          end
        else None
    | _ => None
    end
  else None.
Proof. reflexivity. Qed.

Ltac read_cases :=
  repeat match goal with
    | H : Some _ = Some _ |- _ => inversion H; subst; clear H
    | H : None = Some _ |- _ => discriminate H
    | H : option_map _ ?x = Some _ |- _ =>
        destruct x eqn:?; cbn [option_map] in H
    | H : (let (_, _) := ?x in _) = Some _ |- _ => destruct x eqn:?
    | H : (if ?b then _ else _) = Some _ |- _ => destruct b eqn:?
    | H : match ?x with _ => _ end = Some _ |- _ => destruct x eqn:?
    end.

Lemma read_wellFormed (fuel : nat) :
  (forall s v rest,
     parseValue fuel s = Some (v, rest) -> wellFormed v = true) /\
  (forall s items rest,
     parseItems fuel s = Some (items, rest) ->
     forallb wellFormed items = true) /\
  (forall acc s props rest,
     wellFormed (JObj acc) = true ->
     parseMembers fuel acc s = Some (props, rest) ->
     wellFormed (JObj props) = true).
Proof.
  induction fuel as [|fuel (IHv & IHi & IHm)].
  - repeat split; intros; discriminate.
  - split; [|split].
    + intros [|c s'] v rest H; [discriminate|].
      rewrite parseValue_step in H. cbv zeta in H. read_cases;
        try reflexivity.
      * cbn [wellFormed]. eapply IHi. eassumption.
      * eapply IHm; [|eassumption]. reflexivity.
      * cbn [wellFormed]. eapply readNumber_canonical. eassumption.
    + intros s items rest H. rewrite parseItems_S in H. read_cases.
      * cbn [forallb]. apply andb_true_iff. split.
        -- eapply IHv. eassumption.
        -- eapply IHi. eassumption.
      * cbn [forallb]. rewrite andb_true_r. eapply IHv. eassumption.
    + intros acc [|q s1] props rest Hacc H; [discriminate|].
      rewrite parseMembers_step in H. read_cases.
      * eapply IHm; [|eassumption].
        apply set_wellFormed; [|exact Hacc]. eapply IHv. eassumption.
      * apply set_wellFormed; [|exact Hacc]. eapply IHv. eassumption.
Qed.

Lemma parse_wellFormed_text (s : jsstring) (v : json) :
  parse s = Some v -> wellFormed v = true.
Proof.
  unfold parse. intros H.
  destruct (parseValue (S (length s)) s) as [[v' [|c rest]]|] eqn:Hp;
    try discriminate.
  injection H as <-.
  eapply (proj1 (read_wellFormed _)). eassumption.
Qed.

(** The text codec keeps the contract of the platform's JSON. *)
Lemma codec_laws : JsonLaws codec.
Proof.
  constructor.
  - exact parse_stringify_text.
  - exact stringify_line_text.
  - exact parse_wellFormed_text.
Qed.

End JsonTextFacts.


(** ** The claims on the sample data *)

Section Witnesses.

Import Samples.

Lemma C1_witness :
  UnifiedSearch.rankUnifiedResults Date_getTime clock
    [sessionHit 9; bankHit 9] (str "auth") = [bankHit 9; sessionHit 9] /\
  UnifiedSearch.rankUnifiedResults Date_getTime clock
    [bankHit 8; sessionHit 8] (str "auth") = [sessionHit 8; bankHit 8].
Proof.
  split.
  - destruct (C1_bank_boost_threshold Date_getTime clock (str "auth")
                (bankHit 9) (sessionHit 9)
                eq_refl eq_refl eq_refl eq_refl eq_refl eq_refl)
      as (H9 & _).
    apply H9. reflexivity.
  - destruct (C1_bank_boost_threshold Date_getTime clock (str "auth")
                (bankHit 8) (sessionHit 8)
                eq_refl eq_refl eq_refl eq_refl eq_refl eq_refl)
      as (_ & H8 & _).
    apply H8. reflexivity.
Defined.



(** C3, as stated, fails: a session without a messages list makes the
    extractor throw, and so does one without a tool-call list. *)
Lemma C3_counterexample :
  PatternExtractor.extractPatternsFromSession toISOString toolArrow 0
    noMessages = Throw (TypeError (str "session.messages.map")) /\
  PatternExtractor.extractPatternsFromSession toISOString toolArrow 0
    noToolCalls = Throw (TypeError (str "toolCalls.length")).
Proof. split; reflexivity. Qed.

Lemma C3_witness :
  PatternExtractor.extractPatternsFromSession toISOString toolArrow 0
    (sessionOf (Some []) (Some [])) = Ok [].
Proof.
  destruct (C3_lists_are_required toISOString toolArrow 0
              (sessionOf (Some []) (Some []))) as (_ & _ & _ & H).
  apply H; reflexivity.
Defined.

(** C4, as stated, fails: the sentence with exactly two technical
    keywords gets a technical_insight pattern from the rule, with
    confidence 2/7, and [extractPatternsFromSession] returns nothing. *)
Lemma C4_counterexample :
  let sentence := str "The new architecture follows a plain layered pattern" in
  In sentence
     (PatternExtractor.sentences 20
        (PatternExtractor.combinedContent
           [says "The new architecture follows a plain layered pattern. We moved the old database to another host"])) /\
  PatternExtractor.countMatches PatternExtractor.technicalKeywords
    (toLowerCase sentence) = 2%nat /\
  (exists p,
     PatternExtractor.technicalInsightOf toISOString twoKeywords sentence = [p] /\
     PatternExtractor.confidence p == 2 # 7) /\
  PatternExtractor.extractPatternsFromSession toISOString toolArrow 0
    twoKeywords = Ok [].
Proof.
  split; [vm_compute; now left|]. split; [reflexivity|].
  split; [eexists; split; reflexivity|]. reflexivity.
Qed.

Lemma C4_witness :
  exists out,
    PatternExtractor.extractPatternsFromSession toISOString toolArrow 0
      twoKeywords = Ok out /\
    forall p, In p out ->
              PatternExtractor.type p = PatternExtractor.technical_insight ->
              (4 <= PatternExtractor.countMatches
                      PatternExtractor.technicalKeywords
                      (toLowerCase (PatternExtractor.content p)))%nat.
Proof.
  destruct (@C4_technical_gate toISOString toolArrow 0 twoKeywords _ _
              eq_refl eq_refl) as (out & Hout & _ & Hfour).
  exists out. split; [exact Hout | exact Hfour].
Defined.

(** C5, as stated, fails: a record that carries the name of another
    bank keeps it; it is not tagged with the name of the owning bank. *)
Lemma C5_counterexample :
  match BankManager.saveBankGraph JsonText.codec noFiles devBank
          {| BankManager.entities := [borrowed];
             BankManager.relations := [] |}
  with
  | Ok fs' =>
      match BankManager.loadBankGraph JsonText.codec fs' devBank with
      | Ok loaded =>
          map (get (str "memoryBank"))
              (BankManager.entities (BankManager.loadedGraph loaded))
          = [Some (JStr (str "community_wisdom"))] /\
          Some (JStr (str "community_wisdom"))
          <> Some (JStr (BankManager.name devBank))
      | Throw _ => False
      end
  | Throw _ => False
  end.
Proof. vm_compute. split; [reflexivity | discriminate]. Qed.

Lemma C5_witness :
  exists fs',
    BankManager.saveBankGraph JsonText.codec noFiles devBank
      {| BankManager.entities := [authPattern; scoredPattern];
         BankManager.relations := [uses] |} = Ok fs' /\
    BankManager.loadBankGraph JsonText.codec fs' devBank =
    Ok {| BankManager.loadedGraph :=
            {| BankManager.entities :=
                 map (BankManager.tagged "entity" devBank)
                     [authPattern; scoredPattern];
               BankManager.relations :=
                 map (BankManager.tagged "relation" devBank) [uses] |};
          BankManager.warned := [] |}.
Proof.
  destruct (@C5_round_trip JsonText.codec JsonTextFacts.codec_laws noFiles
              devBank
              {| BankManager.entities := [authPattern; scoredPattern];
                 BankManager.relations := [uses] |})
    as (fs' & Hsave & Hload & _).
  - reflexivity.
  - repeat constructor.
  - repeat constructor.
  - exists fs'. split; [exact Hsave | exact Hload].
Defined.

(** C7, as stated, fails: an object that carries the type of a relation
    is written under that type and is not read back among the entities,
    so that the second call stores it again. *)
Lemma C7_counterexample :
  match BankManager.createEntitiesInBank JsonText.codec banks noFiles
          timestamp (str "development_patterns") [mistyped]
  with
  | Ok (stored1, fs1) =>
      match BankManager.createEntitiesInBank JsonText.codec banks fs1
              timestamp (str "development_patterns") [mistyped]
      with
      | Ok (stored2, fs2) =>
          stored2
          = [BankManager.stamped timestamp (str "development_patterns")
               mistyped] /\
          stored2 <> [] /\
          match BankManager.loadBankGraph JsonText.codec fs2 devBank with
          | Ok after =>
              BankManager.entities (BankManager.loadedGraph after) = [] /\
              length (BankManager.relations (BankManager.loadedGraph after))
              = 2%nat
          | Throw _ => False
          end
      | Throw _ => False
      end
  | Throw _ => False
  end.
Proof.
  vm_compute. split; [reflexivity|]. split; [discriminate|].
  split; reflexivity.
Qed.

Lemma C7_witness :
  exists stored fs1 fs2,
    BankManager.createEntitiesInBank JsonText.codec banks noFiles timestamp
      (str "development_patterns") [scoredPattern] = Ok (stored, fs1) /\
    BankManager.createEntitiesInBank JsonText.codec banks fs1 timestamp
      (str "development_patterns") [scoredPattern] = Ok ([], fs2).
Proof.
  destruct (@C7_create_twice JsonText.codec JsonTextFacts.codec_laws
              banks noFiles timestamp timestamp
              (str "development_patterns") devBank scoredPattern)
    as (before & stored & fs1 & fs2 & after1 & after2 & _ & H1 & H2 & _).
  - reflexivity.
  - reflexivity.
  - reflexivity.
  - exists stored, fs1, fs2. split; [exact H1 | exact H2].
Defined.

Lemma C8_witness :
  exists out,
    PatternExtractor.extractPatternsFromSession toISOString toolArrow 0
      marker = Ok out /\
    exists p, In p out /\
              PatternExtractor.type p = PatternExtractor.breakthrough_moment /\
              PatternExtractor.confidence p = 0.95.
Proof.
  destruct (@C8_marker_confidence toISOString toolArrow 0 marker
              [says "Yes that is it, Exactly :P and nothing more"] []
              (str "Yes that is it, Exactly :P and nothing more")
              (str "Exactly :P"))
    as (_ & _ & _ & out & Hout & Hin).
  - reflexivity.
  - reflexivity.
  - vm_compute. now left.
  - reflexivity.
  - reflexivity.
  - exists out. split; [exact Hout|].
    eexists. split; [exact Hin|]. split; reflexivity.
Defined.

Lemma C9_witness :
  exists out,
    UnifiedSearch.searchAllConsciousness JsonText.codec Date_getTime
      toISOString banks oneEntityFiles clock (str "auth") sessionSearch
    = Ok out /\
    length out = 3%nat.
Proof.
  destruct (@C9_ranked_permutation JsonText.codec Date_getTime toISOString
              banks oneEntityFiles clock (str "auth") sessionSearch _ _
              eq_refl eq_refl)
    as (Hout & _).
  eexists. split; [exact Hout|]. reflexivity.
Defined.

Lemma C6_witness :
  BankManager.loadBankGraph JsonText.codec noFiles devBank =
  Ok {| BankManager.loadedGraph :=
          {| BankManager.entities := []; BankManager.relations := [] |};
        BankManager.warned := [] |} /\
  BankManager.loadBankGraph JsonText.codec mixedFiles devBank =
  Ok {| BankManager.loadedGraph :=
          {| BankManager.entities :=
               [BankManager.tagged "entity" devBank scoredPattern];
             BankManager.relations :=
               [BankManager.tagged "relation" devBank uses] |};
        BankManager.warned := [brokenLine] |}.
Proof.
  destruct (C6_load_is_total JsonText.codec noFiles devBank) as (H & _).
  split; [apply H; reflexivity|].
  destruct (C6_load_is_total JsonText.codec mixedFiles devBank)
    as (_ & Hfile & _).
  destruct (Hfile _ eq_refl) as (Hload & _).
  rewrite Hload. vm_compute. reflexivity.
Defined.

Lemma C10_witness :
  includes (toLowerCase (str "Aha")) (str "aha!") = false.
Proof.
  destruct (C10_exclamation_never_fires toISOString marker
              (str "Aha! That helped")) as (H & _).
  destruct (H (str "Aha")) as (Hnever & _).
  - vm_compute. now left.
  - apply Hnever. vm_compute. now left.
Defined.

End Witnesses.

(** ** Objects: what the tags do to a record *)



Lemma spread_head (k1 k2 : jsstring) (src : jobject) :
  k1 <> k2 ->
  forall a b tl,
  exists a' b' tl',
    spread ((k1, a) :: (k2, b) :: tl) src = (k1, a') :: (k2, b') :: tl'.
Proof.
  intros Hne. induction src as [|[k v] src IH]; intros a b tl.
  - now exists a, b, tl.
  - rewrite spread_cons. cbn [set].
    destruct (eqb k k1) eqn:H1.
    + apply eqb_eq in H1. subst k. apply IH.
    + destruct (eqb k k2) eqn:H2.
      * apply eqb_eq in H2. subst k. apply IH.
      * apply IH.
Qed.

(** Tagging a tagged record changes nothing. *)
Lemma tagged_idem t bank r :
  wellFormed (JObj r) = true ->
  BankManager.tagged t bank (BankManager.tagged t bank r)
  = BankManager.tagged t bank r.
Proof.
  intros Hwf.
  pose proof (tagged_wellFormed t bank r Hwf) as Hwf'.
  apply wellFormed_obj in Hwf' as [Hnd _].
  unfold BankManager.tagged at 1.
  destruct (@spread_head (str "type") (str "memoryBank") r
              ltac:(discriminate) (JStr (str t)) (JStr (BankManager.name bank)) [])
    as (a & b & tl & Hshape).
  unfold BankManager.tagged in *. rewrite Hshape in *.
  rewrite !spread_cons.
  replace (set (str "memoryBank") b (set (str "type") a _))
    with [(str "type", a); (str "memoryBank", b)] by reflexivity.
  cbn [map fst] in Hnd.
  inversion Hnd as [|? ? Hty Hnd1]; subst.
  inversion Hnd1 as [|? ? Hmb Hnd2]; subst.
  rewrite spread_disjoint; [reflexivity | exact Hnd2 |].
  intros k Hk [<-|[<-|[]]].
  - apply Hty. now right.
  - now apply Hmb.
Qed.

(** ** The store: what a saved file holds *)

Section StoreOperations.

Import BankManager BankOperations.

Variable JSON : JsonCodec.
Hypothesis laws : JsonLaws JSON.



Lemma save_spec fs bank g :
  writable fs bank = true ->
  exists fs',
    saveBankGraph JSON fs bank g = Ok fs' /\
    savedAs JSON fs' bank g /\
    (forall p, p <> filePath bank -> fs' p = fs p) /\
    writable fs' bank = true.
Proof.
  intros Hw.
  exists (fun p => if eqb p (filePath bank)
                   then Some (File (join [LF] (savedLines JSON bank g)))
                   else fs p).
  split.
  { unfold saveBankGraph, mkdir, writeFile. cbn [bind].
    unfold writable in Hw.
    destruct (fs (filePath bank)) as [[d|c]|];
      [reflexivity|discriminate|reflexivity]. }
  split; [unfold savedAs; now rewrite eqb_refl|].
  split.
  - intros p Hp. apply eqb_neq in Hp. now rewrite Hp.
  - unfold writable. now rewrite eqb_refl.
Qed.

Lemma load_saved fs bank g :
  savedAs JSON fs bank g -> recordsOf g ->
  loadBankGraph JSON fs bank =
  Ok {| loadedGraph := taggedGraph bank g; warned := [] |}.
Proof.
  intros Hfile [Hes Hrs]. unfold savedAs in Hfile.
  rewrite (loadBankGraph_file JSON _ _ Hfile).
  rewrite bankLines_join by now apply savedLines_lines.
  destruct (@savedLines_read JSON laws bank g Hes Hrs) as (-> & -> & ->).
  reflexivity.
Qed.

Lemma savedLines_tagged bank g :
  recordsOf g ->
  savedLines JSON bank (taggedGraph bank g) = savedLines JSON bank g.
Proof.
  intros [Hes Hrs]. unfold savedLines, taggedGraph. cbn [entities relations].
  rewrite !map_map. f_equal; apply map_ext_in; intros r Hr.
  - rewrite Forall_forall in Hes. specialize (Hes r Hr).
    apply isRecord_spec in Hes as [Hwf _]. now rewrite tagged_idem.
  - rewrite Forall_forall in Hrs. specialize (Hrs r Hr).
    apply isRecord_spec in Hrs as [Hwf _]. now rewrite tagged_idem.
Qed.

(** Saving again what was loaded from a saved file writes the same
    file. *)
Lemma resave fs bank g :
  savedAs JSON fs bank g -> recordsOf g ->
  exists fs',
    saveBankGraph JSON fs bank (taggedGraph bank g) = Ok fs' /\
    forall p, fs' p = fs p.
Proof.
  intros Hfile Hrec.
  assert (Hw : writable fs bank = true).
  { unfold writable. unfold savedAs in Hfile. now rewrite Hfile. }
  destruct (save_spec fs bank (taggedGraph bank g) Hw)
    as (fs' & Hsave & Hfile' & Hother & _).
  exists fs'. split; [exact Hsave|]. intros p.
  destruct (eqb p (filePath bank)) eqn:Hp.
  - apply eqb_eq in Hp. subst p. unfold savedAs in *.
    rewrite Hfile', Hfile. now rewrite savedLines_tagged.
  - apply Hother. now apply eqb_neq.
Qed.

Lemma stamped_record t timestamp bankName r :
  isRecord t r = true -> isRecord t (stamped timestamp bankName r) = true.
Proof.
  intros He. pose proof (record_nodup _ _ He) as Hnd.
  apply isRecord_spec in He as [Hwf Ht]. apply isRecord_spec. split.
  - unfold stamped. rewrite spread_nil by exact Hnd.
    apply set_wellFormed; [reflexivity|].
    apply set_wellFormed; [reflexivity | exact Hwf].
  - rewrite stamped_get by exact Hnd. exact Ht.
Qed.

Lemma loaded_recordsOf fs bank loaded :
  loadBankGraph JSON fs bank = Ok loaded -> recordsOf (loadedGraph loaded).
Proof. intros H. exact (loaded_records laws fs bank H). Qed.




Lemma tagged_keeps t bank r k v :
  NoDup (map fst r) -> get k r = Some v -> get k (tagged t bank r) = Some v.
Proof. intros Hnd Hk. rewrite tagged_get by exact Hnd. now rewrite Hk. Qed.



(** X2: for a batch of entities (objects with a string [name] and no
    [type] other than that of an entity), [createEntitiesInBank] called
    again with the same batch stores nothing and writes the bank file
    back unchanged, whatever the batch repeats. *)
Theorem entities_created_once banks fs timestamp1 timestamp2 bankName bank
    incoming :
  banksGet banks bankName = Some bank ->
  writable fs bank = true ->
  Forall (fun e => isEntity e = true) incoming ->
  exists stored fs1 fs2,
    createEntitiesInBank JSON banks fs timestamp1 bankName incoming
      = Ok (stored, fs1) /\
    createEntitiesInBank JSON banks fs1 timestamp2 bankName incoming
      = Ok ([], fs2) /\
    (forall p, fs2 p = fs1 p).
Proof.
  intros Hbank Hw Hin.
  pose proof (entities_are_records Hin) as Hrec.
  destruct (load_writable JSON _ _ Hw) as [before Hload].
  destruct (loaded_records laws _ _ Hload) as [Hes Hrs].
  set (stored := map (stamped timestamp1 bankName)
                     (filter (nameIsNew (loadedGraph before)) incoming)).
  set (g := {| entities := entities (loadedGraph before) ++ stored;
               relations := relations (loadedGraph before) |}).
  assert (Hg : recordsOf g).
  { split; [|exact Hrs]. cbn [entities g]. apply Forall_app. split; [exact Hes|].
    apply Forall_map, Forall_forall. intros e He.
    apply filter_In in He as [He _]. rewrite Forall_forall in Hrec.
    apply stamped_record. now apply Hrec. }
  destruct (save_spec fs bank g Hw) as (fs1 & Hsave & Hfile & _ & Hw1).
  pose proof (load_saved Hfile Hg) as Hload1.
  destruct (resave Hfile Hg) as (fs2 & Hsave2 & Hsame).
  exists stored, fs1, fs2. split; [|split; [|exact Hsame]].
  { unfold createEntitiesInBank, getBank. rewrite Hbank. cbn [bind].
    rewrite Hload. cbn [bind]. fold stored. fold g. now rewrite Hsave. }
  assert (Hnone : filter (nameIsNew (taggedGraph bank g)) incoming = []).
  { apply filter_none. intros e He. rewrite Forall_forall in Hin, Hrec.
    destruct (proj1 (isEntity_spec e) (Hin e He)) as [Her [n Hn]].
    apply (nameIsNew_spec (taggedGraph bank g) e Hn).
    unfold names. cbn [taggedGraph entities g].
    rewrite names_tagged by (destruct Hg as [Hg _]; exact Hg).
    rewrite map_app. apply in_or_app.
    destruct (nameIsNew (loadedGraph before) e) eqn:Hnew.
    - right. unfold stored. rewrite names_stamped.
      + apply in_map, filter_In. now split.
      + apply Forall_forall. intros x Hx. apply filter_In in Hx as [Hx _].
        now apply Hrec.
    - left. now apply (nameIsNew_spec (loadedGraph before) e Hn). }
  unfold createEntitiesInBank, getBank. rewrite Hbank. cbn [bind].
  rewrite Hload1. cbn [bind loadedGraph]. rewrite Hnone. cbn [map].
  rewrite app_nil_r.
  change {| entities := entities (taggedGraph bank g);
            relations := relations (taggedGraph bank g) |}
    with (taggedGraph bank g).
  rewrite Hsave2. reflexivity.
Qed.

(** *** Adding observations *)










(** *** Unknown names *)

(** X4: every operation that takes a bank name throws the same
    "not found" error for a name that is not registered, except
    [getBankInfo], which returns null; [addObservationsToBank] throws
    its own error when the bank holds no entity of the given name, and a
    TypeError when the entity found has no array of observations. *)
Theorem unknown_names banks fs timestamp bankName entityName :
  (banksGet banks bankName = None ->
   forall incoming observations query,
     createEntitiesInBank JSON banks fs timestamp bankName incoming
       = Throw (bankNotFound bankName) /\
     createRelationsInBank JSON banks fs timestamp bankName incoming
       = Throw (bankNotFound bankName) /\
     addObservationsToBank JSON banks fs bankName entityName observations
       = Throw (bankNotFound bankName) /\
     searchBank JSON banks fs bankName query
       = Throw (bankNotFound bankName) /\
     getBankInfo JSON banks fs bankName = Ok None) /\
  (forall bank before observations,
     banksGet banks bankName = Some bank ->
     loadBankGraph JSON fs bank = Ok before ->
     (find (isNamed entityName) (entities (loadedGraph before)) = None ->
      addObservationsToBank JSON banks fs bankName entityName observations
        = Throw (entityNotFound entityName bankName)) /\
     (forall entity,
        find (isNamed entityName) (entities (loadedGraph before))
          = Some entity ->
        (forall items, get (str "observations") entity <> Some (JArr items)) ->
        exists what,
          addObservationsToBank JSON banks fs bankName entityName observations
            = Throw (TypeError what))).
Proof.
  split.
  - intros Hnone incoming observations query.
    unfold createEntitiesInBank, createRelationsInBank, addObservationsToBank,
      searchBank, getBankInfo, getBank.
    rewrite Hnone. cbn [bind]. repeat split.
  - intros bank before observations Hbank Hload.
    unfold addObservationsToBank, getBank. rewrite Hbank. cbn [bind].
    rewrite Hload. cbn [bind]. split.
    + intros ->. reflexivity.
    + intros entity -> Hnot.
      destruct (get (str "observations") entity) as [[| | | |items|]|];
        try (eexists; reflexivity).
      now contradiction (Hnot items).
Qed.

(** *** Listing the banks *)

Lemma writable_load_same fs fs' bank :
  fs' (filePath bank) = fs (filePath bank) ->
  loadBankGraph JSON fs' bank = loadBankGraph JSON fs bank.
Proof. intros H. unfold loadBankGraph, readFile. now rewrite H. Qed.

Lemma listEachBank_row fs (bs : list DeveloperMemoryBank) :
  Forall (fun bank => writable fs bank = true) bs ->
  exists rows,
    listEachBank JSON fs bs = Ok rows /\
    length rows = length bs /\
    forall bank loaded,
      In bank bs -> loadBankGraph JSON fs bank = Ok loaded ->
      In {| summary_name := name bank;
            summary_description := description bank;
            entityCount := length (entities (loadedGraph loaded));
            relationCount := length (relations (loadedGraph loaded)) |} rows.
Proof.
  induction 1 as [|bank bs Hw Hbs (rows & Hrows & Hlen & Hin)].
  - exists []. repeat split. intros bank loaded [].
  - destruct (load_writable JSON _ _ Hw) as [loaded Hload].
    eexists. cbn [listEachBank]. rewrite Hload. cbn [bind].
    rewrite Hrows. cbn [bind]. split; [reflexivity|]. split.
    + cbn [length]. now rewrite Hlen.
    + intros b l [<-|Hb] Hl.
      * rewrite Hload in Hl. injection Hl as <-. now left.
      * right. now apply Hin.
Qed.

Lemma banksGet_In banks bankName bank :
  banksGet banks bankName = Some bank -> In bank (map snd banks).
Proof.
  induction banks as [|[k b] banks IH]; cbn [banksGet]; [discriminate|].
  destruct (eqb bankName k).
  - intros H. injection H as ->. now left.
  - intros H. right. now apply IH.
Qed.

(** X5: after [createEntitiesInBank] has stored a batch of entity
    records (objects with no [type] other than that of an entity) in a
    bank, [listBanks] has one row per registered bank and reports for
    that bank as many entities more as were stored, and as many
    relations as before. *)
Theorem list_counts_created banks fs timestamp bankName bank incoming :
  banksGet banks bankName = Some bank ->
  allWritable fs banks = true ->
  Forall (fun e => isRecord "entity" e = true) incoming ->
  exists before stored fs' rows,
    loadBankGraph JSON fs bank = Ok before /\
    createEntitiesInBank JSON banks fs timestamp bankName incoming
      = Ok (stored, fs') /\
    listBanks JSON banks fs' = Ok rows /\
    length rows = length banks /\
    In {| summary_name := name bank;
          summary_description := description bank;
          entityCount :=
            length (entities (loadedGraph before)) + length stored;
          relationCount := length (relations (loadedGraph before)) |} rows.
Proof.
  intros Hbank Hall Hin.
  pose proof (banksGet_In _ _ Hbank) as Hmember.
  assert (Hws : Forall (fun b => writable fs b = true) (map snd banks)).
  { apply Forall_map, Forall_forall. intros kb Hkb.
    unfold allWritable in Hall. rewrite forallb_forall in Hall.
    now apply Hall. }
  assert (Hw : writable fs bank = true).
  { rewrite Forall_forall in Hws. now apply Hws. }
  destruct (create_spec laws banks fs timestamp bankName Hbank Hw Hin)
    as (before & fs' & Hload & Hcreate & Hw' & Hload' & _).
  cbv zeta in Hcreate, Hload'.
  assert (Hws' : Forall (fun b => writable fs' b = true) (map snd banks)).
  { apply Forall_forall. intros b Hb. rewrite Forall_forall in Hws.
    specialize (Hws b Hb). revert Hcreate.
    unfold createEntitiesInBank, getBank. rewrite Hbank. cbn [bind].
    rewrite Hload. cbn [bind]. unfold saveBankGraph, mkdir, writeFile.
    cbn [bind]. unfold writable in Hw.
    destruct (fs (filePath bank)) as [[d|c]|] eqn:Hfs; try discriminate;
      intros H; injection H as <-; unfold writable;
      (destruct (eqb (filePath b) (filePath bank)); [reflexivity | exact Hws]). }
  destruct (listEachBank_row fs' Hws') as (rows & Hrows & Hlen & Hrow).
  eexists before, _, fs', rows.
  split; [exact Hload|]. split; [exact Hcreate|]. split; [exact Hrows|].
  split; [now rewrite Hlen, length_map|].
  specialize (Hrow bank _ Hmember Hload').
  cbn [loadedGraph entities relations] in Hrow.
  now rewrite !length_map, length_app in Hrow.
Qed.

(** *** Initialising *)

Lemma initializeEachBank_spec (bs : list DeveloperMemoryBank) :
  forall fs,
  Forall (fun bank => writable fs bank = true) bs ->
  exists fs',
    initializeEachBank fs bs = Ok fs' /\
    (forall p, fs' p = fs p \/ (fs p = None /\ fs' p = Some (File []))) /\
    (forall p, In p (map filePath bs) -> exists data, fs' p = Some (File data)).
Proof.
  induction bs as [|bank bs IH]; intros fs Hws.
  - exists fs. split; [reflexivity|]. split; [now left|]. intros p [].
  - inversion Hws as [|? ? Hw Hrest]; subst.
    cbn [initializeEachBank]. unfold mkdir. cbn [bind].
    unfold access, writable in *.
    destruct (fs (filePath bank)) as [[d|c]|] eqn:Hfs; [|discriminate|].
    + cbn [bind]. destruct (IH fs Hrest) as (fs' & Hinit & Hkeep & Hthere).
      exists fs'. split; [exact Hinit|]. split; [exact Hkeep|].
      intros p [<-|Hp]; [|now apply Hthere].
      destruct (Hkeep (filePath bank)) as [Heq|[Hnone _]]; [|congruence].
      exists d. now rewrite Heq.
    + unfold writeFile. rewrite Hfs. cbn [bind].
      set (fs1 := fun p => if eqb p (filePath bank) then Some (File [])
                           else fs p).
      assert (Hrest1 : Forall (fun b => match fs1 (filePath b) with
                                        | Some (Rejects _) => false
                                        | _ => true end = true) bs).
      { eapply Forall_impl; [|exact Hrest]. intros b Hb. unfold fs1.
        now destruct (eqb (filePath b) (filePath bank)). }
      destruct (IH fs1 Hrest1) as (fs' & Hinit & Hkeep & Hthere).
      exists fs'. split; [exact Hinit|]. split.
      * intros p. destruct (Hkeep p) as [Heq|[Hnone Hnew]].
        -- unfold fs1 in Heq. destruct (eqb p (filePath bank)) eqn:Hp.
           ++ apply eqb_eq in Hp. subst p. right. now split.
           ++ now left.
        -- unfold fs1 in Hnone. destruct (eqb p (filePath bank)) eqn:Hp;
             [discriminate|]. right. now split.
      * intros p [<-|Hp]; [|now apply Hthere].
        destruct (Hkeep (filePath bank)) as [Heq|[Hnone _]].
        -- exists []. rewrite Heq. unfold fs1. now rewrite eqb_refl.
        -- unfold fs1 in Hnone. now rewrite eqb_refl in Hnone.
Qed.

Lemma initializeEachBank_again (bs : list DeveloperMemoryBank) fs :
  (forall p, In p (map filePath bs) -> exists data, fs p = Some (File data)) ->
  initializeEachBank fs bs = Ok fs.
Proof.
  induction bs as [|bank bs IH]; intros Hthere; [reflexivity|].
  cbn [initializeEachBank]. unfold mkdir, access. cbn [bind].
  destruct (Hthere (filePath bank)) as [d ->]; [now left|]. cbn [bind].
  apply IH. intros p Hp. apply Hthere. now right.
Qed.

(** X6: [initializeAllBanks] on bank files that can be written gives
    every registered bank a file, creates the missing ones empty and
    leaves every other path as it was, so that every bank loads as it
    did before; run again it changes nothing. *)
Theorem initialize_keeps_banks banks fs :
  allWritable fs banks = true ->
  exists fs',
    initializeAllBanks banks fs = Ok fs' /\
    (forall p, fs' p = fs p \/ (fs p = None /\ fs' p = Some (File []))) /\
    (forall k bank, In (k, bank) banks ->
                    exists data, fs' (filePath bank) = Some (File data)) /\
    (forall bank, loadBankGraph JSON fs' bank = loadBankGraph JSON fs bank) /\
    initializeAllBanks banks fs' = Ok fs'.
Proof.
  intros Hall.
  assert (Hws : Forall (fun b => writable fs b = true) (map snd banks)).
  { apply Forall_map, Forall_forall. intros kb Hkb.
    unfold allWritable in Hall. rewrite forallb_forall in Hall.
    now apply Hall. }
  destruct (initializeEachBank_spec fs Hws) as (fs' & Hinit & Hkeep & Hthere).
  exists fs'. split; [exact Hinit|]. split; [exact Hkeep|]. split.
  { intros k bank Hin. apply Hthere. apply in_map.
    change bank with (snd (k, bank)). now apply in_map. }
  split.
  - intros bank. destruct (Hkeep (filePath bank)) as [Heq|[Hnone Hnew]].
    + now apply writable_load_same.
    + rewrite (loadBankGraph_absent JSON _ _ Hnone).
      rewrite (loadBankGraph_file JSON _ _ Hnew). reflexivity.
  - now apply initializeEachBank_again.
Qed.

End StoreOperations.

(** ** Searching a bank *)

Lemma includes_empty (s : jsstring) : includes s [] = true.
Proof. now destruct s. Qed.

Section SearchFacts.

Import Unified BankManager BankOperations.

Variable JSON : JsonCodec.

Lemma scanObservations_score queryLower (observations : list json) :
  forall acc acc',
  scanObservations queryLower observations acc = Ok acc' ->
  exists c, (0 <= c)%Z /\ fst acc' = (fst acc + 3 * c)%Z.
Proof.
  induction observations as [|o observations IH]; intros acc acc'.
  - cbn [scanObservations]. intros H. injection H as <-. exists 0%Z. lia.
  - cbn [scanObservations].
    destruct (lowered (Some o)) as [lower|err]; cbn [bind]; [|discriminate].
    intros H. apply IH in H as (c & Hc & ->).
    destruct (includes lower queryLower); cbn [fst].
    + exists (c + 1)%Z. lia.
    + exists c. lia.
Qed.

Lemma scanObservations_typed queryLower (observations : list json) :
  forallb isText observations = true ->
  forall acc,
  exists labels,
    scanObservations queryLower observations acc
    = Ok ((fst acc +
           3 * Z.of_nat (length (filter (mentions queryLower) observations)))%Z,
          snd acc ++ labels).
Proof.
  induction observations as [|o observations IH]; intros Htext acc.
  - exists []. cbn [scanObservations filter length]. rewrite app_nil_r.
    destruct acc as [z l]. cbn [fst snd]. f_equal. f_equal. lia.
  - cbn [forallb] in Htext. apply andb_true_iff in Htext as [Ho Hrest].
    destruct o as [| | |s| |]; try discriminate.
    cbn [scanObservations lowered bind filter]. unfold mentions at 1.
    cbn [textOf].
    destruct (includes (toLowerCase s) queryLower).
    + destruct (IH Hrest (fst acc + 3, snd acc ++ [labelled "Observation: " (JStr s)])%Z)
        as [labels ->].
      exists (labelled "Observation: " (JStr s) :: labels).
      cbn [fst snd length]. rewrite <- app_assoc. cbn [app].
      f_equal. f_equal. lia.
    + destruct (IH Hrest acc) as [labels ->]. now exists labels.
Qed.

(** The result [searchBank] builds for an entity. *)
Lemma searchEntity_typed bankName queryLower e :
  isTypedEntity e = true ->
  exists text,
    searchEntity bankName queryLower e =
    Ok (if (0 <? matchScore queryLower e)%Z then
          [ {| source := memory_bank;
               Unified.bankName := Some bankName;
               entityName := get (str "name") e;
               content := text;
               relevanceScore := inject_Z (matchScore queryLower e);
               context :=
                 {| projectId := None;
                    sessionId := None;
                    timestamp := get (str "createdAt") e |} |} ]
        else []).
Proof.
  unfold isTypedEntity. intros Htyped.
  destruct (get (str "name") e) as [[| | |n| |]|] eqn:Hn; try discriminate.
  destruct (get (str "entityType") e) as [[| | |t| |]|] eqn:Ht;
    try discriminate.
  destruct (get (str "observations") e) as [[| | | |items|]|] eqn:Ho;
    try discriminate.
  unfold searchEntity, matchScore, observationsOf.
  rewrite Hn, Ht, Ho. cbn [lowered bind iterate textOf].
  set (a := includes (toLowerCase n) queryLower).
  set (b := includes (toLowerCase t) queryLower).
  set (c := Z.of_nat (length (filter (mentions queryLower) items))).
  destruct a, b;
    match goal with
    | |- context [scanObservations queryLower items ?acc] =>
        destruct (scanObservations_typed queryLower items Htyped acc)
          as [labels ->]
    end;
    cbn [bind fst snd]; fold c; eexists; rewrite ?Z.add_0_l, ?Z.add_0_r;
    match goal with
    | |- context [(0 <? ?x)%Z] => destruct (0 <? x)%Z
    end;
    reflexivity.
Qed.

Lemma lowered_errors v err :
  lowered v = Throw err -> exists what, err = TypeError what.
Proof.
  unfold lowered. destruct v as [[| | |n| |]|]; try discriminate;
    intros H; injection H as <-; eauto.
Qed.

Lemma iterate_errors v err :
  iterate v = Throw err -> exists what, err = TypeError what.
Proof.
  unfold iterate. destruct v as [[| | |n|items|]|]; try discriminate;
    intros H; injection H as <-; eauto.
Qed.

Lemma scanObservations_errors queryLower (observations : list json) err :
  forall acc,
  scanObservations queryLower observations acc = Throw err ->
  exists what, err = TypeError what.
Proof.
  induction observations as [|o observations IH]; intros acc;
    cbn [scanObservations]; [discriminate|].
  destruct (lowered (Some o)) as [lower|e1] eqn:H1; cbn [bind].
  - apply IH.
  - intros H. injection H as <-. exact (lowered_errors _ H1).
Qed.

Ltac run_binds := repeat (progress (cbv beta iota zeta; cbn [bind])).

(** A search throws nothing but TypeErrors. *)
Lemma searchEntity_errors bankName queryLower e err :
  searchEntity bankName queryLower e = Throw err ->
  exists what, err = TypeError what.
Proof.
  unfold searchEntity.
  destruct (lowered (get (str "name") e)) as [nameLower|e1] eqn:H1;
    cbn [bind].
  2:{ intros H. injection H as <-. exact (lowered_errors _ H1). }
  destruct (lowered (get (str "entityType") e)) as [typeLower|e2] eqn:H2.
  2:{ destruct (includes nameLower queryLower); run_binds;
        intros H; injection H as <-; exact (lowered_errors _ H2). }
  destruct (iterate (get (str "observations") e)) as [obs|e3] eqn:H3.
  2:{ destruct (includes nameLower queryLower); run_binds;
        destruct (includes typeLower queryLower); run_binds;
        intros H; injection H as <-; exact (iterate_errors _ H3). }
  destruct (includes nameLower queryLower); run_binds;
    destruct (includes typeLower queryLower); run_binds;
    match goal with
    | |- context [scanObservations queryLower obs ?acc] =>
        destruct (scanObservations queryLower obs acc) as [[z l]|e4] eqn:H4
    end; run_binds;
    try (destruct (0 <? z)%Z; discriminate);
    intros H; injection H as <-;
    exact (scanObservations_errors _ _ _ H4).
Qed.

Lemma searchEntity_name bankName queryLower e :
  (forall n, get (str "name") e <> Some (JStr n)) ->
  exists what, searchEntity bankName queryLower e = Throw (TypeError what).
Proof.
  intros Hn. unfold searchEntity.
  destruct (get (str "name") e) as [[| | |n| |]|];
    try (eexists; reflexivity).
  now contradiction (Hn n).
Qed.

(** What a result of a successful search looks like. *)
Lemma searchEntity_shape bankName queryLower e results :
  searchEntity bankName queryLower e = Ok results ->
  Forall (fun r =>
            source r = memory_bank /\
            Unified.bankName r = Some bankName /\
            entityName r = get (str "name") e /\
            exists z, (3 <= z)%Z /\ relevanceScore r = inject_Z z) results.
Proof.
  unfold searchEntity.
  destruct (lowered (get (str "name") e)) as [nameLower|e1];
    run_binds; [|discriminate].
  destruct (lowered (get (str "entityType") e)) as [typeLower|e2].
  2:{ destruct (includes nameLower queryLower); (run_binds; discriminate). }
  destruct (iterate (get (str "observations") e)) as [obs|e3].
  2:{ destruct (includes nameLower queryLower); run_binds;
        destruct (includes typeLower queryLower); run_binds; discriminate. }
  destruct (includes nameLower queryLower); run_binds;
    destruct (includes typeLower queryLower); run_binds;
    match goal with
    | |- context [scanObservations queryLower obs ?acc] =>
        destruct (scanObservations queryLower obs acc) as [[z l]|e4] eqn:H4
    end; run_binds; try discriminate;
    apply scanObservations_score in H4 as (c & Hc & Hz); cbn [fst] in Hz;
    (destruct (0 <? z)%Z eqn:Hpos; intros H; injection H as <-;
     [|constructor]);
    apply Z.ltb_lt in Hpos;
    (constructor; [|constructor]);
    cbn [source Unified.bankName entityName relevanceScore];
    repeat split; exists z; (split; [lia | reflexivity]).
Qed.

Lemma searchEntities_shape bankName queryLower (es : list jobject) :
  forall results,
  searchEntities bankName queryLower es = Ok results ->
  Forall (fun r =>
            source r = memory_bank /\
            Unified.bankName r = Some bankName /\
            (exists e, In e es /\ entityName r = get (str "name") e) /\
            exists z, (3 <= z)%Z /\ relevanceScore r = inject_Z z) results.
Proof.
  induction es as [|e es IH]; intros results; cbn [searchEntities].
  - intros H. injection H as <-. constructor.
  - destruct (searchEntity bankName queryLower e) as [found|err] eqn:Hfound;
      cbn [bind]; [|discriminate].
    destruct (searchEntities bankName queryLower es) as [more|err];
      cbn [bind]; [|discriminate].
    intros H. injection H as <-. apply Forall_app. split.
    + apply searchEntity_shape in Hfound.
      eapply Forall_impl; [|exact Hfound].
      intros r (Hs & Hb & Hn & Hz). repeat split; try assumption.
      exists e. split; [now left | exact Hn].
    + eapply Forall_impl; [|exact (IH more eq_refl)].
      intros r (Hs & Hb & (x & Hx & Hn) & Hz). repeat split; try assumption.
      exists x. split; [now right | exact Hn].
Qed.

Lemma searchEntities_errors bankName queryLower (es : list jobject) e :
  In e es ->
  (forall n, get (str "name") e <> Some (JStr n)) ->
  exists what, searchEntities bankName queryLower es = Throw (TypeError what).
Proof.
  intros Hin Hn. induction es as [|x es IH]; [contradiction|].
  cbn [searchEntities].
  destruct (searchEntity bankName queryLower x) as [found|err] eqn:Hfound.
  - cbn [bind]. destruct Hin as [->|Hin].
    + destruct (@searchEntity_name bankName queryLower _ Hn) as [what Hw].
      congruence.
    + destruct (IH Hin) as [what ->]. cbn [bind]. eauto.
  - cbn [bind]. destruct (searchEntity_errors _ _ _ Hfound) as [what ->].
    eauto.
Qed.

(** The pairs of name and score of the entities that score. *)
Lemma searchEntities_typed bankName queryLower (es : list jobject) :
  Forall (fun e => isTypedEntity e = true) es ->
  exists results,
    searchEntities bankName queryLower es = Ok results /\
    map (fun r => (entityName r, relevanceScore r)) results
    = map (fun e => (get (str "name") e,
                     inject_Z (matchScore queryLower e)))
          (filter (fun e => (0 <? matchScore queryLower e)%Z) es).
Proof.
  induction 1 as [|e es He Hes (more & Hmore & Hpairs)].
  - exists []. now split.
  - destruct (searchEntity_typed bankName queryLower e He) as [text Hfound].
    cbn [searchEntities filter]. rewrite Hfound, Hmore. cbn [bind].
    eexists. split; [reflexivity|].
    destruct (0 <? matchScore queryLower e)%Z; cbn [app map];
      now rewrite Hpairs.
Qed.

Lemma sorted_by_relevance (results : list UnifiedConsciousnessResult) :
  StronglySorted (fun a b => relevanceScore b <= relevanceScore a)
                 (sort byRelevanceDesc results).
Proof. exact (sort_sorted relevanceScore results). Qed.

Lemma searchBank_shape banks fs bankName query results :
  searchBank JSON banks fs bankName query = Ok results ->
  Forall (fun r =>
            source r = memory_bank /\
            Unified.bankName r = Some bankName /\
            exists z, (3 <= z)%Z /\ relevanceScore r = inject_Z z) results.
Proof.
  unfold searchBank, getBank.
  destruct (banksGet banks bankName) as [bank|]; cbn [bind]; [|discriminate].
  destruct (loadBankGraph JSON fs bank) as [loaded|err]; cbn [bind];
    [|discriminate].
  destruct (searchEntities bankName (toLowerCase query)
              (entities (loadedGraph loaded))) as [found|err] eqn:Hfound;
    cbn [bind]; [|discriminate].
  intros H. injection H as <-.
  eapply Permutation_Forall; [apply sort_perm|].
  eapply Forall_impl; [|exact (searchEntities_shape _ _ _ Hfound)].
  intros r (Hs & Hb & _ & Hz). now repeat split.
Qed.

Lemma searchBank_sorted banks fs bankName query results :
  searchBank JSON banks fs bankName query = Ok results ->
  StronglySorted (fun a b => relevanceScore b <= relevanceScore a) results.
Proof.
  unfold searchBank, getBank.
  destruct (banksGet banks bankName) as [bank|]; cbn [bind]; [|discriminate].
  destruct (loadBankGraph JSON fs bank) as [loaded|err]; cbn [bind];
    [|discriminate].
  destruct (searchEntities bankName (toLowerCase query)
              (entities (loadedGraph loaded))) as [found|err];
    cbn [bind]; [|discriminate].
  intros H. injection H as <-. apply sorted_by_relevance.
Qed.

(** The names and scores [searchBank] returns for typed entities. *)
Lemma searchBank_pairs banks fs bankName bank query loaded :
  banksGet banks bankName = Some bank ->
  loadBankGraph JSON fs bank = Ok loaded ->
  Forall (fun e => isTypedEntity e = true) (entities (loadedGraph loaded)) ->
  exists results,
    searchBank JSON banks fs bankName query = Ok results /\
    Permutation
      (map (fun r => (entityName r, relevanceScore r)) results)
      (map (fun e => (get (str "name") e,
                      inject_Z (matchScore (toLowerCase query) e)))
           (filter (fun e => (0 <? matchScore (toLowerCase query) e)%Z)
                   (entities (loadedGraph loaded)))).
Proof.
  intros Hbank Hload Htyped.
  destruct (searchEntities_typed bankName (toLowerCase query) Htyped)
    as (found & Hfound & Hpairs).
  exists (sort byRelevanceDesc found).
  split.
  { unfold searchBank, getBank. rewrite Hbank. cbn [bind].
    rewrite Hload. cbn [bind]. rewrite Hfound. reflexivity. }
  rewrite <- Hpairs. apply Permutation_map, Permutation_sym, sort_perm.
Qed.

(** X7: on a bank whose stored entities are typed as [Entity],
    [searchBank] returns exactly the entities with a positive score,
    each once, the best first; the score is 10 for a name that contains
    the lower-cased query, plus 5 for such an entity type, plus 3 for
    every such observation. *)
Theorem search_scores banks fs bankName bank query loaded :
  banksGet banks bankName = Some bank ->
  loadBankGraph JSON fs bank = Ok loaded ->
  Forall (fun e => isTypedEntity e = true) (entities (loadedGraph loaded)) ->
  exists results,
    searchBank JSON banks fs bankName query = Ok results /\
    Permutation
      (map (fun r => (entityName r, relevanceScore r)) results)
      (map (fun e => (get (str "name") e,
                      inject_Z (matchScore (toLowerCase query) e)))
           (filter (fun e => (0 <? matchScore (toLowerCase query) e)%Z)
                   (entities (loadedGraph loaded)))) /\
    StronglySorted (fun a b => relevanceScore b <= relevanceScore a) results /\
    Forall (fun r => source r = memory_bank /\
                     Unified.bankName r = Some bankName) results.
Proof.
  intros Hbank Hload Htyped.
  destruct (@searchBank_pairs banks fs bankName bank query loaded
              Hbank Hload Htyped) as (results & Hsearch & Hperm).
  exists results. split; [exact Hsearch|]. split; [exact Hperm|].
  split; [exact (searchBank_sorted _ _ _ _ Hsearch)|].
  eapply Forall_impl; [|exact (searchBank_shape _ _ _ _ Hsearch)].
  intros r (Hs & Hb & _). now split.
Qed.

Lemma matchScore_empty e :
  (matchScore [] e
   = 15 + 3 * Z.of_nat (length (observationsOf e)))%Z.
Proof.
  unfold matchScore. rewrite !includes_empty.
  replace (filter (mentions []) (observationsOf e)) with (observationsOf e).
  - lia.
  - symmetry. apply forallb_filter_id. apply forallb_forall. intros v _.
    apply includes_empty.
Qed.

(** X8: the empty query matches everything: [searchBank] returns one
    result for every entity of the bank, each with a score of 15 plus 3
    for every observation. *)
Theorem empty_query_lists_all banks fs bankName bank loaded :
  banksGet banks bankName = Some bank ->
  loadBankGraph JSON fs bank = Ok loaded ->
  Forall (fun e => isTypedEntity e = true) (entities (loadedGraph loaded)) ->
  exists results,
    searchBank JSON banks fs bankName [] = Ok results /\
    length results = length (entities (loadedGraph loaded)) /\
    Permutation
      (map (fun r => (entityName r, relevanceScore r)) results)
      (map (fun e => (get (str "name") e,
                      inject_Z (15 + 3 * Z.of_nat (length (observationsOf e)))))
           (entities (loadedGraph loaded))).
Proof.
  intros Hbank Hload Htyped.
  destruct (@searchBank_pairs banks fs bankName bank [] loaded
              Hbank Hload Htyped) as (results & Hsearch & Hperm).
  change (toLowerCase []) with (@nil ascii) in Hperm.
  replace (filter _ (entities (loadedGraph loaded)))
    with (entities (loadedGraph loaded)) in Hperm.
  2:{ symmetry. apply forallb_filter_id. apply forallb_forall. intros e _.
      rewrite matchScore_empty. apply Z.ltb_lt. lia. }
  rewrite (map_ext _ (fun e => (get (str "name") e,
             inject_Z (15 + 3 * Z.of_nat (length (observationsOf e))))))
    in Hperm by (intros e; now rewrite matchScore_empty).
  exists results. split; [exact Hsearch|]. split; [|exact Hperm].
  apply Permutation_length in Hperm. now rewrite !length_map in Hperm.
Qed.

(** X9: an entity that [loadBankGraph] accepts but whose [name] is not a
    string makes every search of its bank throw a TypeError, and with it
    the search of all banks. *)
Theorem nameless_entity_breaks_search banks fs bankName bank loaded e query :
  banksGet banks bankName = Some bank ->
  loadBankGraph JSON fs bank = Ok loaded ->
  In e (entities (loadedGraph loaded)) ->
  (forall n, get (str "name") e <> Some (JStr n)) ->
  (exists what,
     searchBank JSON banks fs bankName query = Throw (TypeError what)) /\
  exists err, searchAllBanks JSON banks fs query = Throw err.
Proof.
  intros Hbank Hload He Hn.
  assert (Hsearch : exists what,
             searchBank JSON banks fs bankName query = Throw (TypeError what)).
  { destruct (searchEntities_errors bankName (toLowerCase query) _ _ He Hn)
      as [what Hthrow].
    exists what. unfold searchBank, getBank. rewrite Hbank. cbn [bind].
    rewrite Hload. cbn [bind]. now rewrite Hthrow. }
  split; [exact Hsearch|]. destruct Hsearch as [what Hsearch].
  assert (Hkey : In bankName (map fst banks)).
  { clear - Hbank. induction banks as [|[k b] banks IH]; [discriminate|].
    cbn [banksGet] in Hbank. destruct (eqb bankName k) eqn:Hk.
    - apply eqb_eq in Hk. subst. now left.
    - right. now apply IH. }
  unfold searchAllBanks.
  assert (Heach : forall keys, In bankName keys ->
            exists err, searchEachBank JSON banks fs keys query = Throw err).
  { induction keys as [|k keys IH]; [contradiction|].
    intros Hin. cbn [searchEachBank].
    destruct (searchBank JSON banks fs k query) as [rs|err] eqn:Hk;
      cbn [bind]; [|eauto].
    destruct Hin as [->|Hin]; [congruence|].
    destruct (IH Hin) as [err ->]. cbn [bind]. eauto. }
  destruct (Heach _ Hkey) as [err ->]. cbn [bind]. eauto.
Qed.

Lemma searchEachBank_shape banks fs query (keys : list jsstring) :
  forall results,
  searchEachBank JSON banks fs keys query = Ok results ->
  Forall (fun r =>
            source r = memory_bank /\
            (exists k, In k keys /\ Unified.bankName r = Some k) /\
            exists z, (3 <= z)%Z /\ relevanceScore r = inject_Z z) results /\
  forall k rs, In k keys -> searchBank JSON banks fs k query = Ok rs ->
               incl rs results.
Proof.
  induction keys as [|k keys IH]; intros results; cbn [searchEachBank].
  - intros H. injection H as <-. split; [constructor | intros k rs []].
  - destruct (searchBank JSON banks fs k query) as [bankResults|err] eqn:Hk;
      cbn [bind]; [|discriminate].
    destruct (searchEachBank JSON banks fs keys query) as [more|err];
      cbn [bind]; [|discriminate].
    intros H. injection H as <-. destruct (IH more eq_refl) as [Hshape Hincl].
    split.
    + apply Forall_app. split.
      * eapply Forall_impl; [|exact (searchBank_shape _ _ _ _ Hk)].
        intros r (Hs & Hb & Hz). repeat split; try assumption.
        exists k. split; [now left | exact Hb].
      * eapply Forall_impl; [|exact Hshape].
        intros r (Hs & (x & Hx & Hb) & Hz). repeat split; try assumption.
        exists x. split; [now right | exact Hb].
    + intros x rs [<-|Hx] Hrs r Hr.
      * rewrite Hk in Hrs. injection Hrs as <-. apply in_or_app. now left.
      * apply in_or_app. right. exact (Hincl x rs Hx Hrs r Hr).
Qed.

(** X10: what [searchAllBanks] returns is sorted by descending score and
    holds every result of every bank; each result is a memory-bank
    result that names a registered bank and carries an integer score of
    at least 3. *)
Theorem all_banks_results banks fs query results :
  searchAllBanks JSON banks fs query = Ok results ->
  StronglySorted (fun a b => relevanceScore b <= relevanceScore a) results /\
  Forall (fun r =>
            source r = memory_bank /\
            (exists k, In k (map fst banks) /\ Unified.bankName r = Some k) /\
            exists z, (3 <= z)%Z /\ relevanceScore r = inject_Z z) results /\
  (forall k rs, In k (map fst banks) ->
                searchBank JSON banks fs k query = Ok rs ->
                incl rs results).
Proof.
  unfold searchAllBanks.
  destruct (searchEachBank JSON banks fs (map fst banks) query)
    as [allResults|err] eqn:Hall; cbn [bind]; [|discriminate].
  intros H. injection H as <-.
  destruct (searchEachBank_shape _ _ _ _ Hall) as [Hshape Hincl].
  split; [apply sorted_by_relevance|]. split.
  - eapply Permutation_Forall; [apply sort_perm | exact Hshape].
  - intros k rs Hk Hrs r Hr.
    eapply Permutation_in; [apply sort_perm|]. exact (Hincl k rs Hk Hrs r Hr).
Qed.

End SearchFacts.

Section SearchAfterCreate.

Import Unified BankManager BankOperations.

Variable JSON : JsonCodec.
Hypothesis laws : JsonLaws JSON.

Lemma typed_tagged bank e :
  isRecord "entity" e = true -> isTypedEntity e = true ->
  isTypedEntity (tagged "entity" bank e) = true.
Proof.
  intros Hrec. pose proof (record_nodup _ _ Hrec) as Hnd.
  unfold isTypedEntity.
  destruct (get (str "name") e) as [vn|] eqn:Hn; [|discriminate].
  destruct (get (str "entityType") e) as [vt|] eqn:Ht;
    [|destruct vn; discriminate].
  destruct (get (str "observations") e) as [vo|] eqn:Ho;
    [|destruct vn, vt; discriminate].
  now rewrite (tagged_keeps _ _ _ _ Hnd Hn), (tagged_keeps _ _ _ _ Hnd Ht),
    (tagged_keeps _ _ _ _ Hnd Ho).
Qed.

Lemma typed_stamped timestamp bankName e :
  isRecord "entity" e = true -> isTypedEntity e = true ->
  isTypedEntity (stamped timestamp bankName e) = true.
Proof.
  intros Hrec. pose proof (record_nodup _ _ Hrec) as Hnd.
  unfold isTypedEntity. now rewrite !stamped_get by exact Hnd.
Qed.

Lemma includes_refl (s : jsstring) : includes s s = true.
Proof. apply includes_spec. exists [], []. now rewrite app_nil_r. Qed.

(** X11: what [createEntitiesInBank] was given can be found: after the
    call, [searchBank] with the name of an entity of the batch, in any
    letter case, returns a result that carries this name, with a score
    of at least 10. *)
Theorem created_is_found banks fs timestamp bankName bank before incoming e n
    query :
  banksGet banks bankName = Some bank ->
  writable fs bank = true ->
  loadBankGraph JSON fs bank = Ok before ->
  Forall (fun x => isTypedEntity x = true) (entities (loadedGraph before)) ->
  Forall (fun x => isEntity x = true /\ isTypedEntity x = true) incoming ->
  In e incoming ->
  get (str "name") e = Some (JStr n) ->
  toLowerCase query = toLowerCase n ->
  exists stored fs' results r,
    createEntitiesInBank JSON banks fs timestamp bankName incoming
      = Ok (stored, fs') /\
    searchBank JSON banks fs' bankName query = Ok results /\
    In r results /\
    entityName r = Some (JStr n) /\
    10 <= relevanceScore r.
Proof.
  intros Hbank Hw Hload Hbefore Hin He Hn Hquery.
  assert (Hrec : Forall (fun x => isRecord "entity" x = true) incoming).
  { eapply Forall_impl; [|exact Hin]. intros x [Hx _].
    now apply isEntity_spec in Hx. }
  destruct (create_spec laws banks fs timestamp bankName Hbank Hw Hrec)
    as (before' & fs' & Hload0 & Hcreate & _ & Hload' & _).
  rewrite Hload in Hload0. injection Hload0 as <-.
  cbv zeta in Hcreate, Hload'.
  set (stored := map (stamped timestamp bankName)
                     (filter (nameIsNew (loadedGraph before)) incoming)) in *.
  destruct (loaded_records laws _ _ Hload) as [Hes _].
  assert (Hstored : Forall (fun x => isRecord "entity" x = true /\
                                     isTypedEntity x = true) stored).
  { apply Forall_map, Forall_forall. intros x Hx.
    apply filter_In in Hx as [Hx _]. rewrite Forall_forall in Hin, Hrec.
    split; [apply stamped_record | apply typed_stamped]; try apply Hrec;
      try apply Hin; exact Hx. }
  assert (Hall : Forall (fun x => isRecord "entity" x = true /\
                                  isTypedEntity x = true)
                        (entities (loadedGraph before) ++ stored)).
  { apply Forall_app. split; [|exact Hstored].
    rewrite Forall_forall in *. intros x Hx. split; auto. }
  assert (Htyped : Forall (fun x => isTypedEntity x = true)
                     (map (tagged "entity" bank)
                          (entities (loadedGraph before) ++ stored))).
  { apply Forall_map. eapply Forall_impl; [|exact Hall].
    intros x [Hx1 Hx2]. now apply typed_tagged. }
  destruct (@searchBank_pairs JSON banks fs' bankName bank query _
              Hbank Hload' Htyped)
    as (results & Hsearch & Hperm).
  cbn [loadedGraph entities] in Hperm.
  (* an entity of the name is stored *)
  assert (Hthere : exists y,
             In y (entities (loadedGraph before) ++ stored) /\
             get (str "name") y = Some (JStr n)).
  { destruct (nameIsNew (loadedGraph before) e) eqn:Hnew.
    - exists (stamped timestamp bankName e). split.
      + apply in_or_app. right. apply in_map, filter_In. now split.
      + rewrite stamped_name; [exact Hn|].
        rewrite Forall_forall in Hrec. exact (record_nodup _ _ (Hrec e He)).
    - apply (nameIsNew_spec (loadedGraph before) e Hn) in Hnew.
      unfold names in Hnew. apply in_map_iff in Hnew as (y & Hy & Hyin).
      exists y. split; [apply in_or_app; now left | congruence]. }
  destruct Hthere as (y & Hy & Hyn).
  rewrite Forall_forall in Hall. destruct (Hall y Hy) as [Hyrec Hytyped].
  set (y' := tagged "entity" bank y).
  assert (Hyn' : get (str "name") y' = Some (JStr n)).
  { unfold y'. rewrite tagged_name; [exact Hyn | exact (record_nodup _ _ Hyrec)]. }
  assert (Hscore : (10 <= matchScore (toLowerCase query) y')%Z).
  { unfold matchScore. rewrite Hyn'. cbn [textOf]. rewrite Hquery.
    rewrite includes_refl.
    destruct (includes _ _); lia. }
  assert (Hpair : In (Some (JStr n),
                      inject_Z (matchScore (toLowerCase query) y'))
                     (map (fun r => (entityName r, relevanceScore r)) results)).
  { eapply Permutation_in; [apply Permutation_sym; exact Hperm|].
    rewrite <- Hyn'.
    apply (in_map (fun e0 => (get (str "name") e0,
                              inject_Z (matchScore (toLowerCase query) e0)))).
    apply filter_In. split.
    - unfold y'. now apply in_map.
    - apply Z.ltb_lt. lia. }
  apply in_map_iff in Hpair as (r & Hr & Hrin).
  injection Hr as Hname Hrel.
  exists stored, fs', results, r.
  split; [exact Hcreate|]. split; [exact Hsearch|]. split; [exact Hrin|].
  split; [exact Hname|].
  rewrite Hrel. change 10 with (inject_Z 10). now rewrite <- Zle_Qle.
Qed.

End SearchAfterCreate.

(** ** Pieces of a string *)

Lemma splitRuns_head (sep : ascii -> bool) (s piece : jsstring)
    (rest : list jsstring) :
  splitRuns sep false s = piece :: rest -> exists tail, s = piece ++ tail.
Proof.
  revert piece rest. induction s as [|c s IH]; intros piece rest.
  - cbn [splitRuns]. intros H. injection H as <- <-. now exists [].
  - cbn [splitRuns]. destruct (sep c).
    + intros H. injection H as <- <-. now exists (c :: s).
    + destruct (splitRuns sep false s) as [|piece0 rest0] eqn:Hs.
      * intros H. injection H as <- <-. now exists s.
      * intros H. injection H as <- <-.
        destruct (IH _ _ eq_refl) as [tail ->]. now exists tail.
Qed.

(** Every piece of a split is a part of the string. *)
Lemma splitRuns_part (sep : ascii -> bool) (s : jsstring) :
  forall inRun piece,
  In piece (splitRuns sep inRun s) -> includes s piece = true.
Proof.
  induction s as [|c s IH]; intros inRun piece.
  - cbn [splitRuns]. intros [<-|[]]. reflexivity.
  - cbn [splitRuns]. destruct (sep c).
    + intros Hin.
      assert (Hcase : piece = [] \/ In piece (splitRuns sep true s)).
      { destruct inRun; [now right|]. destruct Hin as [<-|Hin]; auto. }
      destruct Hcase as [->|Hin']; [apply includes_empty|].
      apply includes_spec. apply IH in Hin'.
      apply includes_spec in Hin' as (a & b & ->). now exists (c :: a), b.
    + destruct (splitRuns sep false s) as [|piece0 rest0] eqn:Hs.
      * intros [<-|[]]. apply includes_spec. now exists [], s.
      * intros [<-|Hin].
        -- destruct (splitRuns_head _ _ Hs) as [tail ->].
           apply includes_spec. now exists [], tail.
        -- assert (Hin' : In piece (splitRuns sep false s))
             by (rewrite Hs; now right).
           apply IH in Hin'. apply includes_spec in Hin' as (a & b & ->).
           apply includes_spec. now exists (c :: a), b.
Qed.

Lemma trimStart_suffix (s : jsstring) : exists a, s = a ++ trimStart s.
Proof.
  induction s as [|c s [a IH]]; [now exists []|].
  cbn [trimStart]. destruct (isWhiteSpace c).
  - exists (c :: a). cbn [app]. now rewrite <- IH.
  - now exists [].
Qed.

Lemma trimEnd_prefix (s : jsstring) : exists b, s = trimEnd s ++ b.
Proof.
  unfold trimEnd. destruct (trimStart_suffix (rev s)) as [a Ha].
  exists (rev a). rewrite <- rev_app_distr, <- Ha. now rewrite rev_involutive.
Qed.

Lemma trim_part (s : jsstring) : includes s (trim s) = true.
Proof.
  apply includes_spec. unfold trim.
  destruct (trimStart_suffix s) as [a Ha].
  destruct (trimEnd_prefix (trimStart s)) as [b Hb].
  exists a, b. now rewrite <- Hb.
Qed.

Lemma includes_trans (s t u : jsstring) :
  includes s t = true -> includes t u = true -> includes s u = true.
Proof.
  intros Hst Htu. apply includes_spec in Hst as (a & b & ->).
  apply includes_spec in Htu as (c & d & ->). apply includes_spec.
  exists (a ++ c), (d ++ b). now rewrite <- !app_assoc.
Qed.

Lemma trimStart_idem (s : jsstring) : trimStart (trimStart s) = trimStart s.
Proof.
  induction s as [|c s IH]; [reflexivity|].
  cbn [trimStart]. destruct (isWhiteSpace c) eqn:Hc; [exact IH|].
  cbn [trimStart]. now rewrite Hc.
Qed.

Lemma trimStart_last (l : jsstring) (c : ascii) :
  isWhiteSpace c = false -> trimStart (l ++ [c]) = trimStart l ++ [c].
Proof.
  intros Hc. induction l as [|x l IH]; cbn [app trimStart].
  - now rewrite Hc.
  - destruct (isWhiteSpace x); [exact IH | reflexivity].
Qed.

Lemma trimStart_solid (s : jsstring) :
  match s with c :: _ => isWhiteSpace c = false | [] => True end ->
  trimStart s = s.
Proof. destruct s as [|c s]; [reflexivity|]. cbn [trimStart]. now intros ->. Qed.

Lemma trimStart_starts (s : jsstring) :
  match trimStart s with c :: _ => isWhiteSpace c = false | [] => True end.
Proof.
  induction s as [|c s IH]; [exact I|].
  cbn [trimStart]. destruct (isWhiteSpace c) eqn:Hc; [exact IH | exact Hc].
Qed.

Lemma trim_idem (s : jsstring) : trim (trim s) = trim s.
Proof.
  unfold trim.
  assert (Hstart : trimStart (trimEnd (trimStart s)) = trimEnd (trimStart s)).
  { pose proof (trimStart_starts s) as Hs.
    destruct (trimStart s) as [|c t]; [reflexivity|].
    apply trimStart_solid. unfold trimEnd. cbn [rev].
    rewrite trimStart_last by exact Hs. now rewrite rev_app_distr. }
  rewrite Hstart. unfold trimEnd. rewrite rev_involutive.
  now rewrite trimStart_idem.
Qed.

(** ** The confidence gate on the other rules *)

Section ExtractorRules.

Import PatternExtractor.

Variable toISOString : Z -> jsstring.
Variable toolArrow : jsstring.

Let extract := extractPatternsFromSession toISOString toolArrow.

Lemma ratio_above_half (k d : nat) :
  (0 < d)%nat -> (0.5 < ratio k d <-> (d < 2 * k)%nat).
Proof.
  intros Hd. unfold ratio, Qlt, Qdiv, Qmult, Qinv. cbn [Qnum Qden inject_Z].
  destruct d as [|d]; [lia|].
  rewrite Nat2Z.inj_succ. unfold Z.succ.
  destruct (Z.of_nat d + 1)%Z eqn:Hz; try lia.
  cbn [Qnum Qden]. lia.
Qed.

Lemma highConfidence_spec p : highConfidence p = true <-> 0.5 < confidence p.
Proof.
  unfold highConfidence. destruct (Qlt_le_dec 0.5 (confidence p)) as [H|H].
  - tauto.
  - split; [discriminate|]. intros H'. exfalso. exact (Qlt_not_le _ _ H' H).
Qed.

Lemma collaborationIndicators_solid :
  forallb solid collaborationIndicators = true.
Proof. reflexivity. Qed.

Lemma solutionKeywords_solid : forallb solid solutionKeywords = true.
Proof. reflexivity. Qed.

(** The patterns of a session with both lists: the four passes, gated. *)
Lemma result_spec now session msgs calls :
  messages session = Some msgs -> toolCalls session = Some calls ->
  let text := combinedContent msgs in
  exists out,
    extract now session = Ok out /\
    forall p,
      In p out <->
      highConfidence p = true /\
      (In p (extractTechnicalInsights toISOString session text) \/
       In p (extractBreakthroughMoments toISOString session text) \/
       In p (extractCollaborationPatterns toISOString session text) \/
       In p (toolUsagePatterns toISOString toolArrow now calls) \/
       In p (flat_map (solutionOf toISOString session) (sentences 20 text))).
Proof.
  intros Hm Hc text.
  pose proof (extract_present toISOString toolArrow now session Hm Hc)
    as Hout.
  cbv zeta in Hout. fold extract in Hout. fold text in Hout.
  eexists. split; [exact Hout|].
  intros p. rewrite filter_In, !in_app_iff. tauto.
Qed.

Lemma collaboration_origin session text p :
  In p (extractCollaborationPatterns toISOString session text) ->
  exists sentence,
    In sentence (sentences 15 text) /\
    collaborationOf toISOString session sentence = [p] /\
    (1 <= countMatches collaborationIndicators (toLowerCase sentence))%nat /\
    content p = trim sentence /\
    confidence p =
      Qmin (ratio (countMatches collaborationIndicators (toLowerCase sentence))
                  3) 0.8.
Proof.
  unfold extractCollaborationPatterns. intros Hp.
  apply in_flat_map in Hp as (sentence & Hs & Hp).
  exists sentence. split; [exact Hs|].
  unfold collaborationOf in *.
  destruct (1 <=? countMatches collaborationIndicators (toLowerCase sentence))%nat
    eqn:Hk; [|contradiction].
  destruct Hp as [<-|[]]. apply Nat.leb_le in Hk.
  repeat split; try reflexivity. exact Hk.
Qed.

Lemma solution_origin session text p :
  In p (flat_map (solutionOf toISOString session) (sentences 20 text)) ->
  exists sentence,
    In sentence (sentences 20 text) /\
    solutionOf toISOString session sentence = [p] /\
    (1 <= countMatches solutionKeywords (toLowerCase sentence))%nat /\
    content p = trim sentence /\
    sessionId (extractedFrom p) = session_id session /\
    confidence p =
      Qmin (ratio (countMatches solutionKeywords (toLowerCase sentence)) 2)
           0.7.
Proof.
  intros Hp. apply in_flat_map in Hp as (sentence & Hs & Hp).
  exists sentence. split; [exact Hs|].
  unfold solutionOf in *.
  destruct (1 <=? countMatches solutionKeywords (toLowerCase sentence))%nat
    eqn:Hk; cbn [andb] in *; [|contradiction].
  destruct (includes (toLowerCase sentence) (str "how")
            || includes (toLowerCase sentence) (str "should"));
    [|contradiction].
  destruct Hp as [<-|[]]. apply Nat.leb_le in Hk.
  repeat split; try reflexivity. exact Hk.
Qed.

Lemma tool_origin now calls p :
  In p (toolUsagePatterns toISOString toolArrow now calls) ->
  (3 <= length calls)%nat /\
  type p = solution_approach /\
  confidence p = 0.6 /\
  sessionId (extractedFrom p) = str "extracted_from_tools" /\
  projectId (extractedFrom p) = str "tool_analysis" /\
  content p = str "Tool usage pattern: " ++ join toolArrow (map call_name calls).
Proof.
  unfold toolUsagePatterns.
  destruct (length calls =? 0)%nat; [contradiction|].
  destruct (3 <=? length calls)%nat eqn:Hk; [|contradiction].
  intros [<-|[]]. apply Nat.leb_le in Hk. repeat split. exact Hk.
Qed.

Lemma gate_min (a cap : Q) : 0.5 < cap -> (0.5 < Qmin a cap <-> 0.5 < a).
Proof.
  intros Hcap. split.
  - intros H. eapply Qlt_le_trans; [exact H | apply Q.le_min_l].
  - intros H. now apply Q.min_glb_lt.
Qed.

(** X12: a collaboration pattern is returned exactly for the sentences
    (longer than 15 units) that contain at least two of the nine
    collaboration indicators: one indicator gives the confidence 1/3,
    which the gate of [extractPatternsFromSession] drops. *)
Theorem collaboration_gate now session msgs calls :
  messages session = Some msgs -> toolCalls session = Some calls ->
  let text := combinedContent msgs in
  exists out,
    extract now session = Ok out /\
    (forall sentence,
       In sentence (sentences 15 text) ->
       let k := countMatches collaborationIndicators (toLowerCase sentence) in
       (k = 1%nat ->
          exists p,
            collaborationOf toISOString session sentence = [p] /\
            confidence p == 1 # 3 /\
            ~ In p out) /\
       ((2 <= k)%nat ->
          exists p,
            collaborationOf toISOString session sentence = [p] /\
            content p = trim sentence /\
            0.5 < confidence p /\ confidence p <= 0.8 /\
            In p out)) /\
    (forall p,
       In p out -> type p = collaboration_pattern ->
       (2 <= countMatches collaborationIndicators (toLowerCase (content p)))%nat).
Proof.
  intros Hm Hc text.
  destruct (result_spec now session Hm Hc) as (out & Hout & Hin).
  fold text in Hin. exists out. split; [exact Hout|]. split.
  - intros sentence Hs k.
    assert (Hrule : (1 <= k)%nat ->
              collaborationOf toISOString session sentence =
              [ {| type := collaboration_pattern;
                   content := trim sentence;
                   context := str "Collaboration insight in session "
                              ++ session_id session;
                   confidence := Qmin (ratio k 3) 0.8;
                   extractedFrom := provenance toISOString session |} ]).
    { intros Hk. unfold collaborationOf. fold k.
      apply Nat.leb_le in Hk. now rewrite Hk. }
    split.
    + intros Hk. eexists. split; [apply Hrule; lia|].
      cbn [confidence]. rewrite Hk. split; [reflexivity|].
      intros Hp. apply Hin in Hp as [Hgate _].
      apply highConfidence_spec in Hgate. cbn [confidence] in Hgate.
      revert Hgate. vm_compute. discriminate.
    + intros Hk. eexists. split; [apply Hrule; lia|].
      cbn [content confidence].
      assert (Hconf : 0.5 < Qmin (ratio k 3) 0.8).
      { apply gate_min; [reflexivity|]. apply ratio_above_half; lia. }
      split; [reflexivity|]. split; [exact Hconf|].
      split; [apply Q.le_min_r|].
      apply Hin. split; [now apply highConfidence_spec|].
      right. right. left. unfold extractCollaborationPatterns.
      apply in_flat_map. exists sentence. split; [exact Hs|].
      rewrite Hrule by lia. now left.
  - intros p Hp Ht. apply Hin in Hp as [Hgate Hp].
    destruct Hp as [Hp|[Hp|[Hp|[Hp|Hp]]]].
    + apply technical_origin in Hp as (? & _ & _ & _ & Ht' & _). congruence.
    + apply breakthrough_origin in Hp as (? & ? & _ & _ & _ & Ht'). congruence.
    + apply collaboration_origin in Hp
        as (sentence & _ & _ & Hk & Hcontent & Hconf).
      rewrite Hcontent, countMatches_trim
        by apply collaborationIndicators_solid.
      apply highConfidence_spec in Hgate. rewrite Hconf in Hgate.
      apply gate_min in Hgate; [|reflexivity].
      apply ratio_above_half in Hgate; lia.
    + apply tool_origin in Hp as (_ & Ht' & _). congruence.
    + assert (Ht' : type p = solution_approach).
      { apply (@solution_type toISOString toolArrow now session [] text p).
        apply in_or_app. right. exact Hp. }
      congruence.
Qed.

Lemma ratio_at_least (k d : nat) :
  (0 < d)%nat -> (d <= k)%nat -> 1 <= ratio k d.
Proof.
  intros Hd Hk. unfold ratio, Qle, Qdiv, Qmult, Qinv.
  cbn [Qnum Qden inject_Z].
  destruct d as [|d]; [lia|].
  rewrite Nat2Z.inj_succ. unfold Z.succ.
  destruct (Z.of_nat d + 1)%Z eqn:Hz; try lia.
  cbn [Qnum Qden]. lia.
Qed.

(** X13: a sentence (longer than 20 units) that asks "how" or "should"
    gives a solution pattern in the result only with at least two of the
    nine solution keywords: one keyword gives the confidence 1/2, which
    is not above the gate; two or more give 0.7.  Every other
    solution_approach pattern of the result is the one made from the
    tool calls. *)
Theorem solution_gate now session msgs calls :
  messages session = Some msgs -> toolCalls session = Some calls ->
  let text := combinedContent msgs in
  exists out,
    extract now session = Ok out /\
    (forall sentence,
       In sentence (sentences 20 text) ->
       let lower := toLowerCase sentence in
       let k := countMatches solutionKeywords lower in
       includes lower (str "how") || includes lower (str "should") = true ->
       (k = 1%nat ->
          exists p,
            solutionOf toISOString session sentence = [p] /\
            confidence p == 1 # 2 /\
            ~ In p out) /\
       ((2 <= k)%nat ->
          exists p,
            solutionOf toISOString session sentence = [p] /\
            content p = trim sentence /\
            confidence p == 0.7 /\
            In p out)) /\
    (forall p,
       In p out -> type p = solution_approach ->
       In p (toolUsagePatterns toISOString toolArrow now calls) \/
       (2 <= countMatches solutionKeywords (toLowerCase (content p)))%nat).
Proof.
  intros Hm Hc text.
  destruct (result_spec now session Hm Hc) as (out & Hout & Hin).
  fold text in Hin. exists out. split; [exact Hout|]. split.
  - intros sentence Hs lower k Hask.
    assert (Hrule : (1 <= k)%nat ->
              solutionOf toISOString session sentence =
              [ {| type := solution_approach;
                   content := trim sentence;
                   context := str "Solution discussion in session "
                              ++ session_id session;
                   confidence := Qmin (ratio k 2) 0.7;
                   extractedFrom := provenance toISOString session |} ]).
    { intros Hk. unfold solutionOf. fold lower. fold k.
      apply Nat.leb_le in Hk. now rewrite Hk, Hask. }
    split.
    + intros Hk. eexists. split; [apply Hrule; lia|].
      cbn [confidence]. rewrite Hk. split; [reflexivity|].
      intros Hp. apply Hin in Hp as [Hgate _].
      apply highConfidence_spec in Hgate. cbn [confidence] in Hgate.
      revert Hgate. vm_compute. discriminate.
    + intros Hk. eexists. split; [apply Hrule; lia|].
      cbn [content confidence].
      assert (Hone : 1 <= ratio k 2) by (apply ratio_at_least; lia).
      assert (Hconf : Qmin (ratio k 2) 0.7 == 0.7).
      { apply Q.min_r. eapply Qle_trans; [|exact Hone].
        vm_compute. discriminate. }
      split; [reflexivity|]. split; [exact Hconf|].
      apply Hin. split.
      * apply highConfidence_spec. cbn [confidence]. rewrite Hconf.
        reflexivity.
      * right. right. right. right.
        apply in_flat_map. exists sentence. split; [exact Hs|].
        rewrite Hrule by lia. now left.
  - intros p Hp Ht. apply Hin in Hp as [Hgate Hp].
    destruct Hp as [Hp|[Hp|[Hp|[Hp|Hp]]]].
    + apply technical_origin in Hp as (? & _ & _ & _ & Ht' & _). congruence.
    + apply breakthrough_origin in Hp as (? & ? & _ & _ & _ & Ht'). congruence.
    + apply collaboration_type in Hp. congruence.
    + now left.
    + right. apply solution_origin in Hp
        as (sentence & _ & _ & Hk & Hcontent & _ & Hconf).
      rewrite Hcontent, countMatches_trim by apply solutionKeywords_solid.
      apply highConfidence_spec in Hgate. rewrite Hconf in Hgate.
      apply gate_min in Hgate; [|reflexivity].
      apply ratio_above_half in Hgate; lia.
Qed.

(** A pattern made from a sentence is attributed to the session. *)
Lemma sentence_provenance session text p :
  In p (extractTechnicalInsights toISOString session text) \/
  In p (extractBreakthroughMoments toISOString session text) \/
  In p (extractCollaborationPatterns toISOString session text) \/
  In p (flat_map (solutionOf toISOString session) (sentences 20 text)) ->
  extractedFrom p = provenance toISOString session.
Proof.
  intros [Hp|[Hp|[Hp|Hp]]].
  - apply technical_origin in Hp as (s0 & _ & Hrule & _).
    unfold technicalInsightOf in Hrule.
    destruct (2 <=? _)%nat; [|discriminate].
    injection Hrule as <-. reflexivity.
  - apply breakthrough_origin in Hp as (s0 & i & _ & Hi & Hrule & _).
    unfold breakthroughOf in Hrule. rewrite Hi in Hrule.
    injection Hrule as <-. reflexivity.
  - apply collaboration_origin in Hp as (s0 & _ & Hrule & _).
    unfold collaborationOf in Hrule.
    destruct (1 <=? _)%nat; [|discriminate].
    injection Hrule as <-. reflexivity.
  - apply solution_origin in Hp as (s0 & _ & Hrule & _).
    unfold solutionOf in Hrule.
    destruct (_ && _); [|discriminate].
    injection Hrule as <-. reflexivity.
Qed.

(** X14: the tool calls of a session leave one pattern in the result
    when there are at least three of them, and none otherwise.  The
    pattern has the confidence 0.6, lists the names of the calls in
    order, and is attributed to the fixed session "extracted_from_tools"
    of the project "tool_analysis" at the time of the call, not to the
    session it was read from. *)
Theorem tool_usage_pattern now session msgs calls :
  messages session = Some msgs -> toolCalls session = Some calls ->
  exists out,
    extract now session = Ok out /\
    ((3 <= length calls)%nat ->
       exists p,
         toolUsagePatterns toISOString toolArrow now calls = [p] /\
         In p out /\
         type p = solution_approach /\
         confidence p = 0.6 /\
         content p = str "Tool usage pattern: " ++
                     join toolArrow (map call_name calls) /\
         extractedFrom p =
           {| sessionId := str "extracted_from_tools";
              projectId := str "tool_analysis";
              timestamp := toISOString now |}) /\
    ((length calls < 3)%nat ->
       toolUsagePatterns toISOString toolArrow now calls = [] /\
       forall p, In p out -> extractedFrom p = provenance toISOString session).
Proof.
  intros Hm Hc.
  destruct (result_spec now session Hm Hc) as (out & Hout & Hin).
  exists out. split; [exact Hout|]. split.
  - intros Hk. eexists. split.
    { unfold toolUsagePatterns.
      destruct (length calls =? 0)%nat eqn:H0;
        [apply Nat.eqb_eq in H0; lia|].
      apply Nat.leb_le in Hk. rewrite Hk. reflexivity. }
    split.
    { apply Hin. split; [reflexivity|]. right. right. right. left.
      unfold toolUsagePatterns.
      destruct (length calls =? 0)%nat eqn:H0;
        [apply Nat.eqb_eq in H0; lia|].
      apply Nat.leb_le in Hk. rewrite Hk. now left. }
    repeat split.
  - intros Hk.
    assert (Hnone : toolUsagePatterns toISOString toolArrow now calls = []).
    { unfold toolUsagePatterns. destruct (length calls =? 0)%nat; [reflexivity|].
      destruct (3 <=? length calls)%nat eqn:H3; [|reflexivity].
      apply Nat.leb_le in H3. lia. }
    split; [exact Hnone|].
    intros p Hp. apply Hin in Hp as [_ Hp]. rewrite Hnone in Hp.
    apply sentence_provenance with (text := combinedContent msgs).
    destruct Hp as [Hp|[Hp|[Hp|[[]|Hp]]]]; tauto.
Qed.

Lemma breakthrough_confidence session sentence p :
  breakthroughOf toISOString session sentence = [p] ->
  content p = trim sentence /\
  (confidence p = 0.95 \/ confidence p = 0.7).
Proof.
  unfold breakthroughOf.
  destruct (firstIndicator (toLowerCase sentence)) as [indicator|];
    [|discriminate].
  intros H.
  apply (f_equal (fun l => match l with
                           | [x] => (content x, confidence x)
                           | _ => ([], 0)
                           end)) in H.
  cbn [content confidence] in H. injection H as Hc Hq.
  split; [now symmetry|].
  match type of Hq with
  | (if ?b then _ else _) = _ => destruct b
  end; [left | right]; now symmetry.
Qed.

(** X15: every pattern [extractBreakthroughMoments] finds is returned,
    with the confidence 0.95 or 0.7; and every pattern returned, of any
    kind, has a confidence above 0.5 and of at most 0.95. *)
Theorem confidence_range now session msgs calls :
  messages session = Some msgs -> toolCalls session = Some calls ->
  let text := combinedContent msgs in
  exists out,
    extract now session = Ok out /\
    (forall p,
       In p (extractBreakthroughMoments toISOString session text) ->
       In p out /\ (confidence p = 0.95 \/ confidence p = 0.7)) /\
    (forall p, In p out -> 0.5 < confidence p /\ confidence p <= 0.95).
Proof.
  intros Hm Hc text.
  destruct (result_spec now session Hm Hc) as (out & Hout & Hin).
  fold text in Hin. exists out. split; [exact Hout|]. split.
  - intros p Hp. pose proof Hp as Hp'.
    apply breakthrough_origin in Hp' as (s0 & i & _ & _ & Hrule & _).
    apply breakthrough_confidence in Hrule as [_ Hconf].
    split; [|exact Hconf]. apply Hin. split; [|right; now left].
    apply highConfidence_spec. destruct Hconf as [-> | ->]; reflexivity.
  - intros p Hp. apply Hin in Hp as [Hgate Hp].
    apply highConfidence_spec in Hgate. split; [exact Hgate|].
    destruct Hp as [Hp|[Hp|[Hp|[Hp|Hp]]]].
    + apply technical_origin in Hp as (s0 & _ & _ & _ & _ & _ & ->).
      eapply Qle_trans; [apply Q.le_min_r | vm_compute; discriminate].
    + apply breakthrough_origin in Hp as (s0 & i & _ & _ & Hrule & _).
      apply breakthrough_confidence in Hrule as [_ [-> | ->]];
        vm_compute; discriminate.
    + apply collaboration_origin in Hp as (s0 & _ & _ & _ & _ & ->).
      eapply Qle_trans; [apply Q.le_min_r | vm_compute; discriminate].
    + apply tool_origin in Hp as (_ & _ & -> & _). vm_compute. discriminate.
    + apply solution_origin in Hp as (s0 & _ & _ & _ & _ & _ & ->).
      eapply Qle_trans; [apply Q.le_min_r | vm_compute; discriminate].
Qed.

Lemma sentence_part n text sentence :
  In sentence (sentences n text) ->
  includes text (trim sentence) = true /\
  (n < length (trim sentence))%nat.
Proof.
  intros Hs. apply sentences_split in Hs as [Hs Hlen]. split; [|exact Hlen].
  apply includes_trans with (t := sentence); [|apply trim_part].
  exact (splitRuns_part _ _ _ _ Hs).
Qed.

Lemma includes_length (s k : jsstring) :
  includes s k = true -> (length k <= length s)%nat.
Proof.
  intros H. apply includes_spec in H as (a & b & ->).
  rewrite !length_app. lia.
Qed.

(** X16: the extractor quotes: the content of every returned pattern
    that was not made from the tool calls is a part of the text that was
    analysed (the first 10000 units of the joined messages), without
    white space around it, more than 10 units long, and holds none of
    the sentence breaks . ! ? *)
Theorem patterns_quote_the_text now session msgs calls :
  messages session = Some msgs -> toolCalls session = Some calls ->
  let text := combinedContent msgs in
  (length text <= N.to_nat 10000)%nat /\
  exists out,
    extract now session = Ok out /\
    forall p,
      In p out ->
      In p (toolUsagePatterns toISOString toolArrow now calls) \/
      (includes text (content p) = true /\
       trim (content p) = content p /\
       (10 < length (content p) <= N.to_nat 10000)%nat /\
       Forall (fun c => isSentenceBreak c = false) (content p)).
Proof.
  intros Hm Hc text.
  assert (Hlen : (length text <= N.to_nat 10000)%nat).
  { unfold text, combinedContent, slice0. rewrite length_firstn.
    apply Nat.le_min_l. }
  split; [exact Hlen|].
  destruct (result_spec now session Hm Hc) as (out & Hout & Hin).
  fold text in Hin. exists out. split; [exact Hout|].
  assert (Hquote : forall n sentence,
            (10 <= n)%nat -> In sentence (sentences n text) ->
            includes text (trim sentence) = true /\
            trim (trim sentence) = trim sentence /\
            (10 < length (trim sentence) <= N.to_nat 10000)%nat /\
            Forall (fun c => isSentenceBreak c = false) (trim sentence)).
  { intros n sentence Hn Hs.
    destruct (sentence_part _ _ _ Hs) as [Hpart Hlong].
    split; [exact Hpart|]. split; [apply trim_idem|]. split.
    - apply includes_length in Hpart. lia.
    - apply sentences_split in Hs as [Hs _].
      apply splitRuns_clean in Hs. rewrite Forall_forall in *.
      intros c Hc'. apply Hs.
      apply includes_units with (k := trim sentence); [apply trim_part|exact Hc']. }
  intros p Hp. apply Hin in Hp as [_ Hp].
  destruct Hp as [Hp|[Hp|[Hp|[Hp|Hp]]]].
  - right. apply technical_origin in Hp as (s0 & Hs & _ & _ & _ & -> & _).
    apply (Hquote 20%nat); [lia | exact Hs].
  - right. apply breakthrough_origin in Hp as (s0 & i & Hs & _ & Hrule & _).
    apply breakthrough_confidence in Hrule as [-> _].
    apply (Hquote 10%nat); [lia | exact Hs].
  - right. apply collaboration_origin in Hp as (s0 & Hs & _ & _ & -> & _).
    apply (Hquote 15%nat); [lia | exact Hs].
  - now left.
  - right. apply solution_origin in Hp as (s0 & Hs & _ & _ & -> & _).
    apply (Hquote 20%nat); [lia | exact Hs].
Qed.

End ExtractorRules.

(** ** From patterns to entities *)

Section ConversionFacts.

Import PatternExtractor PatternEntities.

Variable toISOString : Z -> jsstring.
Variable Date_getTime : jsstring -> option Z.
Variable showNumber : Q -> jsstring.

Let entityOf := entityOf toISOString Date_getTime showNumber.
Let name := generateEntityName Date_getTime.

Lemma convertEach_spec clock sessionId projectId
    (patterns : list ConsciousnessPattern) :
  forall i acc,
  exists made,
    convertEach toISOString Date_getTime showNumber clock i patterns
      sessionId projectId acc
    = (fst acc ++ made,
       {| development_patterns :=
            development_patterns (snd acc) ++ filter (hasType [technical_insight; solution_approach]) made;
          breakthrough_moments :=
            breakthrough_moments (snd acc) ++ filter (hasType [breakthrough_moment]) made;
          collaboration_insights :=
            collaboration_insights (snd acc) ++ filter (hasType [collaboration_pattern]) made;
          project_evolution := project_evolution (snd acc) |}) /\
    Forall2 (fun pattern e =>
               exists now, e = entityOf now pattern sessionId projectId)
            patterns made.
Proof.
  induction patterns as [|pattern rest IH]; intros i acc.
  - exists []. cbn [convertEach filter]. rewrite !app_nil_r.
    split; [|constructor]. destruct acc as [es [d b c pe]]. reflexivity.
  - cbn [convertEach].
    set (entity := PatternEntities.entityOf toISOString Date_getTime
                     showNumber (clock i) pattern sessionId projectId).
    destruct (IH (S i) (fst acc ++ [entity],
                        assign (snd acc) (type pattern) entity))
      as (made & -> & Hmade).
    exists (entity :: made). split.
    + cbn [fst snd]. rewrite <- !app_assoc. cbn [app]. f_equal.
      assert (Ht : forall types,
                hasType types entity = existsb (typeEqb (type pattern)) types)
        by reflexivity.
      clearbody entity. cbn [filter]. rewrite !Ht.
      destruct (type pattern); cbn; rewrite <- ?app_assoc; reflexivity.
    + constructor; [now exists (clock i) | exact Hmade].
Qed.

Lemma filter_lengths (l : list ExtractedEntity) :
  (length (filter (hasType [technical_insight; solution_approach]) l) +
   length (filter (hasType [breakthrough_moment]) l) +
   length (filter (hasType [collaboration_pattern]) l) = length l)%nat.
Proof.
  induction l as [|e l IH]; [reflexivity|].
  cbn [filter].
  assert (Ht : forall types,
            hasType types e = existsb (typeEqb (entityType e)) types)
    by reflexivity.
  rewrite !Ht. destruct (entityType e); cbn [existsb typeEqb orb length]; lia.
Qed.

(** X17: [patternsToEntities] makes one entity per pattern, in order and
    of the type of the pattern, and puts each into exactly one bank
    list: technical insights and solution approaches into
    development_patterns, breakthroughs into breakthrough_moments,
    collaboration patterns into collaboration_insights; nothing is ever
    assigned to project_evolution. *)
Theorem patterns_are_routed clock patterns sessionId projectId :
  let result :=
    patternsToEntities toISOString Date_getTime showNumber clock patterns
      sessionId projectId in
  let entities := fst result in
  let bankAssignments := snd result in
  Forall2 (fun pattern e =>
             exists now, e = entityOf now pattern sessionId projectId)
          patterns entities /\
  map entityType entities = map type patterns /\
  development_patterns bankAssignments
    = filter (hasType [technical_insight; solution_approach]) entities /\
  breakthrough_moments bankAssignments
    = filter (hasType [breakthrough_moment]) entities /\
  collaboration_insights bankAssignments
    = filter (hasType [collaboration_pattern]) entities /\
  project_evolution bankAssignments = [] /\
  (length (development_patterns bankAssignments) +
   length (breakthrough_moments bankAssignments) +
   length (collaboration_insights bankAssignments)
   = length patterns)%nat.
Proof.
  unfold patternsToEntities.
  destruct (convertEach_spec clock sessionId projectId patterns 0
              ([], {| development_patterns := [];
                      breakthrough_moments := [];
                      collaboration_insights := [];
                      project_evolution := [] |}))
    as (made & -> & Hmade).
  cbn [fst snd app development_patterns breakthrough_moments
       collaboration_insights project_evolution].
  split; [exact Hmade|].
  assert (Htypes : map entityType made = map type patterns).
  { clear - Hmade. induction Hmade as [|p e ps es [now ->] _ IH];
      [reflexivity|]. cbn [map]. now rewrite IH. }
  split; [exact Htypes|]. repeat (split; [reflexivity|]).
  rewrite filter_lengths.
  apply (f_equal (@length _)) in Htypes. now rewrite !length_map in Htypes.
Qed.

Lemma replaced_head (t : PatternType) :
  exists c rest,
    replaceFirst "_"%char " "%char (typeName t) = c :: rest /\
    c = match t with
        | technical_insight => "t"%char
        | breakthrough_moment => "b"%char
        | collaboration_pattern => "c"%char
        | solution_approach => "s"%char
        end.
Proof. destruct t; eexists; eexists; split; reflexivity. Qed.

(** X18: the name [generateEntityName] gives a pattern tells the type of
    the pattern, but not the pattern: it is made of the type, of the
    letters, digits and blanks among the first 50 units of the content,
    and of the time of extraction, so two patterns of one type and time
    whose contents agree on those units get the same name. *)
Theorem entity_names p q :
  (name p = name q -> type p = type q) /\
  (type p = type q ->
   timestamp (extractedFrom p) = timestamp (extractedFrom q) ->
   filter isPlain (slice0 50 (content p))
     = filter isPlain (slice0 50 (content q)) ->
   name p = name q) /\
  (forall shared tail1 tail2,
     (50 <= length shared)%nat ->
     content p = shared ++ tail1 -> content q = shared ++ tail2 ->
     slice0 50 (content p) = slice0 50 (content q)).
Proof.
  split; [|split].
  - unfold name, generateEntityName. intros H.
    destruct (replaced_head (type p)) as (c1 & r1 & H1 & Hc1).
    destruct (replaced_head (type q)) as (c2 & r2 & H2 & Hc2).
    cbv zeta in H. rewrite H1, H2 in H. cbn [app] in H.
    injection H as Hc _. subst c1 c2.
    destruct (type p), (type q); try reflexivity; discriminate.
  - intros Ht Hs Hc. unfold name, generateEntityName. cbv zeta.
    now rewrite Ht, Hs, Hc.
  - intros shared tail1 tail2 Hlen -> ->. unfold slice0.
    rewrite !firstn_app.
    replace (N.to_nat 50 - length shared)%nat with 0%nat by lia.
    reflexivity.
Qed.

End ConversionFacts.

(** ** Relations between the entities *)

Section RelationFacts.

Import PatternExtractor PatternEntities.

Lemma chain_length kind (l : list ExtractedEntity) :
  length (chain kind l) = pred (length l).
Proof.
  induction l as [|a [|b l] IH]; try reflexivity.
  cbn [chain length] in *. now rewrite IH.
Qed.

Lemma chain_links kind (l : list ExtractedEntity) :
  Forall (fun r =>
            relationType r = kind /\
            exists a b, In a l /\ In b l /\
                        from r = entity_name a /\ to r = entity_name b)
         (chain kind l).
Proof.
  induction l as [|a [|b l] IH]; try constructor.
  - split; [reflexivity|]. exists a, b. cbn. auto.
  - eapply Forall_impl; [|exact IH].
    intros r (Hk & x & y & Hx & Hy & Hf & Ht). split; [exact Hk|].
    exists x, y. split; [now right|]. split; [now right|]. now split.
Qed.

Lemma typeEqb_eq a b : typeEqb a b = true <-> a = b.
Proof. destruct a, b; split; intros H; try reflexivity; discriminate. Qed.

Lemma addToGroup_keys e groups :
  keysOf (addToGroup e groups)
  = if existsb (fun t => typeEqb t (entityType e)) (keysOf groups)
    then keysOf groups else keysOf groups ++ [entityType e].
Proof.
  unfold keysOf. induction groups as [|[t members] groups IH];
    [reflexivity|].
  cbn [addToGroup map fst existsb].
  destruct (typeEqb t (entityType e)); [reflexivity|].
  cbn [orb map fst]. rewrite IH.
  now destruct (existsb _ (map fst groups)).
Qed.

Lemma addToGroup_size e groups :
  sizeOf (addToGroup e groups) = S (sizeOf groups).
Proof.
  unfold sizeOf. induction groups as [|[t members] groups IH];
    [reflexivity|].
  cbn [addToGroup]. destruct (typeEqb t (entityType e));
    cbn [fold_right snd].
  - rewrite length_app. cbn [length]. lia.
  - rewrite IH. lia.
Qed.

Lemma addToGroup_members (P : PatternType -> ExtractedEntity -> Prop) e groups :
  P (entityType e) e ->
  Forall (fun g => snd g <> [] /\ Forall (P (fst g)) (snd g)) groups ->
  Forall (fun g => snd g <> [] /\ Forall (P (fst g)) (snd g))
         (addToGroup e groups).
Proof.
  intros He. induction 1 as [|[t members] groups [Hne Hg] Hgroups IH].
  - cbn [addToGroup]. constructor; [|constructor]. cbn [fst snd].
    split; [discriminate | now constructor].
  - cbn [addToGroup]. cbn [fst snd] in *.
    destruct (typeEqb t (entityType e)) eqn:Ht.
    + apply typeEqb_eq in Ht. subst t. constructor; [|exact Hgroups].
      cbn [fst snd]. split; [now destruct members|].
      apply Forall_app. split; [exact Hg | now constructor].
    + constructor; [now split | exact IH].
Qed.

(** The groups of [groupEntitiesByType]: one for every entity type in
    the list, none of them empty, every entity in the group of its
    type. *)
Lemma groups_spec (entities : list ExtractedEntity) :
  let groups := groupEntitiesByType entities in
  NoDup (keysOf groups) /\
  (forall t, In t (keysOf groups) <-> In t (map entityType entities)) /\
  sizeOf groups = length entities /\
  Forall (fun g => snd g <> [] /\
                   Forall (fun e => entityType e = fst g /\ In e entities)
                          (snd g)) groups.
Proof.
  unfold groupEntitiesByType.
  assert (Hgen : forall es groups done,
    NoDup (keysOf groups) ->
    (forall t, In t (keysOf groups) <-> In t (map entityType done)) ->
    sizeOf groups = length done ->
    Forall (fun g => snd g <> [] /\
                     Forall (fun e => entityType e = fst g /\
                                      In e (done ++ es)) (snd g)) groups ->
    let groups' := fold_left (fun groups entity => addToGroup entity groups)
                             es groups in
    NoDup (keysOf groups') /\
    (forall t, In t (keysOf groups') <-> In t (map entityType (done ++ es))) /\
    sizeOf groups' = length (done ++ es) /\
    Forall (fun g => snd g <> [] /\
                     Forall (fun e => entityType e = fst g /\
                                      In e (done ++ es)) (snd g)) groups').
  { induction es as [|e es IH]; intros groups done Hnd Hkeys Hsize Hmem;
      cbv zeta in *.
    - cbn [fold_left]. rewrite app_nil_r in *.
      split; [exact Hnd|]. split; [exact Hkeys|]. split; [exact Hsize|].
      exact Hmem.
    - cbn [fold_left].
      replace (done ++ e :: es) with ((done ++ [e]) ++ es) in *
        by now rewrite <- app_assoc.
      apply IH.
      + rewrite addToGroup_keys.
        destruct (existsb _ (keysOf groups)) eqn:Hseen; [exact Hnd|].
        apply NoDup_app; [exact Hnd | repeat constructor; intros [] |].
        intros t Ht [<-|[]].
        assert (Hex : existsb (fun t => typeEqb t (entityType e))
                        (keysOf groups) = true).
        { apply existsb_exists. exists (entityType e).
          split; [exact Ht | now apply typeEqb_eq]. }
        congruence.
      + intros t. rewrite addToGroup_keys, map_app, in_app_iff.
        cbn [map In].
        destruct (existsb _ (keysOf groups)) eqn:Hseen.
        * apply existsb_exists in Hseen as (t' & Ht' & Heq).
          apply typeEqb_eq in Heq. subst t'. rewrite Hkeys.
          split; [now left|]. intros [H|[<-|[]]]; [exact H|].
          now apply Hkeys.
        * rewrite in_app_iff, Hkeys. cbn [In]. tauto.
      + rewrite addToGroup_size, length_app. cbn [length]. lia.
      + apply (@addToGroup_members
                 (fun t x => entityType x = t /\ In x ((done ++ [e]) ++ es)));
          [|exact Hmem].
        split; [reflexivity|]. apply in_or_app. left. apply in_or_app.
        right. now left. }
  apply (Hgen entities [] []).
  - constructor.
  - intros t. cbn. tauto.
  - reflexivity.
  - constructor.
Qed.

Lemma thematic_length (groups : list (PatternType * list ExtractedEntity)) :
  Forall (fun g => snd g <> []) groups ->
  (length (flat_map (fun group =>
                       if (1 <? length (snd group))%nat
                       then chain (str "thematic_connection") (snd group)
                       else []) groups)
   + length groups = sizeOf groups)%nat.
Proof.
  induction 1 as [|[t members] groups Hne _ IH]; [reflexivity|].
  cbn [flat_map sizeOf fold_right snd length] in *.
  rewrite length_app. fold (sizeOf groups).
  assert (Hone : (length (if (1 <? length members)%nat
                          then chain (str "thematic_connection") members
                          else []) + 1 = length members)%nat).
  { destruct (1 <? length members)%nat eqn:Hlen.
    - rewrite chain_length. apply Nat.ltb_lt in Hlen. lia.
    - apply Nat.ltb_ge in Hlen. destruct members; [contradiction|].
      cbn [length] in *. lia. }
  lia.
Qed.

(** X19: for n entities [generateConsciousnessRelations] makes n-1
    consciousness_flow relations, each from an entity to the next one,
    and behind them the thematic_connection relations, each between two
    entities of one type; there are as many of these as there are
    entities, less one for every entity type that occurs.  Fewer than
    two entities give no relation. *)
Theorem relation_counts (entities : list ExtractedEntity) :
  exists thematic,
    generateConsciousnessRelations entities
      = chain (str "consciousness_flow") entities ++ thematic /\
    length (chain (str "consciousness_flow") entities)
      = pred (length entities) /\
    (length thematic + typeCount entities = length entities)%nat /\
    Forall (fun r =>
              relationType r = str "consciousness_flow" /\
              exists a b, In a entities /\ In b entities /\
                          from r = entity_name a /\ to r = entity_name b)
           (chain (str "consciousness_flow") entities) /\
    Forall (fun r =>
              relationType r = str "thematic_connection" /\
              exists a b, In a entities /\ In b entities /\
                          entityType a = entityType b /\
                          from r = entity_name a /\ to r = entity_name b)
           thematic /\
    ((length entities < 2)%nat ->
       generateConsciousnessRelations entities = []).
Proof.
  unfold generateConsciousnessRelations.
  destruct (groups_spec entities) as (Hnd & Hkeys & Hsize & Hmem).
  set (groups := groupEntitiesByType entities) in *.
  eexists. split; [reflexivity|].
  split; [apply chain_length|]. split.
  { assert (Hne : Forall (fun g => snd g <> []) groups).
    { eapply Forall_impl; [|exact Hmem]. now intros g [H _]. }
    pose proof (thematic_length Hne) as Hlen. rewrite Hsize in Hlen.
    assert (Hcount : typeCount entities = length groups).
    { unfold typeCount. change (length groups) with (length groups).
      rewrite <- (length_map fst groups). apply Permutation_length.
      apply NoDup_Permutation; [apply NoDup_nodup | exact Hnd |].
      intros t. rewrite nodup_In. symmetry. apply Hkeys. }
    rewrite Hcount. exact Hlen. }
  split; [apply chain_links|]. split.
  { apply Forall_forall. intros r Hr.
    apply in_flat_map in Hr as ([t members] & Hg & Hr). cbn [snd] in Hr.
    destruct (1 <? length members)%nat; [|contradiction].
    rewrite Forall_forall in Hmem. destruct (Hmem _ Hg) as [_ Hm].
    cbn [fst snd] in Hm. rewrite Forall_forall in Hm.
    pose proof (chain_links (str "thematic_connection") members) as Hlinks.
    rewrite Forall_forall in Hlinks.
    destruct (Hlinks r Hr) as (Hk & a & b & Ha & Hb & Hf & Ht).
    split; [exact Hk|]. exists a, b.
    destruct (Hm a Ha) as [Hta Hina]. destruct (Hm b Hb) as [Htb Hinb].
    repeat split; try assumption. congruence. }
  intros Hfew.
  assert (Hflow : chain (str "consciousness_flow") entities = []).
  { destruct entities as [|a [|b l]]; try reflexivity. cbn [length] in Hfew. lia. }
  rewrite Hflow. cbn [app].
  assert (Hne : Forall (fun g => snd g <> []) groups).
  { eapply Forall_impl; [|exact Hmem]. now intros g [H _]. }
  pose proof (thematic_length Hne) as Hlen. rewrite Hsize in Hlen.
  assert (Hgroups : (length groups <= length entities)%nat) by lia.
  destruct (flat_map _ groups) as [|r rs] eqn:Hth; [reflexivity|].
  cbn [length] in Hlen.
  (* one relation needs two entities of a type *)
  assert (Hin : In r (flat_map
            (fun group =>
               if (1 <? length (snd group))%nat
               then chain (str "thematic_connection") (snd group)
               else []) groups)) by (rewrite Hth; now left).
  apply in_flat_map in Hin as ([t members] & Hg & Hr). cbn [snd] in Hr.
  destruct (1 <? length members)%nat eqn:Hlong; [|contradiction].
  apply Nat.ltb_lt in Hlong.
  assert (Hle : (length members <= sizeOf groups)%nat).
  { clear - Hg. unfold sizeOf. induction groups as [|g groups IH];
      [contradiction|]. cbn [fold_right]. destruct Hg as [->|Hg].
    - cbn [snd]. lia.
    - specialize (IH Hg). lia. }
  lia.
Qed.

End RelationFacts.

(** ** The sort keeps ties in place *)

Section SortStable.

Variable A : Type.
Variable key : A -> Q.

Let cmp (a b : A) : Q := key b - key a.

Lemma sortInsert_ties (k : Q) (x : A) (l : list A) :
  StronglySorted (fun a b => key b <= key a) l ->
  filter (fun y => Qeq_bool (key y) k) (sortInsert cmp x l)
  = filter (fun y => Qeq_bool (key y) k) (x :: l).
Proof.
  induction 1 as [|y l Hl IH Hy]; [reflexivity|].
  cbn [sortInsert]. destruct (Qlt_le_dec 0 (cmp x y)) as [Hlt|Hle].
  - (* [x] goes behind [y]: the key of [y] is greater *)
    cbn [filter] in *. rewrite IH.
    destruct (Qeq_bool (key x) k) eqn:Hx; [|reflexivity].
    destruct (Qeq_bool (key y) k) eqn:Hyk; [|reflexivity].
    apply Qeq_bool_iff in Hx, Hyk. unfold cmp in Hlt. exfalso.
    rewrite Hx, Hyk in Hlt. revert Hlt. unfold Qminus.
    rewrite Qplus_opp_r. apply Qlt_irrefl.
  - reflexivity.
Qed.

Lemma sort_ties (k : Q) (l : list A) :
  filter (fun y => Qeq_bool (key y) k) (sort cmp l)
  = filter (fun y => Qeq_bool (key y) k) l.
Proof.
  induction l as [|x l IH]; [reflexivity|].
  unfold sort in *. cbn [fold_right].
  rewrite sortInsert_ties by apply (sort_sorted key).
  cbn [filter]. now rewrite IH.
Qed.

End SortStable.

(** ** More on the final score *)

Section ScoreFacts.

Import Unified UnifiedSearch ConsciousnessQuery.

Variable Date_getTime : json -> option Z.

Let final := calculateFinalScore Date_getTime.
Let rank := rankUnifiedResults Date_getTime.

Lemma sourceFactor_cases result :
  (source result = session /\ sourceFactor result = 1.1) \/
  (source result = memory_bank /\ 8 < relevanceScore result /\
   sourceFactor result = 1.15) \/
  (source result = memory_bank /\ relevanceScore result <= 8 /\
   sourceFactor result = 1).
Proof.
  unfold sourceFactor. destruct (source result); [now left|].
  destruct (Qlt_le_dec 8 (relevanceScore result)); [right; left | right; right];
    now repeat split.
Qed.

Lemma recencyFactor_cases now result :
  recencyFactor Date_getTime now result = 1.2 \/
  recencyFactor Date_getTime now result = 1.1 \/
  recencyFactor Date_getTime now result = 1.
Proof.
  unfold recencyFactor.
  destruct (timestamp (context result)) as [ts|]; [|now right; right].
  destruct (truthy (Some ts)); [|now right; right].
  destruct (Date_getTime ts) as [t|]; [|now right; right].
  destruct (now - t <=? 30 * 86400000)%Z; [now left|].
  destruct (now - t <=? 90 * 86400000)%Z; [right; now left | now right; right].
Qed.

Lemma phraseFactor_cases result query :
  phraseFactor result query = 1.3 \/ phraseFactor result query = 1.
Proof.
  unfold phraseFactor. destruct (includes _ _); [now left | now right].
Qed.

(** X20: the boosts of [calculateFinalScore] are bounded.  For a
    relevance score from 1 to 2^53 the final score is at least the
    relevance score and less than 1.8 times it; for a session result it
    is more than 1.09 times and less than 1.72 times the relevance
    score.  (The products of the factors are 1.15 x 1.2 x 1.3 = 1.794
    and 1.1 x 1.2 x 1.3 = 1.716 at most, and at least 1.1 for a session;
    the bounds leave room for the rounding of the multiplications of the
    code.) *)
Theorem final_score_bounds now result query :
  1 <= relevanceScore result ->
  relevanceScore result <= 9007199254740992 ->
  relevanceScore result <= final now result query /\
  final now result query < relevanceScore result * 1.8 /\
  (source result = session ->
     relevanceScore result * 1.09 < final now result query /\
     final now result query < relevanceScore result * 1.72).
Proof.
  intros Hpos _.
  pose proof (calculateFinalScore_factors Date_getTime now result query)
    as Hfinal.
  fold final in Hfinal. set (f := final now result query) in *.
  set (r := relevanceScore result) in *.
  destruct (sourceFactor_cases result)
    as [[Hs Hsf]|[(Hs & _ & Hsf)|(Hs & _ & Hsf)]];
    destruct (recencyFactor_cases now result) as [Hrf | [Hrf | Hrf]];
    destruct (phraseFactor_cases result query) as [Hpf | Hpf];
    rewrite Hsf, Hrf, Hpf in Hfinal;
    (split; [lra|]); (split; [lra|]);
    intros Hsession; try congruence; split; lra.
Qed.

Lemma recencyFactor_context now a b :
  context a = context b ->
  recencyFactor Date_getTime now a = recencyFactor Date_getTime now b.
Proof. unfold recencyFactor. now intros ->. Qed.

Lemma phraseFactor_content a b query :
  content a = content b -> phraseFactor a query = phraseFactor b query.
Proof. unfold phraseFactor. now intros ->. Qed.

Lemma recencyFactor_dated now result ts t :
  timestamp (context result) = Some ts -> truthy (Some ts) = true ->
  Date_getTime ts = Some t ->
  recencyFactor Date_getTime now result =
  if (now - t <=? 30 * 86400000)%Z then 1.2
  else if (now - t <=? 90 * 86400000)%Z then 1.1 else 1.
Proof. unfold recencyFactor. now intros -> -> ->. Qed.

(** X21: other things equal, a higher relevance never gives a lower
    final score, and neither does a later timestamp (for a relevance
    that is not negative). *)
Theorem score_is_monotone now query a b :
  source a = source b -> content a = content b ->
  (context a = context b ->
   relevanceScore a <= relevanceScore b ->
   final now a query <= final now b query) /\
  (relevanceScore a = relevanceScore b -> 0 <= relevanceScore b ->
   forall tsa tsb ta tb,
     timestamp (context a) = Some tsa -> timestamp (context b) = Some tsb ->
     truthy (Some tsa) = true -> truthy (Some tsb) = true ->
     Date_getTime tsa = Some ta -> Date_getTime tsb = Some tb ->
     (ta <= tb)%Z ->
     final now a query <= final now b query).
Proof.
  intros Hsource Hcontent.
  pose proof (calculateFinalScore_factors Date_getTime now a query) as Ha.
  pose proof (calculateFinalScore_factors Date_getTime now b query) as Hb.
  fold final in Ha, Hb.
  rewrite (phraseFactor_content a b query Hcontent) in Ha.
  set (fa := final now a query) in *. set (fb := final now b query) in *.
  split.
  - intros Hcontext Hle.
    rewrite (recencyFactor_context now a b Hcontext) in Ha.
    destruct (sourceFactor_cases a)
      as [[Hsa Hfa]|[(Hsa & Hra & Hfa)|(Hsa & Hra & Hfa)]];
      destruct (sourceFactor_cases b)
        as [[Hsb Hfb]|[(Hsb & Hrb & Hfb)|(Hsb & Hrb & Hfb)]];
      try congruence;
      destruct (recencyFactor_cases now b) as [Hrf | [Hrf | Hrf]];
      destruct (phraseFactor_cases b query) as [Hpf | Hpf];
      rewrite Hfa, Hrf, Hpf in Ha; rewrite Hfb, Hrf, Hpf in Hb; lra.
  - intros Hrel Hpos tsa tsb ta tb Htsa Htsb Hta' Htb' Hta Htb Hle.
    assert (Hsf : sourceFactor a = sourceFactor b).
    { unfold sourceFactor. now rewrite Hsource, Hrel. }
    rewrite Hsf in Ha. rewrite Hrel in Ha.
    rewrite (recencyFactor_dated now a Htsa Hta' Hta) in Ha.
    rewrite (recencyFactor_dated now b Htsb Htb' Htb) in Hb.
    destruct (sourceFactor_cases b)
      as [[Hsb Hfb]|[(Hsb & Hrb & Hfb)|(Hsb & Hrb & Hfb)]];
      destruct (phraseFactor_cases b query) as [Hpf | Hpf];
      rewrite Hfb, Hpf in Ha, Hb;
      destruct (now - ta <=? 30 * 86400000)%Z eqn:Ha30;
      destruct (now - ta <=? 90 * 86400000)%Z eqn:Ha90;
      destruct (now - tb <=? 30 * 86400000)%Z eqn:Hb30;
      destruct (now - tb <=? 90 * 86400000)%Z eqn:Hb90;
      try lra; exfalso;
      rewrite ?Z.leb_le, ?Z.leb_gt in *; lia.
Qed.

(** The sort of [rankUnifiedResults] keeps the results of one score in
    the order they were given in. *)
Lemma rank_ties clock now results query (k : Q) :
  (forall i, clock i = now) ->
  filter (fun r => Qeq_bool (final now r query) k) (rank clock results query)
  = filter (fun r => Qeq_bool (final now r query) k) results.
Proof.
  intros Hclock. unfold rank, rankUnifiedResults.
  set (scored := scoreAll Date_getTime clock 0 results query).
  assert (Hscores : Forall (fun s => finalScore s
                                     = final now (result_of s) query) scored)
    by now apply scoreAll_scores.
  rewrite filter_map_swap.
  rewrite (filter_ext_in _ (fun s => Qeq_bool (finalScore s) k)).
  2:{ intros s Hs. rewrite Forall_forall in Hscores.
      rewrite Hscores; [reflexivity|].
      eapply Permutation_in; [apply Permutation_sym, sort_perm | exact Hs]. }
  unfold byFinalScoreDesc.
  rewrite (sort_ties finalScore k scored).
  rewrite (filter_ext_in _ (fun s => Qeq_bool (final now (result_of s) query) k)).
  2:{ intros s Hs. rewrite Forall_forall in Hscores. now rewrite Hscores. }
  rewrite <- (filter_map_swap (fun r => Qeq_bool (final now r query) k)
                result_of scored).
  unfold scored. now rewrite scoreAll_results.
Qed.

Lemma sourceEqb_eq (a b : Source) : sourceEqb a b = true -> a = b.
Proof. destruct a, b; intros H; try discriminate H; reflexivity. Qed.

(** Results that are scored from the same values have the same score. *)
Lemma alike_score now query a b :
  scoredAlike a b = true -> final now b query == final now a query.
Proof.
  unfold scoredAlike. intros H.
  apply andb_true_iff in H as [H Hts].
  apply andb_true_iff in H as [H Hcontent].
  apply andb_true_iff in H as [Hrel Hsource].
  apply Qeq_bool_iff in Hrel. apply sourceEqb_eq in Hsource.
  apply eqb_eq in Hcontent.
  unfold final.
  rewrite (calculateFinalScore_factors Date_getTime now a query).
  rewrite (calculateFinalScore_factors Date_getTime now b query).
  assert (Hsf : sourceFactor a = sourceFactor b).
  { unfold sourceFactor. rewrite Hsource.
    destruct (source b); [reflexivity|].
    destruct (Qlt_le_dec 8 (relevanceScore a)) as [Ha|Ha],
             (Qlt_le_dec 8 (relevanceScore b)) as [Hb|Hb];
      try reflexivity; exfalso; rewrite Hrel in Ha; lra. }
  assert (Hrf : recencyFactor Date_getTime now a
                = recencyFactor Date_getTime now b).
  { unfold recencyFactor.
    destruct (timestamp (context a)) as [[| | |x| |]|],
             (timestamp (context b)) as [[| | |y| |]|];
      try discriminate Hts; [|reflexivity].
    apply eqb_eq in Hts. now subst y. }
  rewrite (phraseFactor_content a b query Hcontent), Hsf, Hrf, Hrel.
  reflexivity.
Qed.

(** X22: [rankUnifiedResults] never changes the order of results that
    are scored from the same values: the results that have the relevance
    score, the source, the content and the timestamp of a given result
    come out in the order they were given in (all scores taken at one
    clock reading). *)
Theorem alike_keep_their_order clock now results query given :
  (forall i, clock i = now) ->
  filter (scoredAlike given) (rank clock results query)
  = filter (scoredAlike given) results.
Proof.
  intros Hclock.
  assert (Hsplit : forall l,
            filter (scoredAlike given) l
            = filter (scoredAlike given)
                (filter (fun r => Qeq_bool (final now r query)
                                           (final now given query)) l)).
  { induction l as [|r l IH]; [reflexivity|]. cbn [filter].
    destruct (scoredAlike given r) eqn:Hr.
    - pose proof (alike_score now query given r Hr) as Hscore.
      apply Qeq_bool_iff in Hscore. rewrite Hscore. cbn [filter].
      rewrite Hr. now rewrite IH.
    - destruct (Qeq_bool _ _); cbn [filter]; rewrite ?Hr; exact IH. }
  rewrite (Hsplit (rank clock results query)).
  rewrite (rank_ties clock results query (final now given query) Hclock).
  symmetry. apply Hsplit.
Qed.

End ScoreFacts.

(** ** Key terms and recommendations *)

Lemma firstn_In (A : Type) (n : nat) (l : list A) (x : A) :
  In x (firstn n l) -> In x l.
Proof.
  intros H. rewrite <- (firstn_skipn n l). apply in_or_app. now left.
Qed.

Lemma toLowerUnit_idem (c : ascii) : toLowerUnit (toLowerUnit c) = toLowerUnit c.
Proof. destruct c as [[] [] [] [] [] [] [] []]; vm_compute; reflexivity. Qed.

Lemma toLowerCase_idem (s : jsstring) : toLowerCase (toLowerCase s) = toLowerCase s.
Proof.
  unfold toLowerCase. rewrite map_map. apply map_ext. apply toLowerUnit_idem.
Qed.

Section QueryFacts.

Import Unified UnifiedSearch ConsciousnessQuery.

(** X23: [extractKeyTerms] returns at most five terms, in the order of
    the query; each is a part of the lower-cased query without white
    space in it, is longer than two units, is in lower case and is none
    of the stop words. *)
Theorem key_terms query :
  (length (extractKeyTerms query) <= 5)%nat /\
  forall term,
    In term (extractKeyTerms query) ->
    includes (toLowerCase query) term = true /\
    Forall (fun c => isWhiteSpace c = false) term /\
    (2 < length term)%nat /\
    toLowerCase term = term /\
    ~ In term stopWords.
Proof.
  unfold extractKeyTerms. split.
  { rewrite length_firstn. apply Nat.le_min_l. }
  intros term Hterm. apply firstn_In in Hterm.
  apply filter_In in Hterm as [Hword Hkey].
  unfold isKeyTerm in Hkey. apply andb_true_iff in Hkey as [Hlen Hstop].
  unfold words in Hword.
  pose proof (splitRuns_part _ _ _ _ Hword) as Hpart.
  split; [exact Hpart|]. split; [exact (splitRuns_clean _ _ _ _ Hword)|].
  split; [now apply Nat.ltb_lt|]. split.
  - unfold toLowerCase at 1.
    rewrite <- (map_id term) at 2. apply map_ext_in. intros c Hc.
    pose proof (includes_units _ _ c Hpart Hc) as Hin.
    unfold toLowerCase in Hin. apply in_map_iff in Hin as (c' & <- & _).
    apply toLowerUnit_idem.
  - intros Hin. apply negb_true_iff in Hstop.
    assert (Hex : existsb (eqb term) stopWords = true).
    { apply existsb_exists. exists term. split; [exact Hin | apply eqb_refl]. }
    congruence.
Qed.

Lemma countSource_total (results : list UnifiedConsciousnessResult) :
  (countSource session results + countSource memory_bank results
   = length results)%nat.
Proof.
  unfold countSource. induction results as [|r results IH]; [reflexivity|].
  cbn [filter]. destruct (source r); cbn [sourceEqb length]; lia.
Qed.

Lemma recommendations_none direct related :
  In noDirectMatches (generateRecommendations direct related)
  <-> direct = [].
Proof.
  unfold generateRecommendations.
  destruct (3 <? length related)%nat, direct as [|d direct].
  - split; [intros _; reflexivity | intros _; now left].
  - cbn [length Nat.eqb]. change (0 <? S (length direct))%nat with true.
    cbv beta iota zeta. split; [|discriminate]. intros Hin. exfalso.
    destruct (_ <? countSource session _)%nat,
             (_ <? countSource memory_bank _)%nat;
      cbn [app In] in Hin; intuition discriminate.
  - split; [intros _; reflexivity | intros _; now left].
  - cbn [length Nat.eqb]. change (0 <? S (length direct))%nat with true.
    cbv beta iota zeta. split; [|discriminate]. intros Hin. exfalso.
    destruct (_ <? countSource session _)%nat,
             (_ <? countSource memory_bank _)%nat;
      cbn [app In] in Hin; intuition discriminate.
Qed.

(** X24: the recommendations tell the shape of the answer: the first
    message is there exactly when there is no direct match; otherwise
    one of two messages tells which source has more direct matches
    (none when they are even); the last message is there exactly for
    more than three related insights.  There are never more than two
    of them. *)
Theorem recommendations_tell direct related :
  let recs := generateRecommendations direct related in
  (In noDirectMatches recs <-> direct = []) /\
  (In mostlySessions recs <->
     (countSource memory_bank direct < countSource session direct)%nat) /\
  (In mostlyMemory recs <->
     (countSource session direct < countSource memory_bank direct)%nat) /\
  (In manyRelated recs <-> (3 < length related)%nat) /\
  (length recs <= 2)%nat.
Proof.
  unfold generateRecommendations.
  pose proof (countSource_total direct) as Htotal.
  set (s := countSource session direct) in *.
  set (m := countSource memory_bank direct) in *.
  assert (Hne : noDirectMatches <> mostlySessions /\
                noDirectMatches <> mostlyMemory /\
                noDirectMatches <> manyRelated /\
                mostlySessions <> mostlyMemory /\
                mostlySessions <> manyRelated /\
                mostlyMemory <> manyRelated)
    by (repeat split; discriminate).
  destruct Hne as (H1 & H2 & H3 & H4 & H5 & H6).
  assert (Hnil : length direct = 0%nat <-> direct = []).
  { destruct direct; split; intros H; try reflexivity; discriminate. }
  destruct (Nat.eqb_spec (length direct) 0) as [He|He];
    destruct (Nat.ltb_spec 0 (length direct)) as [Hp|Hp]; try lia;
    try destruct (Nat.ltb_spec m s) as [Hms|Hms];
    try destruct (Nat.ltb_spec s m) as [Hsm|Hsm];
    destruct (Nat.ltb_spec 3 (length related)) as [Hrel|Hrel];
    cbn [app In length];
    repeat split; intros; try lia; try tauto;
    try (apply Hnil; lia);
    try (exfalso; intuition (try congruence; try lia); fail);
    try (rewrite Hnil in He; intuition (try congruence; try lia); fail).
Qed.

Variable JSON : JsonCodec.
Variable Date_getTime : json -> option Z.
Variable toISOString : Z -> jsstring.

Let search := searchAllConsciousness JSON Date_getTime toISOString.
Let ask := queryDevelopmentConsciousness JSON Date_getTime toISOString.

Lemma sameText_eq a b : sameText a b = true <-> a = b.
Proof.
  destruct a as [x|], b as [y|]; cbn [sameText];
    try (split; [discriminate | intros H; discriminate]);
    try (split; reflexivity).
  rewrite eqb_eq. split; [now intros -> | now intros [= ->]].
Qed.

(** X25: an answer of [queryDevelopmentConsciousness] holds the first
    ten results of the unified search for the whole query as direct
    matches, and at most five related insights, none of which repeats
    the content and session of any result of that search; a query
    without key terms has no related insights; the recommendations
    speak of no direct match exactly when there is none. *)
Theorem query_answer banks fs clocks query sessionSearchFunction answer :
  ask banks fs clocks query sessionSearchFunction = Ok answer ->
  exists direct,
    search banks fs (clocks 0%nat) query sessionSearchFunction = Ok direct /\
    directMatches answer = firstn 10 direct /\
    (length (directMatches answer) <= 10)%nat /\
    (length (relatedInsights answer) <= 5)%nat /\
    (forall related d,
       In related (relatedInsights answer) -> In d direct ->
       content d <> content related \/
       sessionId (context d) <> sessionId (context related)) /\
    (extractKeyTerms query = [] -> relatedInsights answer = []) /\
    (In noDirectMatches (recommendations answer)
     <-> directMatches answer = []).
Proof.
  unfold ask, queryDevelopmentConsciousness. fold search.
  destruct (search banks fs (clocks 0%nat) query sessionSearchFunction)
    as [direct|err]; cbn [bind]; [|discriminate].
  destruct (relatedFor _ _ _ _ _ _ _ _ _) as [related|err] eqn:Hrelated;
    cbn [bind]; [|discriminate].
  intros H.
  apply (f_equal (fun o => match o with Ok a => a | Throw _ => answer end))
    in H.
  cbv beta iota in H. subst answer.
  cbn [directMatches relatedInsights recommendations].
  exists direct. split; [reflexivity|]. split; [reflexivity|].
  split; [apply firstn_le_length|]. split; [apply firstn_le_length|].
  split.
  { intros r d Hr Hd. apply firstn_In in Hr. apply filter_In in Hr as [_ Hr].
    apply negb_true_iff in Hr.
    destruct (eqb (content d) (content r)) eqn:Hc.
    - right. intros Hs.
      assert (Hex : existsb (fun direct0 => repeats direct0 r) direct = true).
      { apply existsb_exists. exists d. split; [exact Hd|].
        unfold repeats. rewrite Hc. now apply sameText_eq. }
      congruence.
    - left. now apply eqb_neq. }
  split.
  { intros Hnone. rewrite Hnone in Hrelated. cbn [relatedFor] in Hrelated.
    injection Hrelated as <-. reflexivity. }
  rewrite recommendations_none. destruct direct; cbn [firstn]; split; try reflexivity;
    discriminate.
Qed.

End QueryFacts.

(** ** The server: project names *)

Section ProjectNames.

Import Server.

Lemma toUpperUnit_facts (c : ascii) :
  isHyphen (toUpperUnit c) = isHyphen c /\
  isWordUnit (toUpperUnit c) = isWordUnit c /\
  toUpperUnit (toUpperUnit c) = toUpperUnit c /\
  toLowerUnit (toUpperUnit c) = toLowerUnit c.
Proof. destruct c as [[] [] [] [] [] [] [] []]; vm_compute; repeat split. Qed.

Lemma capitalize_length afterWord (s : jsstring) :
  length (capitalize afterWord s) = length s.
Proof.
  revert afterWord. induction s as [|c s IH]; intros afterWord;
    [reflexivity|].
  cbn [capitalize length]. now rewrite IH.
Qed.

Lemma capitalize_hyphens afterWord (s : jsstring) :
  Forall (fun c => isHyphen c = false) s ->
  Forall (fun c => isHyphen c = false) (capitalize afterWord s).
Proof.
  intros H. revert afterWord.
  induction H as [|c s Hc Hs IH]; intros afterWord; [constructor|].
  cbn [capitalize]. constructor; [|apply IH].
  destruct (isWordUnit c && negb afterWord); [|exact Hc].
  now rewrite (proj1 (toUpperUnit_facts c)).
Qed.

Lemma capitalize_idem (s : jsstring) :
  forall afterWord,
  capitalize afterWord (capitalize afterWord s) = capitalize afterWord s.
Proof.
  induction s as [|c s IH]; intros afterWord; [reflexivity|].
  cbn [capitalize].
  destruct (toUpperUnit_facts c) as (_ & Hw & Hu & _).
  assert (Hhead : isWordUnit (if isWordUnit c && negb afterWord
                              then toUpperUnit c else c) = isWordUnit c).
  { now destruct (isWordUnit c && negb afterWord). }
  rewrite Hhead, IH. f_equal.
  destruct (isWordUnit c && negb afterWord); [exact Hu | reflexivity].
Qed.

Lemma capitalize_lower afterWord (s : jsstring) :
  toLowerCase (capitalize afterWord s) = toLowerCase s.
Proof.
  revert afterWord. induction s as [|c s IH]; intros afterWord;
    [reflexivity|].
  cbn [capitalize toLowerCase map]. unfold toLowerCase in IH. rewrite IH.
  f_equal. destruct (isWordUnit c && negb afterWord); [|reflexivity].
  apply toUpperUnit_facts.
Qed.

Lemma dropHyphens_length (s : jsstring) :
  (length (dropHyphens s) <= length s)%nat.
Proof.
  induction s as [|c s IH]; [reflexivity|].
  cbn [dropHyphens]. destruct (isHyphen c); cbn [length]; lia.
Qed.

Lemma dropHyphens_none (s : jsstring) :
  Forall (fun c => isHyphen c = false) s -> dropHyphens s = s.
Proof. intros H. destruct H as [|c s Hc _]; [reflexivity|]. cbn. now rewrite Hc. Qed.

Lemma hyphensToBlanks_clean (s : jsstring) :
  Forall (fun c => isHyphen c = false) (hyphensToBlanks s).
Proof.
  unfold hyphensToBlanks. apply Forall_map, Forall_forall. intros c _.
  destruct (isHyphen c) eqn:Hc; [reflexivity | exact Hc].
Qed.

Lemma hyphensToBlanks_none (s : jsstring) :
  Forall (fun c => isHyphen c = false) s -> hyphensToBlanks s = s.
Proof.
  unfold hyphensToBlanks. induction 1 as [|c s Hc _ IH]; [reflexivity|].
  cbn [map]. now rewrite Hc, IH.
Qed.

(** X26: the name [extractProjectName] makes of a project directory has
    no hyphen and is not longer than the directory name; it is the
    directory name without the hyphens at its ends and with a blank for
    every other hyphen, up to letter case; a name that was made this way
    is left as it is. *)
Theorem project_names projectId :
  let made := extractProjectName projectId in
  Forall (fun c => isHyphen c = false) made /\
  (length made <= length projectId)%nat /\
  toLowerCase made
    = toLowerCase (hyphensToBlanks
                     (dropTrailingHyphens (dropHyphens projectId))) /\
  extractProjectName made = made.
Proof.
  unfold extractProjectName.
  set (stripped := dropTrailingHyphens (dropHyphens projectId)).
  assert (Hclean : Forall (fun c => isHyphen c = false)
                     (capitalize false (hyphensToBlanks stripped))).
  { apply capitalize_hyphens, hyphensToBlanks_clean. }
  split; [exact Hclean|]. split.
  { rewrite capitalize_length. unfold hyphensToBlanks. rewrite length_map.
    unfold stripped, dropTrailingHyphens. rewrite length_rev.
    pose proof (dropHyphens_length (rev (dropHyphens projectId))) as H1.
    rewrite length_rev in H1.
    pose proof (dropHyphens_length projectId). lia. }
  split; [apply capitalize_lower|].
  set (made := capitalize false (hyphensToBlanks stripped)) in *.
  rewrite (dropHyphens_none Hclean).
  unfold dropTrailingHyphens.
  rewrite dropHyphens_none by (apply Forall_rev; exact Hclean).
  rewrite rev_involutive, (hyphensToBlanks_none Hclean).
  apply capitalize_idem.
Qed.

End ProjectNames.

(** ** The server: reading session files *)

Section SessionFiles.

Import Server.

Variable JSON : JsonCodec.
Variable stat : jsstring -> outcome Z.

Lemma tallyLine_step m t ps line :
  exists m' t' ps',
    tallyLine JSON (m, t, ps) line = (m', t', ps') /\
    (m + t <= m' + t' <= S (m + t))%nat /\
    (forall x, In x ps' -> In x ps \/ In x patternNames).
Proof.
  unfold tallyLine.
  destruct (JSON_parse JSON line) as [data|];
    [|exists m, t, ps; repeat split; auto].
  assert (Hone : strictEquals (typeOf data) (Some (JStr (str "message"))) = true ->
                 strictEquals (typeOf data) (Some (JStr (str "tool_call"))) = true ->
                 False).
  { intros H1 H2. apply strictEquals_str in H1, H2. rewrite H1 in H2.
    discriminate. }
  destruct data as [|b|n|s|items|o];
    try (exists m, t, ps; repeat split; auto; fail).
  all: eexists _, _, _; (split; [reflexivity|]).
  all: split.
  all: try (destruct (strictEquals _ (Some (JStr (str "message"))));
            destruct (strictEquals _ (Some (JStr (str "tool_call"))));
            try (exfalso; now apply Hone); lia).
  all: intros x Hx.
  all: destruct (includes line (str "exactly :P")),
                (includes line (str "breakthrough")),
                (includes line (str "consciousness")).
  all: repeat (apply in_app_or in Hx as [Hx|[<-|[]]]);
       try (left; exact Hx); right; unfold patternNames; cbn; tauto.
Qed.

Lemma tally_fold (lines : list jsstring) :
  forall m t ps,
  exists m' t' ps',
    fold_left (tallyLine JSON) lines (m, t, ps) = (m', t', ps') /\
    (m' + t' <= m + t + length lines)%nat /\
    (forall x, In x ps' -> In x ps \/ In x patternNames).
Proof.
  induction lines as [|line lines IH]; intros m t ps.
  - exists m, t, ps. cbn. repeat split; auto. lia.
  - cbn [fold_left].
    destruct (tallyLine_step m t ps line) as (m1 & t1 & ps1 & -> & H1 & Hps1).
    destruct (IH m1 t1 ps1) as (m' & t' & ps' & -> & H' & Hps').
    exists m', t', ps'. split; [reflexivity|]. split; [cbn [length]; lia|].
    intros x Hx. destruct (Hps' x Hx) as [H|H]; auto.
Qed.

Lemma unique_spec (l : list jsstring) :
  forall seen,
  NoDup (unique seen l) /\
  (forall x, In x (unique seen l) -> In x l /\ ~ In x seen).
Proof.
  induction l as [|x l IH]; intros seen; cbn [unique].
  - split; [constructor | intros x []].
  - destruct (existsb (eqb x) seen) eqn:Hseen.
    + destruct (IH seen) as [Hnd Hin]. split; [exact Hnd|].
      intros y Hy. destruct (Hin y Hy). split; [now right | assumption].
    + destruct (IH (x :: seen)) as [Hnd Hin]. split.
      * constructor; [|exact Hnd]. intros Hx.
        destruct (Hin x Hx) as [_ Hno]. apply Hno. now left.
      * intros y [<-|Hy].
        -- split; [now left|]. intros Hx.
           assert (existsb (eqb x) seen = true).
           { apply existsb_exists. exists x. split; [exact Hx | apply eqb_refl]. }
           congruence.
        -- destruct (Hin y Hy) as [Hl Hno]. split; [now right|].
           intros Hs. apply Hno. now right.
Qed.

(** X27: what [loadSession] reads off a session file: it counts every
    line at most once, as a message or as a tool call, and looks at the
    first hundred lines that are not blank only; the patterns it lists
    are among exactly_moment, breakthrough and consciousness, each at
    most once. *)
Theorem session_tallies fs sessionId projectId sessionPath loaded :
  loadSession JSON stat fs sessionId projectId sessionPath = Some loaded ->
  id loaded = sessionId /\
  Server.projectId loaded = projectId /\
  filePath loaded = sessionPath /\
  stat sessionPath = Ok (timestamp loaded) /\
  (exists content,
     BankManager.readFile fs sessionPath = Ok content /\
     (messageCount loaded + toolCalls loaded
      <= Nat.min 100 (length (contentLines content)))%nat) /\
  NoDup (patterns loaded) /\
  incl (patterns loaded) patternNames /\
  (length (patterns loaded) <= 3)%nat.
Proof.
  unfold loadSession.
  destruct (stat sessionPath) as [mtime|err]; [|discriminate].
  destruct (BankManager.readFile fs sessionPath) as [content|err];
    [|discriminate].
  destruct (tally_fold (firstn 100 (contentLines content)) 0 0 [])
    as (m & t & ps & -> & Hcount & Hps).
  intros H. injection H as <-.
  cbn [id Server.projectId filePath timestamp messageCount toolCalls patterns].
  repeat (split; [reflexivity|]).
  split.
  { exists content. split; [reflexivity|].
    rewrite length_firstn in Hcount. lia. }
  destruct (unique_spec ps []) as [Hnd Hin].
  assert (Hincl : incl (unique [] ps) patternNames).
  { intros x Hx. destruct (Hin x Hx) as [Hx' _].
    destruct (Hps x Hx') as [[]|H]. exact H. }
  split; [exact Hnd|]. split; [exact Hincl|].
  exact (NoDup_incl_length Hnd Hincl).
Qed.

End SessionFiles.

(** ** The server: sessions for the extractor *)

Section SessionData.

Import Server.

Variable JSON : JsonCodec.
Variable numberText : number -> jsstring.
Variable toISOString : Z -> jsstring.
Variable toolArrow : jsstring.








End SessionData.

(** ** The server: searching the sessions *)

Section SessionSearch.

Import Server.

Lemma firstn_sorted (A : Type) (R : A -> A -> Prop) (n : nat) (l : list A) :
  StronglySorted R l -> StronglySorted R (firstn n l).
Proof.
  intros H. revert n. induction H as [|x l Hl IH Hx]; intros n.
  - rewrite firstn_nil. constructor.
  - destruct n as [|n]; [constructor|]. cbn [firstn].
    constructor; [apply IH|]. rewrite Forall_forall in *.
    intros y Hy. apply Hx. exact (firstn_In _ _ _ Hy).
Qed.

Lemma scanPatterns_bounds queryLower (patterns : list jsstring) :
  forall acc,
  let acc' := scanPatterns queryLower patterns acc in
  exists j,
    fst acc' = (fst acc + 2 * Z.of_nat j)%Z /\
    length (snd acc') = (length (snd acc) + j)%nat /\
    (j <= length patterns)%nat.
Proof.
  unfold scanPatterns.
  induction patterns as [|pattern rest IH]; intros acc; cbv zeta.
  - exists 0%nat. cbn [fold_left length]. repeat split; lia.
  - cbn [fold_left]. destruct (includes (toLowerCase pattern) queryLower).
    + destruct (IH ((fst acc + 2)%Z, snd acc ++ [str "Pattern: " ++ pattern]))
        as (j & Hz & Hl & Hj).
      cbv zeta in Hz, Hl. cbn [fst snd] in Hz, Hl.
      rewrite length_app in Hl. cbn [length] in Hl.
      exists (S j). rewrite Hz, Hl. cbn [length]. repeat split; lia.
    + destruct (IH acc) as (j & Hz & Hl & Hj).
      exists j. cbn [length]. repeat split; try assumption. lia.
Qed.

Lemma scanLines_bounds queryLower (lines : list jsstring) :
  forall i acc,
  let acc' := scanLines queryLower i lines acc in
  exists k,
    fst acc' = (fst acc + Z.of_nat k)%Z /\
    length (snd acc') = (length (snd acc) + k)%nat /\
    (k = 0 \/ length (snd acc) + k <= 6 \/ k = 1)%nat.
Proof.
  induction lines as [|line rest IH]; intros i acc; cbv zeta.
  - exists 0%nat. cbn [scanLines]. repeat split; try lia.
  - cbn [scanLines]. destruct (includes (toLowerCase line) queryLower).
    + cbn [fst snd]. rewrite length_app. cbn [length].
      destruct (5 <? length (snd acc) + 1)%nat eqn:Hfull.
      * exists 1%nat. cbn [fst snd]. rewrite length_app. cbn [length].
        repeat split; try lia.
      * apply Nat.ltb_ge in Hfull.
        match goal with
        | |- context [scanLines queryLower (S i) rest ?a] =>
            destruct (IH (S i) a) as (k & Hz & Hl & Hk)
        end.
        cbv zeta in Hz, Hl. cbn [fst snd] in Hz, Hl, Hk.
        rewrite length_app in Hl, Hk. cbn [length] in Hl, Hk.
        exists (S k). rewrite Hz, Hl. repeat split; try lia.
    + destruct (IH (S i) acc) as (k & Hz & Hl & Hk). now exists k.
Qed.

Lemma searchSession_shape projects fs queryLower found :
  Forall (fun r =>
            session r = found /\
            mapGet projects (projectId found) = Some (project r) /\
            (1 <= relevance r
             <= 9 + 2 * Z.of_nat (length (patterns found)))%Z /\
            (1 <= length (matchedContent r))%nat /\
            (Z.of_nat (length (matchedContent r)) <= relevance r)%Z)
         (searchSession projects fs queryLower found).
Proof.
  unfold searchSession.
  destruct (mapGet projects (projectId found)) as [owner|]; [|constructor].
  set (acc1 := if includes (toLowerCase (name owner)) queryLower
               then _ else _).
  assert (H1 : (fst acc1 = 3 /\ length (snd acc1) = 1%nat \/
                fst acc1 = 0 /\ length (snd acc1) = 0%nat)%Z).
  { unfold acc1. destruct (includes _ _); cbn; auto. }
  destruct (scanPatterns_bounds queryLower (patterns found) acc1)
    as (j & Hz2 & Hl2 & Hj).
  cbv zeta in Hz2, Hl2.
  set (acc2 := scanPatterns queryLower (patterns found) acc1) in *.
  set (acc3 := match BankManager.readFile fs (filePath found) with
               | Ok content => _
               | Throw _ => acc2
               end).
  assert (H3 : exists k,
            fst acc3 = (fst acc2 + Z.of_nat k)%Z /\
            length (snd acc3) = (length (snd acc2) + k)%nat /\
            (k = 0 \/ length (snd acc2) + k <= 6 \/ k = 1)%nat).
  { unfold acc3.
    destruct (BankManager.readFile fs (filePath found)) as [content|err].
    - apply scanLines_bounds.
    - exists 0%nat. repeat split; lia. }
  destruct H3 as (k & Hz3 & Hl3 & Hk).
  destruct (0 <? fst acc3)%Z eqn:Hpos; [|constructor].
  apply Z.ltb_lt in Hpos. constructor; [|constructor].
  cbn [session project relevance matchedContent].
  split; [reflexivity|]. split; [reflexivity|]. lia.
Qed.

(** X29: [searchSessions] returns the sessions of known projects that
    match, the best first and not more than the limit; the relevance of
    a result is a whole number from 1 to 9 plus twice the number of
    patterns of its session (3 for the project name, 2 for a pattern and
    at most 6 for lines of the file), and it lists at least one matched
    content and not more of them than its relevance.  The search handed
    to the unified search returns at most 50 of them. *)
Theorem session_search_results projects sessions fs query limit :
  let results := searchSessions projects sessions fs query limit in
  StronglySorted (fun a b => (relevance b <= relevance a)%Z) results /\
  ((0 <= limit)%Z -> (length results <= Z.to_nat limit)%nat) /\
  Forall (fun r =>
            In (session r) (map snd sessions) /\
            mapGet projects (projectId (session r)) = Some (project r) /\
            (1 <= relevance r
             <= 9 + 2 * Z.of_nat (length (patterns (session r))))%Z /\
            (1 <= length (matchedContent r))%nat /\
            (Z.of_nat (length (matchedContent r)) <= relevance r)%Z)
         results /\
  exists found,
    sessionSearchFunction projects sessions fs query = Ok found /\
    (length found <= 50)%nat /\
    Forall (fun r => 1 <= UnifiedSearch.relevance r) found.
Proof.
  unfold searchSessions.
  set (hits := flat_map (searchSession projects fs (toLowerCase query))
                        (map snd sessions)).
  assert (Hhits : Forall (fun r =>
            In (session r) (map snd sessions) /\
            mapGet projects (projectId (session r)) = Some (project r) /\
            (1 <= relevance r
             <= 9 + 2 * Z.of_nat (length (patterns (session r))))%Z /\
            (1 <= length (matchedContent r))%nat /\
            (Z.of_nat (length (matchedContent r)) <= relevance r)%Z) hits).
  { apply Forall_forall. intros r Hr. unfold hits in Hr.
    apply in_flat_map in Hr as (found & Hfound & Hr).
    pose proof (searchSession_shape projects fs (toLowerCase query) found)
      as Hshape.
    rewrite Forall_forall in Hshape.
    destruct (Hshape r Hr) as (-> & Hp & Hrel & Hm). now repeat split. }
  assert (Hsorted : StronglySorted (fun a b => (relevance b <= relevance a)%Z)
                      (sort byRelevance hits)).
  { pose proof (sort_sorted (fun r => inject_Z (relevance r)) hits) as Hs.
    clear - Hs. unfold byRelevance. induction Hs as [|x l Hl IH Hx];
      constructor; [exact IH|].
    eapply Forall_impl; [|exact Hx]. intros y Hy. cbv beta in Hy. rewrite Zle_Qle. exact Hy. }
  assert (Hall : forall limit',
            Forall (fun r =>
              In (session r) (map snd sessions) /\
              mapGet projects (projectId (session r)) = Some (project r) /\
              (1 <= relevance r
               <= 9 + 2 * Z.of_nat (length (patterns (session r))))%Z /\
              (1 <= length (matchedContent r))%nat /\
              (Z.of_nat (length (matchedContent r)) <= relevance r)%Z)
              (Server.slice0 limit' (sort byRelevance hits))).
  { intros limit'. apply Forall_forall. intros r Hr.
    rewrite Forall_forall in Hhits. apply Hhits.
    eapply Permutation_in; [apply Permutation_sym, sort_perm|].
    unfold Server.slice0 in Hr.
    destruct (limit' <? 0)%Z; exact (firstn_In _ _ _ Hr). }
  cbv zeta. split.
  { unfold Server.slice0. destruct (limit <? 0)%Z; now apply firstn_sorted. }
  split.
  { intros Hlimit. unfold Server.slice0.
    destruct (limit <? 0)%Z eqn:Hneg; [apply Z.ltb_lt in Hneg; lia|].
    apply firstn_le_length. }
  split; [apply Hall|].
  unfold sessionSearchFunction, searchSessions. fold hits.
  eexists. split; [reflexivity|]. split.
  { rewrite length_map. unfold Server.slice0. cbn [Z.ltb Z.compare].
    change (Z.to_nat 50) with 50%nat. apply firstn_le_length. }
  apply Forall_map. eapply Forall_impl; [|exact (Hall 50%Z)].
  intros r (_ & _ & Hrel & _). cbn [UnifiedSearch.relevance asSessionResult].
  change 1 with (inject_Z 1). rewrite <- Zle_Qle. lia.
Qed.

End SessionSearch.

(** ** The further properties on the sample data *)

Section MoreWitnesses.

Import Samples MoreSamples.


Lemma entities_created_once_witness :
  exists stored fs1 fs2,
    BankManager.createEntitiesInBank JsonText.codec banks noFiles timestamp
      (str "development_patterns") [scoredPattern; scoredPattern]
    = Ok (stored, fs1) /\
    BankManager.createEntitiesInBank JsonText.codec banks fs1 timestamp
      (str "development_patterns") [scoredPattern; scoredPattern]
    = Ok ([], fs2).
Proof.
  destruct (@entities_created_once JsonText.codec JsonTextFacts.codec_laws
              banks noFiles timestamp timestamp (str "development_patterns")
              devBank [scoredPattern; scoredPattern])
    as (stored & fs1 & fs2 & H1 & H2 & _).
  - reflexivity.
  - reflexivity.
  - repeat constructor.
  - exists stored, fs1, fs2. split; [exact H1 | exact H2].
Defined.


Lemma list_counts_created_witness :
  exists stored fs' rows,
    BankManager.createEntitiesInBank JsonText.codec banks noFiles timestamp
      (str "development_patterns") [authPattern; scoredPattern]
    = Ok (stored, fs') /\
    BankOperations.listBanks JsonText.codec banks fs' = Ok rows /\
    length rows = 1%nat /\
    exists row, In row rows /\
                BankOperations.entityCount row = length stored.
Proof.
  destruct (@list_counts_created JsonText.codec JsonTextFacts.codec_laws
              banks noFiles timestamp (str "development_patterns") devBank
              [authPattern; scoredPattern])
    as (before & stored & fs' & rows & Hload & Hcreate & Hlist & Hlen & Hrow).
  - reflexivity.
  - reflexivity.
  - repeat constructor.
  - exists stored, fs', rows. split; [exact Hcreate|]. split; [exact Hlist|].
    split; [exact Hlen|]. eexists. split; [exact Hrow|].
    vm_compute in Hload. injection Hload as <-. reflexivity.
Defined.

Lemma initialize_keeps_banks_witness :
  exists fs',
    BankOperations.initializeAllBanks banks noFiles = Ok fs' /\
    fs' (BankManager.filePath devBank) = Some (BankManager.File []) /\
    BankOperations.initializeAllBanks banks fs' = Ok fs'.
Proof.
  destruct (@initialize_keeps_banks JsonText.codec banks noFiles eq_refl)
    as (fs' & Hinit & Hpaths & _ & _ & Hagain).
  exists fs'. split; [exact Hinit|]. split; [|exact Hagain].
  destruct (Hpaths (BankManager.filePath devBank)) as [Hsame|[_ Hnew]];
    [|exact Hnew].
  vm_compute in Hinit. injection Hinit as <-. discriminate Hsame.
Defined.

Lemma search_scores_witness :
  exists results,
    BankManager.searchBank JsonText.codec banks oneEntityFiles
      (str "development_patterns") (str "AUTH") = Ok results /\
    map Unified.relevanceScore results = [inject_Z 10].
Proof.
  destruct (@search_scores JsonText.codec banks oneEntityFiles
              (str "development_patterns") devBank (str "AUTH") _
              eq_refl eq_refl)
    as (results & Hsearch & Hperm & _).
  - vm_compute. repeat constructor.
  - exists results. split; [exact Hsearch|].
    vm_compute in Hsearch. injection Hsearch as <-. reflexivity.
Defined.

Lemma empty_query_lists_all_witness :
  exists results,
    BankManager.searchBank JsonText.codec banks oneEntityFiles
      (str "development_patterns") [] = Ok results /\
    length results = 1%nat.
Proof.
  destruct (@empty_query_lists_all JsonText.codec banks oneEntityFiles
              (str "development_patterns") devBank _ eq_refl eq_refl)
    as (results & Hsearch & Hlen & _).
  - vm_compute. repeat constructor.
  - exists results. split; [exact Hsearch | exact Hlen].
Defined.

Lemma nameless_entity_breaks_search_witness :
  (exists what,
     BankManager.searchBank JsonText.codec banks namelessFiles
       (str "development_patterns") (str "auth") = Throw (TypeError what)) /\
  exists err,
    BankManager.searchAllBanks JsonText.codec banks namelessFiles (str "auth")
    = Throw err.
Proof.
  apply (@nameless_entity_breaks_search JsonText.codec banks namelessFiles
           (str "development_patterns") devBank _
           (BankManager.tagged "entity" devBank nameless) (str "auth")
           eq_refl eq_refl).
  - vm_compute. now left.
  - intros n. vm_compute. discriminate.
Defined.

Lemma all_banks_results_witness :
  exists results,
    BankManager.searchAllBanks JsonText.codec banks oneEntityFiles (str "auth")
    = Ok results /\
    StronglySorted
      (fun a b => Unified.relevanceScore b <= Unified.relevanceScore a)
      results.
Proof.
  destruct (@all_banks_results JsonText.codec banks oneEntityFiles (str "auth")
              _ eq_refl) as (Hsorted & _).
  eexists. split; [reflexivity | exact Hsorted].
Defined.

Lemma created_is_found_witness :
  exists stored fs' results r,
    BankManager.createEntitiesInBank JsonText.codec banks noFiles timestamp
      (str "development_patterns") [scoredPattern; authPattern]
    = Ok (stored, fs') /\
    BankManager.searchBank JsonText.codec banks fs'
      (str "development_patterns") (str "AUTH PATTERN") = Ok results /\
    In r results /\
    Unified.entityName r = Some (JStr (str "Auth Pattern")).
Proof.
  destruct (@created_is_found JsonText.codec JsonTextFacts.codec_laws
              banks noFiles timestamp (str "development_patterns") devBank
              _ [scoredPattern; authPattern] authPattern (str "Auth Pattern")
              (str "AUTH PATTERN") eq_refl eq_refl eq_refl)
    as (stored & fs' & results & r & Hcreate & Hsearch & Hin & Hname & _).
  - vm_compute. constructor.
  - repeat constructor.
  - right. now left.
  - reflexivity.
  - reflexivity.
  - exists stored, fs', results, r. now repeat split.
Defined.

Lemma collaboration_gate_witness :
  exists out p,
    PatternExtractor.extractPatternsFromSession toISOString toolArrow 0
      teamwork = Ok out /\
    In p out /\
    PatternExtractor.content p
    = str "We should work on this together with care".
Proof.
  destruct (@collaboration_gate toISOString toolArrow 0 teamwork _ _
              eq_refl eq_refl) as (out & Hout & Hsentence & _).
  destruct (Hsentence (str "We should work on this together with care"))
    as (_ & Htwo).
  - vm_compute. now left.
  - destruct Htwo as (p & _ & Hcontent & _ & _ & Hin).
    + vm_compute. constructor.
    + exists out, p. split; [exact Hout|]. split; [exact Hin|].
      rewrite Hcontent. reflexivity.
Defined.

Lemma solution_gate_witness :
  exists out p,
    PatternExtractor.extractPatternsFromSession toISOString toolArrow 0
      planning = Ok out /\
    In p out /\
    PatternExtractor.confidence p == 0.7.
Proof.
  destruct (@solution_gate toISOString toolArrow 0 planning _ _
              eq_refl eq_refl) as (out & Hout & Hsentence & _).
  destruct (Hsentence
              (str "How should we pick the approach and the method here"))
    as (_ & Htwo).
  - vm_compute. now left.
  - reflexivity.
  - destruct Htwo as (p & _ & _ & Hconfidence & Hin).
    + vm_compute. constructor.
    + exists out, p. split; [exact Hout|]. split; [exact Hin|].
      exact Hconfidence.
Defined.

Lemma tool_usage_pattern_witness :
  exists out p,
    PatternExtractor.extractPatternsFromSession toISOString toolArrow 0
      threeCalls = Ok out /\
    In p out /\
    PatternExtractor.content p
    = str "Tool usage pattern: grep -> read -> edit".
Proof.
  destruct (@tool_usage_pattern toISOString toolArrow 0 threeCalls _ _
              eq_refl eq_refl) as (out & Hout & Hthree & _).
  destruct Hthree as (p & _ & Hin & _ & _ & Hcontent & _).
  - vm_compute. repeat constructor.
  - exists out, p. split; [exact Hout|]. split; [exact Hin|].
    rewrite Hcontent. reflexivity.
Defined.

Lemma confidence_range_witness :
  exists out,
    PatternExtractor.extractPatternsFromSession toISOString toolArrow 0
      marker = Ok out /\
    forall p, In p out ->
              0.5 < PatternExtractor.confidence p /\
              PatternExtractor.confidence p <= 0.95.
Proof.
  destruct (@confidence_range toISOString toolArrow 0 marker _ _
              eq_refl eq_refl) as (out & Hout & _ & Hrange).
  exists out. split; [exact Hout | exact Hrange].
Defined.

Lemma patterns_quote_the_text_witness :
  exists out,
    PatternExtractor.extractPatternsFromSession toISOString toolArrow 0
      teamwork = Ok out /\
    forall p, In p out ->
              includes (str "We should work on this together with care")
                       (PatternExtractor.content p) = true.
Proof.
  destruct (@patterns_quote_the_text toISOString toolArrow 0 teamwork _ _
              eq_refl eq_refl) as (_ & out & Hout & Hquote).
  exists out. split; [exact Hout|]. intros p Hp.
  destruct (Hquote p Hp) as [[]|(Hpart & _)]. exact Hpart.
Defined.

Lemma final_score_bounds_witness :
  9 <= UnifiedSearch.calculateFinalScore Date_getTime (clock 0) (bankHit 9)
         (str "auth") /\
  UnifiedSearch.calculateFinalScore Date_getTime (clock 0) (bankHit 9)
    (str "auth") < 9 * 1.8.
Proof.
  destruct (@final_score_bounds Date_getTime (clock 0) (bankHit 9) (str "auth"))
    as (Hlow & Hhigh & _).
  - vm_compute. discriminate.
  - vm_compute. discriminate.
  - split; [exact Hlow | exact Hhigh].
Defined.

Lemma score_is_monotone_witness :
  UnifiedSearch.calculateFinalScore Date_getTime (clock 0) (bankHit 8)
    (str "auth")
  <= UnifiedSearch.calculateFinalScore Date_getTime (clock 0) (bankHit 9)
       (str "auth").
Proof.
  destruct (@score_is_monotone Date_getTime (clock 0) (str "auth")
              (bankHit 8) (bankHit 9) eq_refl eq_refl) as (Hrelevance & _).
  apply Hrelevance; [reflexivity|]. vm_compute. discriminate.
Defined.

Lemma alike_keep_their_order_witness :
  filter (ConsciousnessQuery.scoredAlike (sessionHit 2))
         (UnifiedSearch.rankUnifiedResults Date_getTime clock
            [sessionHit 2; bankHit 9; sessionHit 2] (str "auth"))
  = [sessionHit 2; sessionHit 2].
Proof.
  rewrite (@alike_keep_their_order Date_getTime clock (clock 0)
             [sessionHit 2; bankHit 9; sessionHit 2] (str "auth")
             (sessionHit 2)).
  - reflexivity.
  - intros i. reflexivity.
Defined.

Lemma query_answer_witness :
  exists answer,
    ConsciousnessQuery.queryDevelopmentConsciousness JsonText.codec
      Date_getTime toISOString banks oneEntityFiles clocks
      (str "how do i add auth") sessionSearch = Ok answer /\
    (length (ConsciousnessQuery.directMatches answer) <= 10)%nat /\
    (length (ConsciousnessQuery.relatedInsights answer) <= 5)%nat.
Proof.
  assert (H : exists answer,
             ConsciousnessQuery.queryDevelopmentConsciousness JsonText.codec
               Date_getTime toISOString banks oneEntityFiles clocks
               (str "how do i add auth") sessionSearch = Ok answer).
  { vm_compute. eexists. reflexivity. }
  destruct H as [answer H]. exists answer. split; [exact H|].
  destruct (@query_answer JsonText.codec Date_getTime toISOString banks
              oneEntityFiles clocks (str "how do i add auth") sessionSearch
              answer H)
    as (direct & _ & _ & Hdirect & Hrelated & _).
  split; [exact Hdirect | exact Hrelated].
Defined.

Lemma session_tallies_witness :
  exists loaded,
    Server.loadSession JsonText.codec stat sessionFiles (str "s1")
      (str "-home-dev-api") sessionPath = Some loaded /\
    (Server.messageCount loaded + Server.toolCalls loaded <= 2)%nat /\
    NoDup (Server.patterns loaded).
Proof.
  assert (H : exists loaded,
             Server.loadSession JsonText.codec stat sessionFiles (str "s1")
               (str "-home-dev-api") sessionPath = Some loaded).
  { vm_compute. eexists. reflexivity. }
  destruct H as [loaded H]. exists loaded. split; [exact H|].
  destruct (@session_tallies JsonText.codec stat sessionFiles (str "s1")
              (str "-home-dev-api") sessionPath loaded H)
    as (_ & _ & _ & _ & (content & Hread & Hcount) & Hnodup & _).
  split; [|exact Hnodup].
  vm_compute in Hread. injection Hread as <-.
  etransitivity; [exact Hcount|]. vm_compute. repeat constructor.
Defined.


End MoreWitnesses.
